(** * Page layout comparison: a shallow embedding of
      [app/mcp/tools/page_layout_comparison.py]

    The development follows the source file top to bottom: text helpers
    (the [str] methods the code calls), the Metadata API retrieve client
    ([_fetch_all_layouts]), the archive extractor
    ([_extract_layouts_from_zip]), the layout parser ([_parse_layout]), the
    diff engine ([_compare]), the CSV row helpers and the tool entry point
    ([compare_page_layouts]).

    Conventions.
    - A Python [str] is a Rocq [string] holding its UTF-8 encoding (as Rocq's
      own string literals do).  Every [str] of the program comes from
      decoding UTF-8, so the representation is exact; byte-wise
      lexicographic order on UTF-8 coincides with Python's code-point order.
    - A Python [set] of strings is a [gset string]; a [dict] whose key order
      is observable is an association list updated in place ([dict_set]); the
      per-org map of retrieved layouts, only read through [.get], is a
      [gmap string string].
    - Calls that leave the file (lxml, requests, zipfile, base64, [str.lower],
      the credential store, the file system) are fields of the type class
      [Externals]; the network additionally sees the clock and the log of
      earlier calls, which live in the [World] state threaded by the monad
      [M]. *)

From Stdlib Require Import ZArith NArith Ascii String List.
From Stdlib.Strings Require Import Byte.
From stdpp Require Import gmap strings list sorting pretty.

#[local] Set Warnings "-clear-no-such-hyp".
Local Open Scope string_scope.
Local Open Scope Z_scope.

(* ===================================================================== *)
(** ** Text helpers: the [str] methods used by the source *)
(* ===================================================================== *)

Module Text.

Definition code (a : ascii) : N := N_of_ascii a.

(** UTF-8 encoding of one code point (scalar values only). *)
Definition utf8_encode_cp (c : N) : string :=
  let ch (n : N) := String (ascii_of_N n) EmptyString in
  if (c <? 128)%N then ch c
  else if (c <? 2048)%N then
    ch (192 + c / 64)%N ++ ch (128 + c mod 64)%N
  else if (c <? 65536)%N then
    ch (224 + c / 4096)%N ++ ch (128 + (c / 64) mod 64)%N
      ++ ch (128 + c mod 64)%N
  else
    ch (240 + c / 262144)%N ++ ch (128 + (c / 4096) mod 64)%N
      ++ ch (128 + (c / 64) mod 64)%N ++ ch (128 + c mod 64)%N.

(** The code points for which [str.isspace] holds; [str.strip()] without
    argument removes exactly these. *)
Definition whitespace_code_points : list N :=
  [9; 10; 11; 12; 13; 28; 29; 30; 31; 32; 133; 160; 5760;
   8192; 8193; 8194; 8195; 8196; 8197; 8198; 8199; 8200; 8201; 8202;
   8232; 8233; 8239; 8287; 12288]%N.

Definition whitespace_chars : list string :=
  Eval vm_compute in map utf8_encode_cp whitespace_code_points.

(** A text made of whitespace characters only (the empty text included). *)
Inductive whitespace_only : string -> Prop :=
| ws_empty : whitespace_only EmptyString
| ws_more w s :
    In w whitespace_chars -> whitespace_only s -> whitespace_only (w ++ s).

(** One-, two- and three-byte whitespace characters, by their bytes. *)
Definition ws1 (a : N) : bool :=
  ((9 <=? a) && (a <=? 13) || (28 <=? a) && (a <=? 32))%N.

Definition ws2 (a b : N) : bool :=
  ((a =? 194) && ((b =? 133) || (b =? 160)))%N.

Definition ws3 (a b c : N) : bool :=
  ((a =? 225) && (b =? 154) && (c =? 128)
   || (a =? 226) && (b =? 128)
      && ((128 <=? c) && (c <=? 138) || (c =? 168) || (c =? 169)
          || (c =? 175))
   || (a =? 226) && (b =? 129) && (c =? 159)
   || (a =? 227) && (b =? 128) && (c =? 128))%N.

(** [str.lstrip()]. *)
Fixpoint lstrip (s : string) : string :=
  match s with
  | EmptyString => s
  | String a r =>
      if ws1 (code a) then lstrip r
      else match r with
           | EmptyString => s
           | String b r2 =>
               if ws2 (code a) (code b) then lstrip r2
               else match r2 with
                    | EmptyString => s
                    | String c r3 =>
                        if ws3 (code a) (code b) (code c) then lstrip r3
                        else s
                    end
           end
  end.

(** The text read backwards. *)
Fixpoint reverse (s : string) : string :=
  match s with
  | EmptyString => EmptyString
  | String a r => reverse r ++ String a EmptyString
  end.

(** [lstrip] on the reversed text: the bytes of a character arrive last
    byte first. *)
Fixpoint lstrip_rev (s : string) : string :=
  match s with
  | EmptyString => s
  | String a r =>
      if ws1 (code a) then lstrip_rev r
      else match r with
           | EmptyString => s
           | String b r2 =>
               if ws2 (code b) (code a) then lstrip_rev r2
               else match r2 with
                    | EmptyString => s
                    | String c r3 =>
                        if ws3 (code c) (code b) (code a) then lstrip_rev r3
                        else s
                    end
           end
  end.

(** [str.rstrip()] and [str.strip()]. *)
Definition rstrip (s : string) : string :=
  reverse (lstrip_rev (reverse s)).

Definition strip (s : string) : string := rstrip (lstrip s).

(** Python truthiness of a [str]. *)
Definition nonempty (s : string) : bool :=
  match s with EmptyString => false | String _ _ => true end.

(** [s.split(sep)] for a one-character separator. *)
Fixpoint split (sep : ascii) (s : string) : list string :=
  match s with
  | EmptyString => [EmptyString]
  | String a r =>
      if Ascii.eqb a sep then EmptyString :: split sep r
      else match split sep r with
           | p :: ps => String a p :: ps
           | [] => [String a EmptyString]
           end
  end.

(** [sep.join(l)]. *)
Fixpoint join (sep : string) (l : list string) : string :=
  match l with
  | [] => EmptyString
  | [x] => x
  | x :: r => x ++ sep ++ join sep r
  end.

(** [s.startswith(p)], [s.endswith(p)] and [p in s]. *)
Definition startswith (p s : string) : bool := String.prefix p s.

Definition endswith (p s : string) : bool :=
  String.prefix (reverse p) (reverse s).

Fixpoint contains (p s : string) : bool :=
  startswith p s
  || match s with
     | EmptyString => false
     | String _ r => contains p r
     end.

(** A byte that continues a multi-byte character. *)
Definition is_continuation (a : ascii) : bool :=
  ((128 <=? code a) && (code a <? 192))%N.

(** Number of characters, [len(s)]. *)
Fixpoint len (s : string) : nat :=
  match s with
  | EmptyString => 0%nat
  | String a r => if is_continuation a then len r else S (len r)
  end.

(** Drop [n] characters from the front of a reversed text. *)
Fixpoint drop_chars_rev (n : nat) (s : string) : string :=
  match n, s with
  | O, _ => s
  | S n', EmptyString => s
  | S n', String a r =>
      if is_continuation a then drop_chars_rev n r
      else drop_chars_rev n' r
  end.

(** [s[:-n]] for [n > 0]. *)
Definition drop_last (n : nat) (s : string) : string :=
  reverse (drop_chars_rev n (reverse s)).

(** Keep the first [n] characters of a text, [s[:n]]. *)
Fixpoint take_chars (n : nat) (s : string) : string :=
  match s with
  | EmptyString => s
  | String a r =>
      if is_continuation a then String a (take_chars n r)
      else match n with
           | O => EmptyString
           | S n' => String a (take_chars n' r)
           end
  end.

(** [sorted(s)] for a set of strings: Python orders [str] by code points,
    which on UTF-8 text is the byte-wise lexicographic order [String.le]. *)
Definition sorted (s : gset string) : list string :=
  merge_sort String.le (elements s).

(** [bytes.decode("utf-8")] in strict mode: [None] stands for
    [UnicodeDecodeError]. *)
Fixpoint utf8_valid (bs : list N) : bool :=
  let cont (b : N) := ((128 <=? b) && (b <=? 191))%N in
  match bs with
  | [] => true
  | b0 :: r =>
      if (b0 <? 128)%N then utf8_valid r
      else match r with
      | [] => false
      | b1 :: r1 =>
          if ((194 <=? b0) && (b0 <=? 223))%N then cont b1 && utf8_valid r1
          else match r1 with
          | [] => false
          | b2 :: r2 =>
              if (b0 =? 224)%N then
                (160 <=? b1)%N && (b1 <=? 191)%N && cont b2 && utf8_valid r2
              else if ((225 <=? b0) && (b0 <=? 236) || (238 <=? b0) && (b0 <=? 239))%N then
                cont b1 && cont b2 && utf8_valid r2
              else if (b0 =? 237)%N then
                (128 <=? b1)%N && (b1 <=? 159)%N && cont b2 && utf8_valid r2
              else match r2 with
              | [] => false
              | b3 :: r3 =>
                  if (b0 =? 240)%N then
                    (144 <=? b1)%N && (b1 <=? 191)%N && cont b2 && cont b3
                    && utf8_valid r3
                  else if ((241 <=? b0) && (b0 <=? 243))%N then
                    cont b1 && cont b2 && cont b3 && utf8_valid r3
                  else if (b0 =? 244)%N then
                    (128 <=? b1)%N && (b1 <=? 143)%N && cont b2 && cont b3
                    && utf8_valid r3
                  else false
              end
          end
      end
  end.

Definition decode_utf8 (bs : list byte) : option string :=
  if utf8_valid (map Byte.to_N bs) then Some (string_of_list_byte bs)
  else None.

End Text.

Import Text.

(* ===================================================================== *)
(** ** Exceptions and results *)
(* ===================================================================== *)

(** The exception classes the file raises itself, and [External] for
    whatever a library call raises (class name and message). *)
Inductive Exn : Type :=
| ValueError (msg : string)
| RuntimeError (msg : string)
| TimeoutError (msg : string)
| KeyError (key : string)
| UnicodeDecodeError
| External (cls msg : string).

(** [str(exc)]. *)
Definition exn_str (e : Exn) : string :=
  match e with
  | ValueError msg | RuntimeError msg | TimeoutError msg => msg
  | KeyError key => "'" ++ key ++ "'"
  | UnicodeDecodeError => "'utf-8' codec can't decode bytes"
  | External _ msg => msg
  end.

(** Outcome of running a piece of code: a value, a raised exception, or
    [OutOfFuel] when the iteration budget of the model's loop is used up
    (shown below never to happen). *)
Inductive Result (A : Type) : Type :=
| Ok (a : A)
| Raise (e : Exn)
| OutOfFuel.
Arguments Ok {A} a.
Arguments Raise {A} e.
Arguments OutOfFuel {A}.

(** Pure code that may raise returns [Exn + A]. *)
#[global] Instance raising_ret : MRet (sum Exn) := fun A a => inr a.
#[global] Instance raising_bind : MBind (sum Exn) := fun A B f m =>
  match m with
  | inl e => inl e
  | inr a => f a
  end.

(* ===================================================================== *)
(** ** XML element trees (what lxml hands to the code) *)
(* ===================================================================== *)

Definition METADATA_NS : string := "http://soap.sforce.com/2006/04/metadata".

Module Xml.

(** An element: its tag in Clark notation ([{namespace}local]), its
    [.text] ([None] when lxml reports no text) and its child elements in
    document order. *)
#[warnings="-register-all"]
Inductive Element : Type :=
| Elem (tag : string) (text : option string) (children : list Element).

Definition tag (e : Element) : string :=
  match e with Elem t _ _ => t end.
Definition text (e : Element) : option string :=
  match e with Elem _ t _ => t end.
Definition children (e : Element) : list Element :=
  match e with Elem _ _ cs => cs end.

(** The tag a prefixed name [m:local] stands for under
    [ns = {"m": METADATA_NS}]. *)
Definition qname (local : string) : string :=
  "{" ++ METADATA_NS ++ "}" ++ local.

Definition has_tag (local : string) (e : Element) : bool :=
  String.eqb (tag e) (qname local).

(** [e.findall("m:local", ns)]: the children with that tag, in document
    order; [e.find("m:local", ns)]: the first of them. *)
Definition findall (local : string) (e : Element) : list Element :=
  List.filter (has_tag local) (children e).

Definition find (local : string) (e : Element) : option Element :=
  head (findall local e).

(** All proper descendants in document order, for the path [.//tag]. *)
Fixpoint descendants (e : Element) : list Element :=
  match e with
  | Elem _ _ cs => flat_map (fun c => c :: descendants c) cs
  end.

Definition find_descendant (local : string) (e : Element) : option Element :=
  head (List.filter (has_tag local) (descendants e)).

End Xml.
Import Xml.

(* ===================================================================== *)
(** ** Insertion-ordered dictionaries *)
(* ===================================================================== *)

Section Dict.
Context {V : Type}.

(** [d[k] = v]: an existing key keeps its position and gets the new
    value, a new key goes to the end. *)
Fixpoint dict_set (k : string) (v : V) (d : list (string * V))
  : list (string * V) :=
  match d with
  | [] => [(k, v)]
  | (k', v') :: r =>
      if String.eqb k k' then (k, v) :: r else (k', v') :: dict_set k v r
  end.

(** [d.get(k)]. *)
Fixpoint dict_get (k : string) (d : list (string * V)) : option V :=
  match d with
  | [] => None
  | (k', v') :: r => if String.eqb k k' then Some v' else dict_get k r
  end.

(** [d.keys()]. *)
Definition dict_keys (d : list (string * V)) : list string := map fst d.

(** [d[key x] = val x], the step of a loop that fills a dict. *)
Definition dict_assign {X} (key : X -> string) (val : X -> V)
    (d : list (string * V)) (x : X) : list (string * V) :=
  dict_set (key x) (val x) d.

End Dict.

(* ===================================================================== *)
(** ** Data model *)
(* ===================================================================== *)

(** The dict returned by [_parse_layout]. *)
Record LayoutModel : Type := {
  sections : list (string * list string);
  all_fields : gset string;
  related_lists : gset string;
}.

(** The dict returned by [_compare]. *)
Record Diff : Type := {
  fields_missing_in_target : list string;
  fields_extra_in_target : list string;
  sections_missing_in_target : list string;
  sections_extra_in_target : list string;
  related_lists_missing_in_target : list string;
  related_lists_extra_in_target : list string;
  source_field_count : nat;
  target_field_count : nat;
  source_section_count : nat;
  target_section_count : nat;
  source_related_list_count : nat;
  target_related_list_count : nat;
}.

(** A value of a CSV row or of a summary entry: text or integer. *)
Inductive Cell : Type :=
| CStr (s : string)
| CInt (n : Z).

#[global] Instance Cell_eq_dec : EqDecision Cell.
Proof. solve_decision. Defined.

Definition Row : Type := list (string * Cell).

(** The retrieve ZIP once opened: its entries in [namelist()] order. *)
Definition Archive : Type := list (string * list byte).

(** One [requests.post]: the URL, the SOAP envelope ([bytes]) and the
    [SOAPAction] header. *)
Record SoapCall : Type := {
  call_url : string;
  call_body : list byte;
  call_action : string;
}.

(** [requests.Response]: what [_soap_post] looks at. *)
Record HttpResponse : Type := {
  status_code : Z;
  resp_text : string;
  resp_content : list byte;
}.

(** The part of the outside world the tool reads and changes: the wall
    clock in milliseconds (it never runs backwards), the SOAP calls posted
    so far (oldest first) and the report files written so far (path and
    rows). *)
Record World : Type := {
  now : Z;
  posts : list SoapCall;
  files : list (string * list Row);
}.

(** Everything the file calls but does not define. *)
Class Externals : Type := {
  (** [str.lower] *)
  str_lower : string -> string;
  (** [etree.fromstring]; [inl] is the text of the [XMLSyntaxError] *)
  etree_fromstring : list byte -> string + Element;
  (** [base64.b64decode] *)
  b64decode : string -> Exn + list byte;
  (** [zipfile.ZipFile(io.BytesIO(..))] *)
  zip_open : list byte -> Exn + Archive;
  (** [requests.post(.., timeout=60)]: the answer (or the exception) and
      the time the call took, given the world before the call *)
  requests_post : World -> SoapCall -> (Exn + HttpResponse) * N;
  (** how much longer than asked a [time.sleep] started in this world
      takes, in milliseconds *)
  sleep_lag : World -> N;
  (** [str(get_config().salesforce_api_version)], [None] if that raises *)
  config_api_version : option string;
  (** [get_salesforce_connection()]: [sf_instance] and [session_id] *)
  get_salesforce_connection : Exn + (string * string);
  (** [get_stored_tokens()]: [instance_url] and [access_token] per user id *)
  get_stored_tokens : Exn + gmap string (string * string);
  (** [os.getcwd], [os.makedirs(.., exist_ok=True)], [os.path.*],
      [datetime.now().strftime("%Y%m%d_%H%M%S")], [open(.., "w")] *)
  os_getcwd : string;
  os_makedirs : string -> option Exn;
  os_path_join : string -> string -> string;
  os_path_dirname : string -> string;
  os_path_abspath : string -> string;
  now_timestamp : string;
  open_for_writing : string -> option Exn;
}.

(* ===================================================================== *)
(** ** The monad of the effectful code: state [World], exceptions *)
(* ===================================================================== *)

Definition M (A : Type) : Type := World -> Result A * World.

#[global] Instance M_ret : MRet M := fun A a w => (Ok a, w).
#[global] Instance M_bind : MBind M := fun A B f m w =>
  match m w with
  | (Ok a, w') => f a w'
  | (Raise e, w') => (Raise e, w')
  | (OutOfFuel, w') => (OutOfFuel, w')
  end.

Definition raise {A} (e : Exn) : M A := fun w => (Raise e, w).
Definition out_of_fuel {A} : M A := fun w => (OutOfFuel, w).

(** Run pure code that may raise. *)
Definition lift {A} (r : Exn + A) : M A := fun w =>
  match r with
  | inl e => (Raise e, w)
  | inr a => (Ok a, w)
  end.

(** [try: m  except Exception as e: h e]. *)
Definition try_except {A} (m : M A) (h : Exn -> M A) : M A := fun w =>
  match m w with
  | (Raise e, w') => h e w'
  | r => r
  end.

(** [time.time()] and [time.sleep(seconds)]. *)
Definition time_time : M Z := fun w => (Ok (now w), w).

Definition time_sleep `{Externals} (seconds : Z) : M unit := fun w =>
  (Ok tt, {| now := now w + 1000 * seconds + Z.of_N (sleep_lag w);
             posts := posts w;
             files := files w |}).


(** What the tool returns: [format_error_response(e, context=..)] or
    [format_success_response({..})]. *)
Record SuccessData : Type := {
  message : string;
  csv_file : string;
  total_layouts : nat;
  compared : nat;
  not_found : nat;
  errors : nat;
  same_org : bool;
  source_org : string;
  target_org : string;
  api_version : string;
  summary : list Row;
}.

Inductive Response : Type :=
| ErrorResponse (e : Exn) (context : string)
| SuccessResponse (data : SuccessData).

Section Program.
Context `{Ext : Externals}.

(* --------------------------------------------------------------------- *)
(** *** Org credential helpers *)
(* --------------------------------------------------------------------- *)

Definition _get_org_credentials (user_id : option string)
  : Exn + (string * string * string) :=
  let api_version := default "59.0" config_api_version in
  match user_id with
  | None =>
      sf ← get_salesforce_connection;
      let instance_url := "https://" ++ sf.1 in
      mret (instance_url, sf.2, api_version)
  | Some uid =>
      tokens ← get_stored_tokens;
      match tokens !! uid with
      | None =>
          inl (ValueError
                 ("No active session found for org user_id='" ++ uid ++ "'. "
                  ++ "Run list_connected_orgs to see connected orgs, then login first."))
      | Some t => mret (t.1, t.2, api_version)
      end
  end.

(* --------------------------------------------------------------------- *)
(** *** Metadata API retrieve *)
(* --------------------------------------------------------------------- *)

(** The line feed and the double quote of the envelope templates. *)
Definition nl : string := String (ascii_of_nat 10) EmptyString.
Definition dq : string := String (ascii_of_nat 34) EmptyString.

(** [f"{x}"] for a text that may be [None]. *)
Definition fmt_text (t : option string) : string := default "None" t.

(** The two opening lines shared by both envelopes. *)
Definition envelope_head : list string :=
  [ "<?xml version=" ++ dq ++ "1.0" ++ dq ++ " encoding=" ++ dq ++ "UTF-8"
      ++ dq ++ "?>";
    "<soapenv:Envelope xmlns:soapenv=" ++ dq
      ++ "http://schemas.xmlsoap.org/soap/envelope/" ++ dq;
    "                  xmlns:met=" ++ dq ++ METADATA_NS ++ dq ++ ">" ].

Definition _build_retrieve_envelope (token api_version : string)
    (layout_names : list string) : list byte :=
  let members_xml :=
    join (nl ++ "                        ")
      (map (fun n => "<met:members>" ++ n ++ "</met:members>") layout_names) in
  let soap :=
    join nl
      (List.app envelope_head
       [ "    <soapenv:Header>";
         "        <met:CallOptions><met:client>SF-MCP-PageLayout</met:client></met:CallOptions>";
         "        <met:SessionHeader><met:sessionId>" ++ token
           ++ "</met:sessionId></met:SessionHeader>";
         "    </soapenv:Header>";
         "    <soapenv:Body>";
         "        <met:retrieve>";
         "            <met:retrieveRequest>";
         "                <met:apiVersion>" ++ api_version ++ "</met:apiVersion>";
         "                <met:unpackaged>";
         "                    <met:types>";
         "                        " ++ members_xml;
         "                        <met:name>Layout</met:name>";
         "                    </met:types>";
         "                    <met:version>" ++ api_version ++ "</met:version>";
         "                </met:unpackaged>";
         "            </met:retrieveRequest>";
         "        </met:retrieve>";
         "    </soapenv:Body>";
         "</soapenv:Envelope>" ]) in
  list_byte_of_string soap.

Definition _build_status_envelope (token api_version : string)
    (retrieve_id : option string) : list byte :=
  let soap :=
    join nl
      (List.app envelope_head
       [ "    <soapenv:Header>";
         "        <met:SessionHeader><met:sessionId>" ++ token
           ++ "</met:sessionId></met:SessionHeader>";
         "    </soapenv:Header>";
         "    <soapenv:Body>";
         "        <met:checkRetrieveStatus>";
         "            <met:asyncProcessId>" ++ fmt_text retrieve_id
           ++ "</met:asyncProcessId>";
         "            <met:includeZip>true</met:includeZip>";
         "        </met:checkRetrieveStatus>";
         "    </soapenv:Body>";
         "</soapenv:Envelope>" ]) in
  list_byte_of_string soap.

(** POST a SOAP envelope and return the parsed response root element. *)
Definition _soap_post (url : string) (body : list byte) (action : string)
  : M Element := fun w =>
  let call := {| call_url := url; call_body := body; call_action := action |} in
  let '(answer, elapsed) := requests_post w call in
  let w' := {| now := now w + Z.of_N elapsed;
               posts := posts w ++ [call];
               files := files w |} in
  match answer with
  | inl e => (Raise e, w')
  | inr resp =>
      if negb (status_code resp =? 200) then
        (Raise (RuntimeError
                  ("Metadata API call '" ++ action ++ "' failed "
                   ++ "(HTTP " ++ pretty (status_code resp) ++ "): "
                   ++ take_chars 600 (resp_text resp))), w')
      else
        match etree_fromstring (resp_content resp) with
        | inl diag => (Raise (External "XMLSyntaxError" diag), w')
        | inr root => (Ok root, w')
        end
  end.

Definition _find_el (root : Element) (local_name : string) : option Element :=
  find_descendant local_name root.

(** [el is None]. *)
Definition is_None {A} (el : option A) : bool :=
  match el with
  | None => true
  | Some _ => false
  end.

(** [el.text == s] for an element that was found. *)
Definition text_is (el : option Element) (s : string) : bool :=
  match el with
  | Some e => bool_decide (text e = Some s)
  | None => false
  end.

(** The key under which an archive entry is stored: the last path segment
    without the first matching suffix. *)
Definition strip_layout_suffix (base : string) : string :=
  if endswith ".layout-meta.xml" (str_lower base)
  then drop_last (len ".layout-meta.xml") base
  else if endswith ".layout" (str_lower base)
  then drop_last (len ".layout") base
  else base.

(** [zf.read(entry)]: with several entries of one name, the last wins. *)
Definition zip_read (zf : Archive) (entry : string) : Exn + list byte :=
  match List.find (fun e => String.eqb (fst e) entry) (rev zf) with
  | Some e => inr (snd e)
  | None => inl (KeyError entry)
  end.

(** The loop of [_extract_layouts_from_zip] over [zf.namelist()]. *)
Fixpoint extract_entries (zf : Archive) (entries : list string)
    (result : gmap string string) : Exn + gmap string string :=
  match entries with
  | [] => inr result
  | entry :: rest =>
      let lower := str_lower entry in
      if negb (contains "/layouts/" lower) then
        extract_entries zf rest result
      else if negb (endswith ".layout-meta.xml" lower
                    || endswith ".layout" lower) then
        extract_entries zf rest result
      else
        let base := List.last (split "/" entry) EmptyString in
        let base := strip_layout_suffix base in
        data ← zip_read zf entry;
        match decode_utf8 data with
        | None => inl UnicodeDecodeError
        | Some xml => extract_entries zf rest (<[base := xml]> result)
        end
  end.

(** Unpack the retrieve ZIP and return {layout_base_name: xml_string}. *)
Definition _extract_layouts_from_zip (zip_bytes : list byte)
  : Exn + gmap string string :=
  zf ← zip_open zip_bytes;
  extract_entries zf (map fst zf) ∅.

(** The longest poll sequence the 120 s deadline admits: every unfinished
    poll is followed by a 3 s sleep. *)
Definition max_polls : nat := 40.

(** The [while time.time() < deadline] loop of [_fetch_all_layouts]. *)
Fixpoint poll_until_done (fuel : nat) (instance_url meta_url token api_version : string)
    (retrieve_id : option string) (deadline : Z) : M (gmap string string) :=
  t ← time_time;
  if t <? deadline then
    match fuel with
    | O => out_of_fuel
    | S fuel' =>
        let status_body := _build_status_envelope token api_version retrieve_id in
        status_root ← _soap_post meta_url status_body "checkRetrieveStatus";
        let done_el := _find_el status_root "done" in
        if is_None done_el || negb (text_is done_el "true") then
          _ ← time_sleep 3;
          poll_until_done fuel' instance_url meta_url token api_version
            retrieve_id deadline
        else
          let status_el := _find_el status_root "status" in
          if negb (is_None status_el) && text_is status_el "Failed" then
            let err_el := _find_el status_root "errorMessage" in
            raise (RuntimeError
                     ("Retrieve failed on " ++ instance_url ++ ": "
                      ++ match err_el with
                         | Some el => fmt_text (text el)
                         | None => "unknown error"
                         end))
          else
            let zip_el := _find_el status_root "zipFile" in
            match zip_el ≫= text with
            | None => mret ∅
            | Some zip_text =>
                if negb (nonempty zip_text) then mret ∅
                else
                  zip_bytes ← lift (b64decode zip_text);
                  lift (_extract_layouts_from_zip zip_bytes)
            end
    end
  else
    raise (TimeoutError
             ("Metadata API retrieve from " ++ instance_url
              ++ " did not complete within 120 s.")).

(** Retrieve all requested layout XMLs from one org in a single Metadata
    API call.  Layouts not found in the org are absent from the result. *)
Definition _fetch_all_layouts (instance_url token api_version : string)
    (layout_names : list string) : M (gmap string string) :=
  let meta_url := instance_url ++ "/services/Soap/m/" ++ api_version in
  let body := _build_retrieve_envelope token api_version layout_names in
  root ← _soap_post meta_url body "retrieve";
  match _find_el root "id" with
  | None =>
      raise (RuntimeError
               ("No retrieve ID returned from " ++ instance_url ++ ". "
                ++ "Check org credentials and API version."))
  | Some id_el =>
      let retrieve_id := text id_el in
      t ← time_time;
      let deadline := t + 1000 * 120 in
      poll_until_done max_polls instance_url meta_url token api_version
        retrieve_id deadline
  end.

(* --------------------------------------------------------------------- *)
(** *** Layout XML parser *)
(* --------------------------------------------------------------------- *)

(** [label = (lbl_el.text or "").strip() if lbl_el is not None
            else "Unnamed Section"] *)
Definition section_label (section : Element) : string :=
  match find "label" section with
  | Some lbl_el => strip (default EmptyString (text lbl_el))
  | None => "Unnamed Section"
  end.

(** The name an element contributes through its child [child]: the
    stripped text, when the child exists and its text is neither [None],
    empty nor blank. *)
Definition bound_name (child : string) (el : Element) : option string :=
  match find child el with
  | Some f_el =>
      match text f_el with
      | Some t =>
          if nonempty t && nonempty (strip t) then Some (strip t) else None
      | None => None
      end
  | None => None
  end.

(** Body of [for item in col.findall("m:layoutItems", ns)], on the pair
    ([section_fields], [all_fields]). *)
Definition scan_item (st : list string * gset string) (item : Element)
  : list string * gset string :=
  match bound_name "field" item with
  | Some fname => ((st.1 ++ [fname])%list, st.2 ∪ {[fname]})
  | None => st
  end.

(** Body of [for col in section.findall("m:layoutColumns", ns)]. *)
Definition scan_column (st : list string * gset string) (col : Element)
  : list string * gset string :=
  fold_left scan_item (findall "layoutItems" col) st.

(** Body of [for section in root.findall("m:layoutSections", ns)], on the
    pair ([sections], [all_fields]). *)
Definition scan_section (st : list (string * list string) * gset string)
    (section : Element) : list (string * list string) * gset string :=
  let label := section_label section in
  let '(section_fields, all_fields) :=
    fold_left scan_column (findall "layoutColumns" section) ([], st.2) in
  (dict_set label section_fields st.1, all_fields).

(** Body of [for rl in root.findall("m:relatedLists", ns)]. *)
Definition scan_related_list (related_lists : gset string) (rl : Element)
  : gset string :=
  match bound_name "relatedList" rl with
  | Some name => related_lists ∪ {[name]}
  | None => related_lists
  end.

(** The model built from a parsed document. *)
Definition layout_of_root (root : Element) : LayoutModel :=
  let '(sections, all_fields) :=
    fold_left scan_section (findall "layoutSections" root) ([], ∅) in
  let related_lists :=
    fold_left scan_related_list (findall "relatedLists" root) ∅ in
  {| sections := sections;
     all_fields := all_fields;
     related_lists := related_lists |}.

(** Parse a Salesforce Layout XML and return a structured dict. *)
Definition _parse_layout (xml_content : string) : Exn + LayoutModel :=
  match etree_fromstring (list_byte_of_string xml_content) with
  | inl exc => inl (ValueError ("Could not parse layout XML: " ++ exc))
  | inr root => inr (layout_of_root root)
  end.

End Program.

(* --------------------------------------------------------------------- *)
(** *** Comparison engine *)
(* --------------------------------------------------------------------- *)

(** Diff two parsed layout dicts. All sets are treated as unordered. *)
Definition _compare (source target : LayoutModel) : Diff :=
  let src_fields := all_fields source in
  let tgt_fields := all_fields target in
  let src_sections : gset string := list_to_set (dict_keys (sections source)) in
  let tgt_sections : gset string := list_to_set (dict_keys (sections target)) in
  let src_rl := related_lists source in
  let tgt_rl := related_lists target in
  {| fields_missing_in_target := sorted (src_fields ∖ tgt_fields);
     fields_extra_in_target := sorted (tgt_fields ∖ src_fields);
     sections_missing_in_target := sorted (src_sections ∖ tgt_sections);
     sections_extra_in_target := sorted (tgt_sections ∖ src_sections);
     related_lists_missing_in_target := sorted (src_rl ∖ tgt_rl);
     related_lists_extra_in_target := sorted (tgt_rl ∖ src_rl);
     source_field_count := size src_fields;
     target_field_count := size tgt_fields;
     source_section_count := size src_sections;
     target_section_count := size tgt_sections;
     source_related_list_count := size src_rl;
     target_related_list_count := size tgt_rl |}.

(* --------------------------------------------------------------------- *)
(** *** CSV helpers *)
(* --------------------------------------------------------------------- *)

Definition CSV_COLUMNS : list string := [
  "Source Layout Name";
  "Target Layout Name";
  "Status";
  "Fields Missing in Target";
  "Fields Extra in Target";
  "Fields Missing Count";
  "Fields Extra Count";
  "Sections Missing in Target";
  "Sections Extra in Target";
  "Sections Missing Count";
  "Sections Extra Count";
  "Related Lists Missing in Target";
  "Related Lists Extra in Target";
  "Related Lists Missing Count";
  "Related Lists Extra Count";
  "Source Field Count";
  "Target Field Count";
  "Source Section Count";
  "Target Section Count";
  "Source Related List Count";
  "Target Related List Count"
].

(** Semicolon-separated cell value for multi-value fields. *)
Definition _cell (lst : list string) : string :=
  match lst with
  | [] => EmptyString
  | _ => join "; " lst
  end.

Definition _blank_row (source_name target_name status : string) : Row :=
  let row := map (fun col => (col, CStr EmptyString)) CSV_COLUMNS in
  let row := dict_set "Source Layout Name" (CStr source_name) row in
  let row := dict_set "Target Layout Name" (CStr target_name) row in
  let row := dict_set "Status" (CStr status) row in
  row.

(** [len(lst)] as a cell. *)
Definition count_cell {A} (lst : list A) : Cell := CInt (Z.of_nat (List.length lst)).

(* --------------------------------------------------------------------- *)
(** *** The tool *)
(* --------------------------------------------------------------------- *)

Section Tool.
Context `{Ext : Externals}.

Definition _write_csv (rows : list Row) (filepath : string) : M unit := fun w =>
  match open_for_writing filepath with
  | Some e => (Raise e, w)
  | None =>
      (Ok tt, {| now := now w;
                 posts := posts w;
                 files := (files w ++ [(filepath, rows)])%list |})
  end.

(** The row of a layout found and parsed on both sides. *)
Definition compared_row (name : string) (diff : Diff) : Row :=
  let row := _blank_row name name "Compared" in
  let row := dict_set "Fields Missing in Target" (CStr (_cell (fields_missing_in_target diff))) row in
  let row := dict_set "Fields Extra in Target" (CStr (_cell (fields_extra_in_target diff))) row in
  let row := dict_set "Fields Missing Count" (count_cell (fields_missing_in_target diff)) row in
  let row := dict_set "Fields Extra Count" (count_cell (fields_extra_in_target diff)) row in
  let row := dict_set "Sections Missing in Target" (CStr (_cell (sections_missing_in_target diff))) row in
  let row := dict_set "Sections Extra in Target" (CStr (_cell (sections_extra_in_target diff))) row in
  let row := dict_set "Sections Missing Count" (count_cell (sections_missing_in_target diff)) row in
  let row := dict_set "Sections Extra Count" (count_cell (sections_extra_in_target diff)) row in
  let row := dict_set "Related Lists Missing in Target" (CStr (_cell (related_lists_missing_in_target diff))) row in
  let row := dict_set "Related Lists Extra in Target" (CStr (_cell (related_lists_extra_in_target diff))) row in
  let row := dict_set "Related Lists Missing Count" (count_cell (related_lists_missing_in_target diff)) row in
  let row := dict_set "Related Lists Extra Count" (count_cell (related_lists_extra_in_target diff)) row in
  let row := dict_set "Source Field Count" (CInt (Z.of_nat (source_field_count diff))) row in
  let row := dict_set "Target Field Count" (CInt (Z.of_nat (target_field_count diff))) row in
  let row := dict_set "Source Section Count" (CInt (Z.of_nat (source_section_count diff))) row in
  let row := dict_set "Target Section Count" (CInt (Z.of_nat (target_section_count diff))) row in
  let row := dict_set "Source Related List Count" (CInt (Z.of_nat (source_related_list_count diff))) row in
  let row := dict_set "Target Related List Count" (CInt (Z.of_nat (target_related_list_count diff))) row in
  row.

(** The summary entry of a layout found and parsed on both sides. *)
Definition compared_summary (name : string) (diff : Diff) : Row :=
  [ ("layout", CStr name);
    ("status", CStr "compared");
    ("fields_missing", count_cell (fields_missing_in_target diff));
    ("fields_extra", count_cell (fields_extra_in_target diff));
    ("sections_missing", count_cell (sections_missing_in_target diff));
    ("sections_extra", count_cell (sections_extra_in_target diff));
    ("related_lists_missing", count_cell (related_lists_missing_in_target diff));
    ("related_lists_extra", count_cell (related_lists_extra_in_target diff)) ].

(** The [try] block of the loop: the source side is parsed first. *)
Definition parse_both (src_xml tgt_xml : string)
  : Exn + (LayoutModel * LayoutModel) :=
  src_data ← _parse_layout src_xml;
  tgt_data ← _parse_layout tgt_xml;
  mret (src_data, tgt_data).

(** One pass of [for name in names]: what is appended to [csv_rows] and to
    [summary]. *)
Definition compare_one (src_layouts tgt_layouts : gmap string string)
    (name : string) : Row * Row :=
  let src_xml := src_layouts !! name in
  let tgt_xml := tgt_layouts !! name in
  match src_xml, tgt_xml with
  | None, None =>
      (_blank_row name name "Not Found in Either Org",
       [("layout", CStr name); ("status", CStr "not_found_both")])
  | None, Some _ =>
      (_blank_row name name "Source Not Found",
       [("layout", CStr name); ("status", CStr "source_not_found")])
  | Some _, None =>
      (_blank_row name name "Target Not Found",
       [("layout", CStr name); ("status", CStr "target_not_found")])
  | Some src_xml, Some tgt_xml =>
      match parse_both src_xml tgt_xml with
      | inl parse_err =>
          (_blank_row name name ("Parse Error: " ++ exn_str parse_err),
           [("layout", CStr name); ("status", CStr "parse_error");
            ("error", CStr (exn_str parse_err))])
      | inr (src_data, tgt_data) =>
          let diff := _compare src_data tgt_data in
          (compared_row name diff, compared_summary name diff)
      end
  end.

(** The loop [for name in names] on the pair ([csv_rows], [summary]). *)
Definition compare_all (src_layouts tgt_layouts : gmap string string)
    (names : list string) : list Row * list Row :=
  fold_left
    (fun acc name =>
       let '(row, entry) := compare_one src_layouts tgt_layouts name in
       ((acc.1 ++ [row])%list, (acc.2 ++ [entry])%list))
    names ([], []).

(** [s.get("status", "")] of a summary entry. *)
Definition summary_status (s : Row) : string :=
  match dict_get "status" s with
  | Some (CStr st) => st
  | _ => EmptyString
  end.

(** [try: x = m  except Exception as e: return format_error_response(e,
    context=ctx)], followed by the rest of the function. *)
Definition try_or_return {A} (m : M A) (ctx : string)
    (rest : A -> M Response) : M Response := fun w =>
  match m w with
  | (Ok a, w') => rest a w'
  | (Raise e, w') => (Ok (ErrorResponse e ctx), w')
  | (OutOfFuel, w') => (OutOfFuel, w')
  end.

(** Step 5 of the tool: where the report goes. *)
Definition resolve_csv_path (output_filename : option string) : M string :=
  let docs_dir := os_path_join os_getcwd "Documents" in
  match os_makedirs docs_dir with
  | Some e => raise e
  | None =>
      let output_filename :=
        match output_filename with
        | None => "page_layout_comparison_" ++ now_timestamp ++ ".csv"
        | Some f =>
            if negb (nonempty f) then
              "page_layout_comparison_" ++ now_timestamp ++ ".csv"
            else if negb (endswith ".csv" (str_lower f)) then f ++ ".csv"
            else f
        end in
      if nonempty (os_path_dirname output_filename)
      then mret (os_path_abspath output_filename)
      else mret (os_path_join docs_dir output_filename)
  end.

(** The target side of step 3: [tgt_layouts = src_layouts] (no duplicate
    API call) when both sides are one org, a second retrieve otherwise. *)
Definition fetch_target (same_org : bool) (src_layouts : gmap string string)
    (tgt_url tgt_token api_ver : string) (names : list string)
  : M (gmap string string) :=
  if same_org then mret src_layouts
  else _fetch_all_layouts tgt_url tgt_token api_ver names.

(** [[n.strip() for n in layout_names.split(",") if n.strip()]] *)
Definition requested_names (layout_names : string) : list string :=
  map strip
    (List.filter (fun n => nonempty (strip n)) (split "," layout_names)).

(** Step 5 of the tool: write the CSV and build the summary response. *)
Definition write_report (names : list string) (same_org : bool)
    (src_url tgt_url api_ver : string) (output_filename : option string)
    (csv_rows summary : list Row) : M Response :=
  csv_path ← resolve_csv_path output_filename;
  _ ← _write_csv csv_rows csv_path;
  let compared :=
    List.filter (fun s => bool_decide (dict_get "status" s = Some (CStr "compared"))) summary in
  let not_found :=
    List.filter (fun s => contains "not_found" (summary_status s)) summary in
  let errors :=
    List.filter (fun s => bool_decide (dict_get "status" s = Some (CStr "parse_error"))) summary in
  mret (SuccessResponse
          {| message := "Compared " ++ pretty (List.length names)
                        ++ " layout(s). CSV report saved.";
             csv_file := csv_path;
             total_layouts := List.length names;
             compared := List.length compared;
             not_found := List.length not_found;
             errors := List.length errors;
             same_org := same_org;
             source_org := src_url;
             target_org := tgt_url;
             api_version := api_ver;
             summary := summary |}).

(** Compare Salesforce page layouts between two orgs and produce a CSV diff
    report. *)
Definition compare_page_layouts (layout_names : string)
    (source_org_user_id target_org_user_id output_filename : option string)
  : M Response :=
  try_except
    ((* 1. Parse and validate layout names *)
     let names := requested_names layout_names in
     if bool_decide (names = []) then
       mret (ErrorResponse (ValueError "layout_names must not be empty.")
               "compare_page_layouts")
     else
     (* 2. Get org credentials *)
     try_or_return (lift (_get_org_credentials source_org_user_id))
       "compare_page_layouts (source org)"
       (fun '(src_url, src_token, api_ver) =>
     try_or_return (lift (_get_org_credentials target_org_user_id))
       "compare_page_layouts (target org)"
       (fun '(tgt_url, tgt_token, _) =>
     let same_org :=
       String.eqb src_url tgt_url && String.eqb src_token tgt_token in
     (* 3. Fetch layouts: one batched retrieve per org *)
     try_or_return (_fetch_all_layouts src_url src_token api_ver names)
       "compare_page_layouts (fetch source layouts)"
       (fun src_layouts =>
     try_or_return
       (fetch_target same_org src_layouts tgt_url tgt_token api_ver names)
       "compare_page_layouts (fetch target layouts)"
       (fun tgt_layouts =>
     (* 4. Compare each layout; 5. Write CSV *)
     let '(csv_rows, summary) := compare_all src_layouts tgt_layouts names in
     write_report names same_org src_url tgt_url api_ver output_filename
       csv_rows summary)))))
    (fun e => mret (ErrorResponse e "compare_page_layouts")).

End Tool.

(* ===================================================================== *)
(** ** A sample environment, for running the code on concrete inputs *)
(* ===================================================================== *)

Module Sample.

(** [str.lower] on ASCII text. *)
Fixpoint ascii_lower (s : string) : string :=
  match s with
  | EmptyString => EmptyString
  | String a r =>
      String (if ((65 <=? code a) && (code a <=? 90))%N
              then ascii_of_N (code a + 32) else a)
             (ascii_lower r)
  end.

Definition el (local : string) (t : option string) (cs : list Element) : Element :=
  Elem (qname local) t cs.

(** A layout item bound to a field, and a section of one column. *)
Definition item (field : string) : Element :=
  el "layoutItems" None [el "field" (Some field) []].

Definition section (label : string) (items : list Element) : Element :=
  el "layoutSections" None
    [el "label" (Some label) []; el "layoutColumns" None items].

Definition open_layout : string :=
  "<Layout xmlns='http://soap.sforce.com/2006/04/metadata'>".

Definition open_result : string :=
  "<result xmlns='http://soap.sforce.com/2006/04/metadata'>".

(** Source side of scenario A: section Info with Name and Phone, one
    related list. *)
Definition xml_info2 : string :=
  open_layout
  ++ "<layoutSections><label>Info</label><layoutColumns>"
  ++ "<layoutItems><field>Name</field></layoutItems>"
  ++ "<layoutItems><field>Phone</field></layoutItems>"
  ++ "</layoutColumns></layoutSections>"
  ++ "<relatedLists><relatedList>RelatedContactList</relatedList></relatedLists>"
  ++ "</Layout>".

Definition tree_info2 : Element :=
  el "Layout" None
    [section "Info" [item "Name"; item "Phone"];
     el "relatedLists" None [el "relatedList" (Some "RelatedContactList") []]].

(** Target side of scenario A: section Info with Name only. *)
Definition xml_info1 : string :=
  open_layout
  ++ "<layoutSections><label>Info</label><layoutColumns>"
  ++ "<layoutItems><field>Name</field></layoutItems>"
  ++ "</layoutColumns></layoutSections>"
  ++ "</Layout>".

Definition tree_info1 : Element :=
  el "Layout" None [section "Info" [item "Name"]].

(** Two sections with the same label. *)
Definition xml_dup : string :=
  open_layout
  ++ "<layoutSections><label>Info</label><layoutColumns>"
  ++ "<layoutItems><field>Name</field></layoutItems>"
  ++ "</layoutColumns></layoutSections>"
  ++ "<layoutSections><label>Info</label><layoutColumns>"
  ++ "<layoutItems><field>Phone</field></layoutItems>"
  ++ "</layoutColumns></layoutSections>"
  ++ "</Layout>".

Definition tree_dup : Element :=
  el "Layout" None [section "Info" [item "Name"]; section "Info" [item "Phone"]].

(** A section whose label is blank, holding a bound item, an item with an
    empty slot, an item whose field is blank and an item with no field. *)
Definition xml_spacers : string :=
  open_layout
  ++ "<layoutSections><label>  </label><layoutColumns>"
  ++ "<layoutItems><field>Name</field></layoutItems>"
  ++ "<layoutItems><emptySpace>true</emptySpace></layoutItems>"
  ++ "<layoutItems><field> </field></layoutItems>"
  ++ "<layoutItems><field/></layoutItems>"
  ++ "</layoutColumns></layoutSections>"
  ++ "</Layout>".

Definition tree_spacers : Element :=
  el "Layout" None
    [section "  "
       [item "Name";
        el "layoutItems" None [el "emptySpace" (Some "true") []];
        item " ";
        el "layoutItems" None [el "field" None []]]].

(** Answers of the metadata service. *)
Definition xml_submitted : string := open_result ++ "<id>09S1</id></result>".
Definition tree_submitted : Element :=
  el "result" None [el "id" (Some "09S1") []].

Definition xml_pending : string := open_result ++ "<done>false</done></result>".
Definition tree_pending : Element :=
  el "result" None [el "done" (Some "false") []].

Definition xml_done (zip : string) : string :=
  open_result ++ "<done>true</done><status>Succeeded</status><zipFile>"
  ++ zip ++ "</zipFile></result>".
Definition tree_done (zip : string) : Element :=
  el "result" None
    [el "done" (Some "true") []; el "status" (Some "Succeeded") [];
     el "zipFile" (Some zip) []].

(** The documents the sample parser knows, with the tree lxml builds for
    each; any other text is reported as not well-formed. *)
Definition documents : list (string * Element) :=
  [ (xml_info2, tree_info2); (xml_info1, tree_info1); (xml_dup, tree_dup);
    (xml_spacers, tree_spacers); (xml_submitted, tree_submitted);
    (xml_pending, tree_pending);
    (xml_done "U1JD", tree_done "U1JD"); (xml_done "VEdU", tree_done "VEdU") ].

Definition fromstring (bs : list byte) : string + Element :=
  match dict_get (string_of_list_byte bs) documents with
  | Some root => inr root
  | None => inl "Premature end of data in tag Layout line 1"
  end.

(** The two archives of the sample orgs, named by their bytes. *)
Definition archive_src : Archive :=
  [ ("unpackaged/layouts/Account-Account Layout.layout", list_byte_of_string xml_info2);
    ("unpackaged/layouts/Case-Case Layout.layout", list_byte_of_string "<Layout>");
    ("unpackaged/layouts/Lead-Lead Layout.layout-meta.xml", list_byte_of_string xml_dup);
    ("unpackaged/package.xml", [Byte.xff]) ].

Definition archive_tgt : Archive :=
  [ ("unpackaged/layouts/Case-Case Layout.layout", list_byte_of_string xml_info1);
    ("unpackaged/layouts/Account-Account Layout.layout", list_byte_of_string xml_info1) ].

(** An archive with one layout that is not UTF-8 and one that is. *)
Definition archive_undecodable : Archive :=
  [ ("unpackaged/layouts/Account-Account Layout.layout", [Byte.xff]);
    ("unpackaged/layouts/Case-Case Layout.layout", list_byte_of_string xml_info1) ].

Definition decode64 (s : string) : Exn + list byte :=
  if String.eqb s "U1JD" then inr (list_byte_of_string "SRC")
  else if String.eqb s "VEdU" then inr (list_byte_of_string "TGT")
  else if String.eqb s "QkFE" then inr (list_byte_of_string "BAD")
  else inl (External "binascii.Error" "Incorrect padding").

Definition unzip (bs : list byte) : Exn + Archive :=
  let name := string_of_list_byte bs in
  if String.eqb name "SRC" then inr archive_src
  else if String.eqb name "TGT" then inr archive_tgt
  else if String.eqb name "BAD" then inr archive_undecodable
  else inl (External "BadZipFile" "File is not a zip file").

Definition src_url : string := "https://src.example.my.salesforce.com".
Definition tgt_url : string := "https://tgt.example.my.salesforce.com".

Definition answer (xml : string) : (Exn + HttpResponse) * N :=
  (inr {| status_code := 200; resp_text := xml;
          resp_content := list_byte_of_string xml |}, 250%N).

(** A service that completes every retrieve at the first poll. *)
Definition net_prompt (w : World) (call : SoapCall) : (Exn + HttpResponse) * N :=
  if String.eqb (call_action call) "retrieve" then answer xml_submitted
  else if startswith src_url (call_url call) then answer (xml_done "U1JD")
  else answer (xml_done "VEdU").

(** A service that never completes a retrieve. *)
Definition net_stalled (w : World) (call : SoapCall) : (Exn + HttpResponse) * N :=
  if String.eqb (call_action call) "retrieve" then answer xml_submitted
  else answer xml_pending.

(** A service that completes the retrieve of the source org and never that
    of the target org. *)
Definition net_target_stalled (w : World) (call : SoapCall)
  : (Exn + HttpResponse) * N :=
  if String.eqb (call_action call) "retrieve" then answer xml_submitted
  else if startswith src_url (call_url call) then answer (xml_done "U1JD")
  else answer xml_pending.

Definition dirname (p : string) : string :=
  match rev (split "/" p) with
  | _ :: d :: ds => join "/" (rev (d :: ds))
  | _ => EmptyString
  end.

Definition externals
    (net : World -> SoapCall -> (Exn + HttpResponse) * N) : Externals :=
  {| str_lower := ascii_lower;
     etree_fromstring := fromstring;
     b64decode := decode64;
     zip_open := unzip;
     requests_post := net;
     sleep_lag := fun _ => 5%N;
     config_api_version := Some "59.0";
     get_salesforce_connection :=
       inr ("src.example.my.salesforce.com", "TOKEN-S");
     get_stored_tokens := inr {[ "005T" := (tgt_url, "TOKEN-T") ]};
     os_getcwd := "/srv/app";
     os_makedirs := fun _ => None;
     os_path_join := fun a b => a ++ "/" ++ b;
     os_path_dirname := dirname;
     os_path_abspath := fun p => p;
     now_timestamp := "20260101_093000";
     open_for_writing := fun _ => None |}.

(** The environment of the examples: the prompt service. *)
Definition ext : Externals := externals net_prompt.

Definition world0 : World := {| now := 0; posts := []; files := [] |}.

Definition requested : string :=
  "Account-Account Layout, Case-Case Layout,Lead-Lead Layout,Task-Task Layout".

End Sample.

(** A further sample service: it answers every poll started before 117 s
    with a completion flag that is not [true]; a poll started later is held
    for 10 s and then answered with the flag [true]. *)
Definition net_late (w : World) (call : SoapCall) : (Exn + HttpResponse) * N :=
  if String.eqb (call_action call) "retrieve" then
    Sample.answer Sample.xml_submitted
  else if now w <? 117000 then Sample.answer Sample.xml_pending
  else ((Sample.answer (Sample.xml_done "U1JD")).1, 10000%N).

(** Further sample environments: a failing service, a service without
    job id, a service that is down, a read-only working directory. *)
Module Faults.

(** The answer to a poll of a job that failed without a message. *)
Definition xml_failed : string :=
  Sample.open_result
  ++ "<done>true</done><status>Failed</status><errorMessage/></result>".
Definition tree_failed : Element :=
  Sample.el "result" None
    [Sample.el "done" (Some "true") []; Sample.el "status" (Some "Failed") [];
     Sample.el "errorMessage" None []].

Definition fromstring (bs : list byte) : string + Element :=
  if String.eqb (string_of_list_byte bs) xml_failed then inr tree_failed
  else Sample.fromstring bs.

(** A service whose jobs fail at the first poll. *)
Definition net_failed (w : World) (call : SoapCall) : (Exn + HttpResponse) * N :=
  if String.eqb (call_action call) "retrieve" then
    Sample.answer Sample.xml_submitted
  else Sample.answer xml_failed.

(** A service that hands out no job id. *)
Definition net_no_id (w : World) (call : SoapCall) : (Exn + HttpResponse) * N :=
  Sample.answer Sample.xml_pending.

(** A service that is down. *)
Definition unavailable : HttpResponse :=
  {| status_code := 503; resp_text := "Service Unavailable";
     resp_content := list_byte_of_string "Service Unavailable" |}.
Definition net_unavailable (w : World) (call : SoapCall)
  : (Exn + HttpResponse) * N := (inr unavailable, 40%N).

(** The sample environment with another parser, service and
    [os.makedirs]. *)
Definition externals (parse : list byte -> string + Element)
    (net : World -> SoapCall -> (Exn + HttpResponse) * N)
    (makedirs : string -> option Exn) : Externals :=
  {| str_lower := Sample.ascii_lower;
     etree_fromstring := parse;
     b64decode := Sample.decode64;
     zip_open := Sample.unzip;
     requests_post := net;
     sleep_lag := fun _ => 5%N;
     config_api_version := Some "59.0";
     get_salesforce_connection :=
       inr ("src.example.my.salesforce.com", "TOKEN-S");
     get_stored_tokens := inr {[ "005T" := (Sample.tgt_url, "TOKEN-T") ]};
     os_getcwd := "/srv/app";
     os_makedirs := makedirs;
     os_path_join := fun a b => a ++ "/" ++ b;
     os_path_dirname := Sample.dirname;
     os_path_abspath := fun p => p;
     now_timestamp := "20260101_093000";
     open_for_writing := fun _ => None |}.

Definition failing : Externals :=
  externals fromstring net_failed (fun _ => None).

Definition readonly : Externals :=
  externals Sample.fromstring Sample.net_prompt
    (fun _ => Some (External "PermissionError" "[Errno 13] Permission denied")).

End Faults.

(** The response of a run that succeeded; an empty one otherwise. *)
Definition success_data (r : Result Response) : SuccessData :=
  match r with
  | Ok (SuccessResponse d) => d
  | _ => {| message := ""; csv_file := ""; total_layouts := 0; compared := 0;
            not_found := 0; errors := 0; same_org := false; source_org := "";
            target_org := ""; api_version := ""; summary := [] |}
  end.

(* ===================================================================== *)
(** ** Vocabulary of the specification *)
(* ===================================================================== *)

(** [l] lists the set [s] without repetition in lexicographic order. *)
Definition sorted_listing (l : list string) (s : gset string) : Prop :=
  list_to_set l = s /\ NoDup l /\ StronglySorted String.le l.

(** The section labels of a model, as the diff engine sees them. *)
Definition section_labels (m : LayoutModel) : gset string :=
  list_to_set (dict_keys (sections m)).


(** The layout items of a section element in document order: its column
    groupings in order, the items of each column in order. *)
Definition section_items (section : Element) : list Element :=
  flat_map (findall "layoutItems") (findall "layoutColumns" section).

(** A spacer: a layout item without field reference, or whose field
    reference has no text, is empty or is blank. *)
Definition spacer (item : Element) : Prop :=
  match find "field" item with
  | None => True
  | Some f_el =>
      match text f_el with
      | None => True
      | Some t => whitespace_only t
      end
  end.

(** [skips_spacers items names]: [names] is what [items] contribute when
    every spacer is skipped and every other item gives its stripped field
    reference, in order. *)
Inductive skips_spacers : list Element -> list string -> Prop :=
| skips_nil : skips_spacers [] []
| skips_spacer item items names :
    spacer item ->
    skips_spacers items names ->
    skips_spacers (item :: items) names
| skips_bound item items names f_el t :
    ~ spacer item ->
    find "field" item = Some f_el ->
    text f_el = Some t ->
    skips_spacers items names ->
    skips_spacers (item :: items) (strip t :: names).

(** The field names of one section element, in document order: what its
    items contribute, spacers skipped (see [items_skip_spacers]). *)
Definition section_field_names (section : Element) : list string :=
  omap (bound_name "field") (section_items section).

(** The union of the field lists held by [sections]. *)
Definition sections_union (m : LayoutModel) : gset string :=
  list_to_set (flat_map snd (sections m)).

(** The distinct elements of a list, ordered by first occurrence. *)
Fixpoint first_occurrences (l : list string) : list string :=
  match l with
  | [] => []
  | x :: r => x :: List.filter (fun y => negb (String.eqb y x)) (first_occurrences r)
  end.

(** The last element of [l] that satisfies [p]. *)
Definition find_last {A} (p : A -> bool) (l : list A) : option A :=
  List.find p (rev l).

(** An archive entry the extractor keeps: its path contains the layouts
    directory marker and ends in one of the two layout suffixes. *)
Definition layout_entry `{Externals} (entry : string) : Prop :=
  contains "/layouts/" (str_lower entry) = true
  /\ (endswith ".layout-meta.xml" (str_lower entry) = true
      \/ endswith ".layout" (str_lower entry) = true).

(** The poll and the retrieve request of a job, as posted. *)
Definition status_call (meta_url token api_version : string)
    (retrieve_id : option string) : SoapCall :=
  {| call_url := meta_url;
     call_body := _build_status_envelope token api_version retrieve_id;
     call_action := "checkRetrieveStatus" |}.

Definition retrieve_call (meta_url token api_version : string)
    (names : list string) : SoapCall :=
  {| call_url := meta_url;
     call_body := _build_retrieve_envelope token api_version names;
     call_action := "retrieve" |}.

(** [w'] is [w] after the SOAP calls [calls]: time has not gone back, no
    report file was touched. *)
Definition after_calls (w w' : World) (calls : list SoapCall) : Prop :=
  now w <= now w' /\ posts w' = (posts w ++ calls)%list /\ files w' = files w.

(** A call that polls a job. *)
Definition is_status_call (c : SoapCall) : Prop :=
  call_action c = "checkRetrieveStatus".

(** The service accepts the retrieve request posted in world [w]: it
    hands out the job id [retrieve_id], which arrives at time [started]. *)
Definition job_started `{Externals} (meta_url token api_version : string)
    (names : list string) (w : World) (retrieve_id : option string)
    (started : Z) : Prop :=
  exists resp elapsed root id_el,
    requests_post w (retrieve_call meta_url token api_version names)
      = (inr resp, elapsed)
    /\ status_code resp = 200
    /\ etree_fromstring (resp_content resp) = inr root
    /\ _find_el root "id" = Some id_el
    /\ retrieve_id = text id_el
    /\ started = now w + Z.of_N elapsed.

(** The service answers every poll of the job made before [deadline] with
    a well-formed response whose completion flag is not [true]. *)
Definition never_done_before `{Externals} (meta_url token api_version : string)
    (retrieve_id : option string) (deadline : Z) : Prop :=
  forall w,
    now w < deadline ->
    exists resp elapsed root,
      requests_post w (status_call meta_url token api_version retrieve_id)
        = (inr resp, elapsed)
      /\ status_code resp = 200
      /\ etree_fromstring (resp_content resp) = inr root
      /\ text_is (_find_el root "done") "true" = false.

(** No answer to a poll of the job that arrives before [deadline] carries
    the completion flag [true]. *)
Definition never_seen_done_before `{Externals}
    (meta_url token api_version : string) (retrieve_id : option string)
    (deadline : Z) : Prop :=
  forall w resp elapsed root,
    requests_post w (status_call meta_url token api_version retrieve_id)
      = (inr resp, elapsed) ->
    now w + Z.of_N elapsed < deadline ->
    status_code resp = 200 ->
    etree_fromstring (resp_content resp) = inr root ->
    text_is (_find_el root "done") "true" = false.

(** What the poll loop of [_fetch_all_layouts] returns or raises on a
    status document whose completion flag is [true]. *)
Definition completed_outcome `{Externals} (instance_url : string)
    (status_root : Element) : Result (gmap string string) :=
  let status_el := _find_el status_root "status" in
  if negb (is_None status_el) && text_is status_el "Failed" then
    let err_el := _find_el status_root "errorMessage" in
    Raise (RuntimeError
             ("Retrieve failed on " ++ instance_url ++ ": "
              ++ match err_el with
                 | Some el => fmt_text (text el)
                 | None => "unknown error"
                 end))
  else
    let zip_el := _find_el status_root "zipFile" in
    match zip_el ≫= text with
    | None => Ok ∅
    | Some zip_text =>
        if negb (nonempty zip_text) then Ok ∅
        else
          match b64decode zip_text ≫= _extract_layouts_from_zip with
          | inr layouts => Ok layouts
          | inl e => Raise e
          end
    end.

(** The text of the [TimeoutError] of [_fetch_all_layouts]. *)
Definition timeout_message (instance_url : string) : string :=
  "Metadata API retrieve from " ++ instance_url ++ " did not complete within 120 s.".

(** The columns of a report row: the six difference lists, their six
    counts and the six totals. *)
Definition diff_list_columns : list string :=
  [ "Fields Missing in Target"; "Fields Extra in Target";
    "Sections Missing in Target"; "Sections Extra in Target";
    "Related Lists Missing in Target"; "Related Lists Extra in Target" ].

Definition diff_count_columns : list string :=
  [ "Fields Missing Count"; "Fields Extra Count";
    "Sections Missing Count"; "Sections Extra Count";
    "Related Lists Missing Count"; "Related Lists Extra Count" ].

Definition total_count_columns : list string :=
  [ "Source Field Count"; "Target Field Count";
    "Source Section Count"; "Target Section Count";
    "Source Related List Count"; "Target Related List Count" ].

(** A row with status [Compared] that reports no difference. *)
Definition zero_diff_row (name : string) (row : Row) : Prop :=
  dict_get "Source Layout Name" row = Some (CStr name)
  /\ dict_get "Status" row = Some (CStr "Compared")
  /\ Forall (fun col => dict_get col row = Some (CStr "")) diff_list_columns
  /\ Forall (fun col => dict_get col row = Some (CInt 0)) diff_count_columns.

(** A row whose diff fields are all left empty. *)
Definition blank_diff_fields (row : Row) : Prop :=
  Forall (fun col => dict_get col row = Some (CStr ""))
    (diff_list_columns ++ diff_count_columns ++ total_count_columns).

(** The names a caller supplies as the comma-separated pieces [pieces]:
    every piece without the whitespace around it, in the order given, blank
    pieces left out and repeated names kept. *)
Definition supplied_names (pieces : list string) : list string :=
  List.filter nonempty (map strip pieces).

(** The number of retrieve requests among [calls]: one per invocation of
    [_fetch_all_layouts]. *)
Definition retrieve_count (calls : list SoapCall) : nat :=
  List.length (List.filter (fun c => String.eqb (call_action c) "retrieve") calls).

(** *** Further vocabulary *)

(** The Status cell of a report row. *)
Definition row_status (row : Row) : option Cell := dict_get "Status" row.

(** The number of rows of a report whose Status cell satisfies [p]. *)
Definition status_count (p : string -> bool) (rows : list Row) : nat :=
  List.length
    (List.filter
       (fun row => match row_status row with
                   | Some (CStr s) => p s
                   | _ => false
                   end) rows).

(** The three statuses of a layout that is missing on a side. *)
Definition is_not_found_status (s : string) : bool :=
  bool_decide (s = "Not Found in Either Org")
  || bool_decide (s = "Source Not Found")
  || bool_decide (s = "Target Not Found").

(** No whitespace character at the start of [s]; [ends_clean] reads the
    reversed text. *)
Definition starts_clean (s : string) : bool :=
  match s with
  | EmptyString => true
  | String a r =>
      negb (ws1 (code a))
      && match r with
         | EmptyString => true
         | String b r2 =>
             negb (ws2 (code a) (code b))
             && match r2 with
                | EmptyString => true
                | String c _ => negb (ws3 (code a) (code b) (code c))
                end
         end
  end.

Definition ends_clean_rev (s : string) : bool :=
  match s with
  | EmptyString => true
  | String a r =>
      negb (ws1 (code a))
      && match r with
         | EmptyString => true
         | String b r2 =>
             negb (ws2 (code b) (code a))
             && match r2 with
                | EmptyString => true
                | String c _ => negb (ws3 (code c) (code b) (code a))
                end
         end
  end.

(** A name as the tool hands it on: not empty, no whitespace around it and
    no comma in it. *)
Definition clean_name (n : string) : Prop :=
  n <> EmptyString /\ strip n = n /\ contains "," n = false.

(** [strip] keeps a contiguous part of the text. *)

(** The address of the Metadata API of an org. *)
Definition metadata_url (instance_url api_version : string) : string :=
  instance_url ++ "/services/Soap/m/" ++ api_version.

(** The calls of one invocation of [_fetch_all_layouts]: the retrieve
    request, then [polls] identical status requests for the job. *)
Definition fetch_calls (instance_url token api_version : string)
    (names : list string) (retrieve_id : option string) (polls : nat)
  : list SoapCall :=
  retrieve_call (metadata_url instance_url api_version) token api_version names
  :: repeat (status_call (metadata_url instance_url api_version) token
               api_version retrieve_id) polls.

(** The layouts filter of the extractor, and the key an entry is stored
    under. *)
Definition is_layout_entry `{Externals} (entry : string) : bool :=
  contains "/layouts/" (str_lower entry)
  && (endswith ".layout-meta.xml" (str_lower entry)
      || endswith ".layout" (str_lower entry)).

Definition entry_key `{Externals} (entry : string) : string :=
  strip_layout_suffix (List.last (split "/" entry) EmptyString).

(** The text of an archive member, when it can be read and decoded. *)
Definition member_text (zf : Archive) (entry : string) : option string :=
  match zip_read zf entry with
  | inr data => decode_utf8 data
  | inl _ => None
  end.

(** The service answers every poll of the job with the well-formed
    document [root]. *)
Definition poll_answered `{Externals} (meta_url token api_version : string)
    (retrieve_id : option string) (root : Element) : Prop :=
  forall w,
    exists resp elapsed,
      requests_post w (status_call meta_url token api_version retrieve_id)
        = (inr resp, elapsed)
      /\ status_code resp = 200
      /\ etree_fromstring (resp_content resp) = inr root.

(* ===================================================================== *)
(** ** Text: order and sorting *)
(* ===================================================================== *)

(** [String.le] is the lexicographic order on the bytes. *)
Lemma string_le_lexicographic (a b : ascii) (s t : string) :
  String.le EmptyString t
  /\ ~ String.le (String a s) EmptyString
  /\ (String.le (String a s) (String b t)
      <-> (code a < code b)%N \/ (a = b /\ String.le s t)).
Proof.
  unfold String.le, String.leb, code. split; [|split].
  - destruct t; simpl; exact I.
  - simpl. intros [].
  - simpl. unfold Ascii.compare.
    destruct (N.compare_spec (N_of_ascii a) (N_of_ascii b)) as [Heq|Hlt|Hgt].
    + assert (a = b) as ->.
      { rewrite <- (ascii_N_embedding a), <- (ascii_N_embedding b).
        by rewrite Heq. }
      split; [intros H; right; by split|].
      intros [Hlt|[_ H]]; [lia|done].
    + split; [by left|done].
    + split; [intros []|].
      intros [Hlt|[-> _]]; lia.
Qed.

Lemma sorted_is_listing (s : gset string) : sorted_listing (sorted s) s.
Proof.
  unfold sorted_listing, sorted. split; [|split].
  - apply set_eq. intros x.
    rewrite elem_of_list_to_set, merge_sort_Permutation.
    apply elem_of_elements.
  - rewrite merge_sort_Permutation. apply NoDup_elements.
  - apply StronglySorted_merge_sort; apply _.
Qed.

Lemma sorted_empty : sorted ∅ = [].
Proof.
  destruct (sorted_is_listing ∅) as (Hset & _ & _).
  destruct (sorted ∅) as [|x l]; [done|].
  exfalso. apply (not_elem_of_empty (C:=gset string) x).
  rewrite <- Hset. set_solver.
Qed.

(* ===================================================================== *)
(** ** Text: stripping *)
(* ===================================================================== *)

Lemma str_app_cons (a : ascii) (s t : string) :
  String a s ++ t = String a (s ++ t).
Proof. reflexivity. Qed.

Lemma str_app_nil_r (s : string) : s ++ "" = s.
Proof. induction s as [|a s IH]; [done|]. by rewrite str_app_cons, IH. Qed.

Lemma str_app_assoc (s t u : string) : (s ++ t) ++ u = s ++ (t ++ u).
Proof. induction s as [|a s IH]; [done|]. by rewrite !str_app_cons, IH. Qed.

Lemma reverse_app (s t : string) : reverse (s ++ t) = reverse t ++ reverse s.
Proof.
  induction s as [|a s IH].
  - by rewrite str_app_nil_r.
  - rewrite str_app_cons. cbn [reverse]. by rewrite IH, str_app_assoc.
Qed.

Lemma reverse_involutive (s : string) : reverse (reverse s) = s.
Proof.
  induction s as [|a s IH]; [done|].
  cbn [reverse]. rewrite reverse_app, IH. done.
Qed.

Lemma reverse_empty (s : string) : reverse s = "" -> s = "".
Proof. intros H. rewrite <- (reverse_involutive s), H. done. Qed.

Lemma whitespace_only_app (s t : string) :
  whitespace_only s -> whitespace_only t -> whitespace_only (s ++ t).
Proof.
  induction 1 as [|w s Hw Hs IH]; intros Ht; [done|].
  rewrite str_app_assoc. constructor; auto.
Qed.

Lemma whitespace_only_char (w : string) :
  In w whitespace_chars -> whitespace_only w.
Proof.
  intros Hw. rewrite <- (str_app_nil_r w). constructor; [done|constructor].
Qed.

Lemma lstrip_whitespace_char (w s : string) :
  In w whitespace_chars -> lstrip (w ++ s) = lstrip s.
Proof.
  unfold whitespace_chars. cbn [In].
  intros H. repeat (destruct H as [<-|H]; [reflexivity|]). destruct H.
Qed.

Lemma lstrip_rev_whitespace_char (w s : string) :
  In w whitespace_chars -> lstrip_rev (reverse w ++ s) = lstrip_rev s.
Proof.
  unfold whitespace_chars. cbn [In].
  intros H. repeat (destruct H as [<-|H]; [reflexivity|]). destruct H.
Qed.

Lemma lstrip_whitespace_only (s : string) : whitespace_only s -> lstrip s = "".
Proof.
  induction 1 as [|w s Hw Hs IH]; [done|].
  by rewrite lstrip_whitespace_char.
Qed.

Lemma strip_whitespace_only (s : string) : whitespace_only s -> strip s = "".
Proof. intros H. unfold strip. by rewrite lstrip_whitespace_only. Qed.

Lemma code_inv (a : ascii) (n : N) : code a = n -> a = ascii_of_N n.
Proof. intros <-. unfold code. by rewrite ascii_N_embedding. Qed.

Lemma ws1_char (a : ascii) :
  ws1 (code a) = true -> In (String a "") whitespace_chars.
Proof.
  unfold ws1. intros H.
  repeat first [rewrite orb_true_iff in H | rewrite andb_true_iff in H
               | rewrite N.leb_le in H | rewrite N.eqb_eq in H].
  assert (code a = 9 \/ code a = 10 \/ code a = 11 \/ code a = 12
          \/ code a = 13 \/ code a = 28 \/ code a = 29 \/ code a = 30
          \/ code a = 31 \/ code a = 32)%N as Hc by lia.
  repeat (destruct Hc as [Hc|Hc]; [apply code_inv in Hc as ->; vm_compute; tauto|]).
  apply code_inv in Hc as ->; vm_compute; tauto.
Qed.

Lemma ws2_char (a b : ascii) :
  ws2 (code a) (code b) = true -> In (String a (String b "")) whitespace_chars.
Proof.
  unfold ws2. intros H.
  repeat first [rewrite orb_true_iff in H | rewrite andb_true_iff in H
               | rewrite N.leb_le in H | rewrite N.eqb_eq in H].
  assert (code a = 194 /\ (code b = 133 \/ code b = 160))%N as [Ha Hb] by lia.
  apply code_inv in Ha as ->.
  destruct Hb as [Hb|Hb]; apply code_inv in Hb as ->; vm_compute; tauto.
Qed.

Lemma ws3_char (a b c : ascii) :
  ws3 (code a) (code b) (code c) = true ->
  In (String a (String b (String c ""))) whitespace_chars.
Proof.
  unfold ws3. intros H.
  repeat first [rewrite orb_true_iff in H | rewrite andb_true_iff in H
               | rewrite N.leb_le in H | rewrite N.eqb_eq in H].
  assert ((code a = 225 /\ code b = 154 /\ code c = 128)
          \/ (code a = 226 /\ code b = 128
              /\ (code c = 128 \/ code c = 129 \/ code c = 130 \/ code c = 131
                  \/ code c = 132 \/ code c = 133 \/ code c = 134
                  \/ code c = 135 \/ code c = 136 \/ code c = 137
                  \/ code c = 138 \/ code c = 168 \/ code c = 169
                  \/ code c = 175))
          \/ (code a = 226 /\ code b = 129 /\ code c = 159)
          \/ (code a = 227 /\ code b = 128 /\ code c = 128))%N as Hc by lia.
  destruct Hc as [(Ha & Hb & Hc)|[(Ha & Hb & Hc)|[(Ha & Hb & Hc)|(Ha & Hb & Hc)]]];
    apply code_inv in Ha as ->; apply code_inv in Hb as ->;
    repeat (destruct Hc as [Hc|Hc]; [apply code_inv in Hc as ->; vm_compute; tauto|]);
    apply code_inv in Hc as ->; vm_compute; tauto.
Qed.

Lemma lstrip_split (s : string) :
  exists p, whitespace_only p /\ s = p ++ lstrip s.
Proof.
  remember (String.length s) as n eqn:Hn.
  revert s Hn. induction n as [n IH] using lt_wf_ind. intros s ->.
  assert (forall r, (String.length r < String.length s)%nat ->
                    exists p, whitespace_only p /\ r = p ++ lstrip r) as IH'.
  { intros r Hr. by apply (IH _ Hr). }
  clear IH.
  destruct s as [|a r]; [exists ""; split; [constructor|done]|].
  cbn [lstrip]. destruct (ws1 (code a)) eqn:H1.
  { destruct (IH' r) as (p & Hp & Hr); [simpl; lia|].
    exists (String a "" ++ p). split.
    - constructor; [by apply ws1_char|done].
    - rewrite str_app_assoc, <- Hr. done. }
  destruct r as [|b r2]; [exists ""; split; [constructor|done]|].
  destruct (ws2 (code a) (code b)) eqn:H2.
  { destruct (IH' r2) as (p & Hp & Hr); [simpl; lia|].
    exists (String a (String b "") ++ p). split.
    - constructor; [by apply ws2_char|done].
    - rewrite str_app_assoc, <- Hr. done. }
  destruct r2 as [|c r3]; [exists ""; split; [constructor|done]|].
  destruct (ws3 (code a) (code b) (code c)) eqn:H3.
  { destruct (IH' r3) as (p & Hp & Hr); [simpl; lia|].
    exists (String a (String b (String c "")) ++ p). split.
    - constructor; [by apply ws3_char|done].
    - rewrite str_app_assoc, <- Hr. done. }
  exists ""; split; [constructor|done].
Qed.

Lemma lstrip_rev_split (s : string) :
  exists p, whitespace_only (reverse p) /\ s = p ++ lstrip_rev s.
Proof.
  remember (String.length s) as n eqn:Hn.
  revert s Hn. induction n as [n IH] using lt_wf_ind. intros s ->.
  assert (forall r, (String.length r < String.length s)%nat ->
                    exists p, whitespace_only (reverse p)
                              /\ r = p ++ lstrip_rev r) as IH'.
  { intros r Hr. by apply (IH _ Hr). }
  clear IH.
  destruct s as [|a r]; [exists ""; split; [constructor|done]|].
  cbn [lstrip_rev]. destruct (ws1 (code a)) eqn:H1.
  { destruct (IH' r) as (p & Hp & Hr); [simpl; lia|].
    exists (String a "" ++ p). split.
    - rewrite reverse_app. apply whitespace_only_app; [done|].
      apply whitespace_only_char. by apply ws1_char.
    - rewrite str_app_assoc, <- Hr. done. }
  destruct r as [|b r2]; [exists ""; split; [constructor|done]|].
  destruct (ws2 (code b) (code a)) eqn:H2.
  { destruct (IH' r2) as (p & Hp & Hr); [simpl; lia|].
    exists (String a (String b "") ++ p). split.
    - rewrite reverse_app. apply whitespace_only_app; [done|].
      apply whitespace_only_char. by apply ws2_char.
    - rewrite str_app_assoc, <- Hr. done. }
  destruct r2 as [|c r3]; [exists ""; split; [constructor|done]|].
  destruct (ws3 (code c) (code b) (code a)) eqn:H3.
  { destruct (IH' r3) as (p & Hp & Hr); [simpl; lia|].
    exists (String a (String b (String c "")) ++ p). split.
    - rewrite reverse_app. apply whitespace_only_app; [done|].
      apply whitespace_only_char. by apply ws3_char.
    - rewrite str_app_assoc, <- Hr. done. }
  exists ""; split; [constructor|done].
Qed.

Lemma strip_empty_whitespace_only (s : string) :
  strip s = "" -> whitespace_only s.
Proof.
  unfold strip, rstrip. intros H. apply reverse_empty in H.
  destruct (lstrip_rev_split (reverse (lstrip s))) as (p & Hp & Hs).
  rewrite H, str_app_nil_r in Hs. subst p.
  rewrite reverse_involutive in Hp.
  destruct (lstrip_split s) as (q & Hq & Hs).
  rewrite Hs. by apply whitespace_only_app.
Qed.

Lemma strip_blank_iff (s : string) : strip s = "" <-> whitespace_only s.
Proof. split; [apply strip_empty_whitespace_only|apply strip_whitespace_only]. Qed.

(* ===================================================================== *)
(** ** Text: splitting and joining *)
(* ===================================================================== *)

Lemma contains_char_cons (c a : ascii) (r : string) :
  contains (String c "") (String a r)
  = Ascii.eqb a c || contains (String c "") r.
Proof.
  cbn [contains]. f_equal. unfold startswith. simpl.
  destruct (ascii_dec c a) as [<-|Hne].
  - rewrite Ascii.eqb_refl. by destruct r.
  - symmetry. apply Ascii.eqb_neq. congruence.
Qed.

Lemma contains_char_app (c : ascii) (x y : string) :
  contains (String c "") (x ++ y)
  = contains (String c "") x || contains (String c "") y.
Proof.
  induction x as [|a x IH]; [done|].
  rewrite str_app_cons, !contains_char_cons, IH. by rewrite orb_assoc.
Qed.

Lemma split_not_nil (sep : ascii) (s : string) : split sep s <> [].
Proof.
  destruct s as [|a r]; [done|]. simpl.
  destruct (Ascii.eqb a sep); [done|]. by destruct (split sep r).
Qed.

Lemma split_pieces_without_sep (sep : ascii) (s : string) :
  Forall (fun p => contains (String sep "") p = false) (split sep s).
Proof.
  induction s as [|a r IH]; [by repeat constructor|].
  simpl. destruct (Ascii.eqb a sep) eqn:Ha; [by constructor|].
  destruct (split sep r) as [|p ps] eqn:Hsp; [by apply split_not_nil in Hsp|].
  inversion IH as [|? ? Hp Hps]; subst. constructor; [|done].
  by rewrite contains_char_cons, Ha, Hp.
Qed.

Lemma split_without_sep (sep : ascii) (x : string) :
  contains (String sep "") x = false -> split sep x = [x].
Proof.
  induction x as [|a x IH]; [done|].
  rewrite contains_char_cons. intros [Ha Hx]%orb_false_iff.
  simpl. by rewrite Ha, (IH Hx).
Qed.

Lemma split_app_sep (sep : ascii) (x t : string) :
  contains (String sep "") x = false ->
  split sep (x ++ String sep t) = x :: split sep t.
Proof.
  induction x as [|a x IH].
  - intros _. change ("" ++ String sep t) with (String sep t).
    simpl. by rewrite Ascii.eqb_refl.
  - rewrite contains_char_cons. intros [Ha Hx]%orb_false_iff.
    rewrite str_app_cons. simpl. by rewrite Ha, (IH Hx).
Qed.

(** [sep.join(l).split(sep)] gives [l] back when no piece holds [sep]. *)
Lemma split_join (sep : ascii) (l : list string) :
  l <> [] ->
  Forall (fun p => contains (String sep "") p = false) l ->
  split sep (join (String sep "") l) = l.
Proof.
  induction l as [|x l IH]; [done|]. intros _ Hl.
  inversion Hl as [|? ? Hx Hrest]; subst.
  destruct l as [|y l]; [by apply split_without_sep|].
  change (join (String sep "") (x :: y :: l))
    with (x ++ String sep "" ++ join (String sep "") (y :: l)).
  change (String sep "" ++ join (String sep "") (y :: l))
    with (String sep (join (String sep "") (y :: l))).
  rewrite (split_app_sep _ _ _ Hx). f_equal. by apply IH.
Qed.

(** Every text is the [sep]-separated form of its pieces, none of which
    holds [sep] ([split_pieces_without_sep]). *)
Lemma join_split (sep : ascii) (s : string) :
  join (String sep "") (split sep s) = s.
Proof.
  induction s as [|a s IH]; [done|].
  simpl. destruct (Ascii.eqb a sep) eqn:Ha.
  - apply Ascii.eqb_eq in Ha as ->.
    destruct (split sep s) as [|p ps] eqn:Hsp; [by apply split_not_nil in Hsp|].
    change (join (String sep "") ("" :: p :: ps))
      with ("" ++ String sep "" ++ join (String sep "") (p :: ps)).
    by rewrite IH.
  - destruct (split sep s) as [|p ps] eqn:Hsp; [by apply split_not_nil in Hsp|].
    rewrite <- IH. destruct ps as [|q ps]; [done|].
    change (join (String sep "") (String a p :: q :: ps))
      with (String a p ++ String sep "" ++ join (String sep "") (q :: ps)).
    change (join (String sep "") (p :: q :: ps))
      with (p ++ String sep "" ++ join (String sep "") (q :: ps)).
    by rewrite str_app_cons.
Qed.

Lemma strip_filter_commute (l : list string) :
  map strip (List.filter (fun n => nonempty (strip n)) l)
  = List.filter nonempty (map strip l).
Proof.
  induction l as [|x l IH]; [done|].
  simpl. destruct (nonempty (strip x)); simpl; by rewrite IH.
Qed.

(** The parse of [compare_page_layouts] gives back the supplied names,
    whatever the pieces are. *)
Lemma requested_names_join (pieces : list string) :
  Forall (fun p => contains "," p = false) pieces ->
  requested_names (join "," pieces) = supplied_names pieces.
Proof.
  intros Hall. unfold requested_names, supplied_names.
  destruct pieces as [|p pieces]; [by vm_compute|].
  rewrite (split_join "," (p :: pieces)); [|done|done].
  apply strip_filter_commute.
Qed.

(* ===================================================================== *)
(** ** The diff engine *)
(* ===================================================================== *)

(** C1. For every pair of models the six difference lists of [_compare]
    are exactly the set differences they are named after (fields by
    [all_fields], sections by label, related lists by identifier), each
    listed without repetition in lexicographic order. *)
Theorem compare_lists_exact_sorted_differences (source target : LayoutModel) :
  let d := _compare source target in
  sorted_listing (fields_missing_in_target d)
    (all_fields source ∖ all_fields target)
  /\ sorted_listing (fields_extra_in_target d)
       (all_fields target ∖ all_fields source)
  /\ sorted_listing (sections_missing_in_target d)
       (section_labels source ∖ section_labels target)
  /\ sorted_listing (sections_extra_in_target d)
       (section_labels target ∖ section_labels source)
  /\ sorted_listing (related_lists_missing_in_target d)
       (related_lists source ∖ related_lists target)
  /\ sorted_listing (related_lists_extra_in_target d)
       (related_lists target ∖ related_lists source).
Proof.
  simpl. repeat split; apply sorted_is_listing.
Qed.

(* ===================================================================== *)
(** ** Insertion-ordered dictionaries: facts *)
(* ===================================================================== *)

Section DictFacts.
Context {V : Type}.
Implicit Types (d : list (string * V)) (k : string) (v : V).

Lemma dict_get_set k k' v d :
  dict_get k (dict_set k' v d) = if String.eqb k k' then Some v else dict_get k d.
Proof.
  induction d as [|[k0 v0] d IH]; simpl.
  - by destruct (String.eqb_spec k k').
  - destruct (String.eqb_spec k' k0) as [->|Hne]; simpl.
    + by destruct (String.eqb_spec k k0).
    + destruct (String.eqb_spec k k0) as [->|Hne'].
      * destruct (String.eqb_spec k0 k'); [congruence|done].
      * done.
Qed.

Lemma dict_keys_set k v d :
  dict_keys (dict_set k v d)
  = if bool_decide (k ∈ dict_keys d) then dict_keys d
    else (dict_keys d ++ [k])%list.
Proof.
  unfold dict_keys. induction d as [|[k0 v0] d IH]; simpl; [done|].
  destruct (String.eqb_spec k k0) as [->|Hne]; simpl.
  - rewrite bool_decide_eq_true_2; [done|set_solver].
  - rewrite IH. case_bool_decide as Hin.
    + rewrite bool_decide_eq_true_2; [done|set_solver].
    + rewrite bool_decide_eq_false_2; [done|set_solver].
Qed.

Lemma dict_set_fresh k v d :
  k ∉ dict_keys d -> dict_set k v d = (d ++ [(k, v)])%list.
Proof.
  unfold dict_keys. induction d as [|[k0 v0] d IH]; simpl; [done|].
  intros Hnin. destruct (String.eqb_spec k k0) as [->|Hne]; [set_solver|].
  rewrite IH; [done|set_solver].
Qed.

Lemma dict_set_entries k v d kv :
  kv ∈ dict_set k v d -> kv = (k, v) \/ kv ∈ d.
Proof.
  induction d as [|[k0 v0] d IH]; simpl.
  - set_solver.
  - destruct (String.eqb_spec k k0) as [->|Hne]; set_solver.
Qed.

End DictFacts.

Lemma filter_elem {A} (p : A -> bool) (l : list A) (x : A) :
  x ∈ List.filter p l <-> x ∈ l /\ p x = true.
Proof. rewrite !list_elem_of_In. apply filter_In. Qed.

Lemma filter_all {A} (p : A -> bool) (l : list A) :
  (forall x, x ∈ l -> p x = true) -> List.filter p l = l.
Proof.
  induction l as [|y l IH]; simpl; [done|]. intros Hall.
  rewrite (Hall y) by constructor. f_equal. apply IH.
  intros x Hx. apply Hall. by constructor.
Qed.

Lemma first_occurrences_elem (l : list string) (x : string) :
  x ∈ first_occurrences l <-> x ∈ l.
Proof.
  induction l as [|y l IH]; simpl; [done|].
  rewrite !elem_of_cons, filter_elem, IH.
  destruct (String.eqb_spec x y) as [->|Hne]; simpl; naive_solver.
Qed.

Lemma first_occurrences_snoc (l : list string) (k : string) :
  first_occurrences (l ++ [k])
  = if bool_decide (k ∈ l) then first_occurrences l
    else (first_occurrences l ++ [k])%list.
Proof.
  induction l as [|x l IH]; simpl; [done|].
  rewrite IH. destruct (String.eqb_spec k x) as [->|Hne].
  - rewrite (bool_decide_eq_true_2 (x ∈ x :: l)) by constructor.
    case_bool_decide; [done|].
    rewrite List.filter_app. simpl. rewrite String.eqb_refl. simpl.
    by rewrite app_nil_r.
  - case_bool_decide as Hin.
    + rewrite (bool_decide_eq_true_2 (k ∈ x :: l)) by (by constructor).
      done.
    + rewrite (bool_decide_eq_false_2 (k ∈ x :: l)).
      * rewrite List.filter_app. simpl.
        by destruct (String.eqb_spec k x).
      * by intros [?|?]%elem_of_cons.
Qed.

Lemma first_occurrences_NoDup (l : list string) :
  NoDup l -> first_occurrences l = l.
Proof.
  induction 1 as [|x l Hx Hl IH]; simpl; [done|].
  rewrite IH. f_equal. apply filter_all.
  intros y Hy. destruct (String.eqb_spec y x) as [->|]; done.
Qed.

Lemma first_occurrences_is_NoDup (l : list string) :
  NoDup (first_occurrences l).
Proof.
  induction l as [|x l IH]; simpl; [constructor|].
  constructor.
  - rewrite filter_elem, String.eqb_refl. naive_solver.
  - apply NoDup_ListNoDup, List.NoDup_filter, NoDup_ListNoDup, IH.
Qed.

(** Building a dict by successive assignments [d[key x] = val x]. *)
Section DictFold.
Context {X V : Type} (key : X -> string) (val : X -> V).




Lemma dict_fold_keys (xs : list X) :
  dict_keys (fold_left (dict_assign key val) xs []) = first_occurrences (map key xs).
Proof.
  induction xs as [|x xs IH] using rev_ind; [done|].
  rewrite fold_left_app, map_app. simpl. unfold dict_assign at 1.
  rewrite dict_keys_set, first_occurrences_snoc, IH.
  case_bool_decide as Hin; rewrite first_occurrences_elem in Hin.
  - by rewrite bool_decide_eq_true_2.
  - by rewrite bool_decide_eq_false_2.
Qed.

Lemma dict_fold_get (xs : list X) (k : string) :
  dict_get k (fold_left (dict_assign key val) xs [])
  = val <$> find_last (fun x => String.eqb k (key x)) xs.
Proof.
  unfold find_last.
  induction xs as [|x xs IH] using rev_ind; [done|].
  rewrite fold_left_app, rev_app_distr. simpl. unfold dict_assign at 1.
  rewrite dict_get_set, IH. by destruct (String.eqb k (key x)).
Qed.

Lemma dict_fold_entries (xs : list X) (kv : string * V) :
  kv ∈ fold_left (dict_assign key val) xs [] -> exists x, x ∈ xs /\ kv = (key x, val x).
Proof.
  induction xs as [|x xs IH] using rev_ind; simpl; [set_solver|].
  rewrite fold_left_app. simpl. unfold dict_assign at 1.
  intros [->|Hin]%dict_set_entries.
  - exists x. set_solver.
  - destruct (IH Hin) as (y & Hy & ->). exists y. set_solver.
Qed.

Lemma dict_fold_NoDup (xs : list X) :
  NoDup (map key xs) ->
  fold_left (dict_assign key val) xs [] = map (fun x => (key x, val x)) xs.
Proof.
  induction xs as [|x xs IH] using rev_ind; [done|].
  rewrite map_app. simpl. intros [Hxs [Hx _]]%NoDup_app.
  rewrite fold_left_app, map_app. simpl. unfold dict_assign at 1.
  rewrite dict_set_fresh.
  - by rewrite IH.
  - rewrite dict_fold_keys, first_occurrences_elem.
    intros Hin. apply (Hx _ Hin). set_solver.
Qed.

End DictFold.

(* ===================================================================== *)
(** ** The layout parser *)
(* ===================================================================== *)

Lemma scan_items_spec (items : list Element) (l : list string) (F : gset string) :
  fold_left scan_item items (l, F)
  = ((l ++ omap (bound_name "field") items)%list,
     F ∪ list_to_set (omap (bound_name "field") items)).
Proof.
  revert l F. induction items as [|item items IH]; intros l F; simpl.
  - rewrite app_nil_r. f_equal. set_solver.
  - unfold scan_item at 2. destruct (bound_name "field" item) as [fname|]; simpl.
    + rewrite IH, <- app_assoc. f_equal. set_solver.
    + apply IH.
Qed.

Lemma scan_columns_spec (cols : list Element) (l : list string) (F : gset string) :
  let names := omap (bound_name "field") (flat_map (findall "layoutItems") cols) in
  fold_left scan_column cols (l, F) = ((l ++ names)%list, F ∪ list_to_set names).
Proof.
  revert l F. induction cols as [|col cols IH]; intros l F; simpl.
  - rewrite app_nil_r. f_equal. set_solver.
  - unfold scan_column at 2. rewrite scan_items_spec, IH.
    rewrite omap_app, <- app_assoc. f_equal.
    rewrite list_to_set_app_L. set_solver.
Qed.

Lemma scan_section_spec (st : list (string * list string) * gset string)
    (section : Element) :
  scan_section st section
  = (dict_set (section_label section) (section_field_names section) st.1,
     st.2 ∪ list_to_set (section_field_names section)).
Proof.
  unfold scan_section. rewrite scan_columns_spec. done.
Qed.

Lemma scan_sections_spec (secs : list Element)
    (d : list (string * list string)) (F : gset string) :
  fold_left scan_section secs (d, F)
  = (fold_left (dict_assign section_label section_field_names) secs d,
     F ∪ list_to_set (flat_map section_field_names secs)).
Proof.
  revert d F. induction secs as [|sec secs IH]; intros d F; simpl.
  - f_equal. set_solver.
  - rewrite scan_section_spec. simpl. rewrite IH. f_equal.
    rewrite list_to_set_app_L. set_solver.
Qed.

(** The model of a parsed document, loop by loop. *)
Lemma layout_of_root_spec (root : Element) :
  let secs := findall "layoutSections" root in
  sections (layout_of_root root)
  = fold_left (dict_assign section_label section_field_names) secs []
  /\ all_fields (layout_of_root root)
     = list_to_set (flat_map section_field_names secs).
Proof.
  unfold layout_of_root. rewrite scan_sections_spec. simpl.
  split; [done|set_solver].
Qed.

Lemma nonempty_false (s : string) : nonempty s = false <-> s = "".
Proof. destruct s; simpl; split; congruence. Qed.

Lemma spacer_iff (item : Element) :
  spacer item <-> bound_name "field" item = None.
Proof.
  unfold spacer, bound_name.
  destruct (find "field" item) as [f_el|]; [|done].
  destruct (text f_el) as [t|]; [|done].
  rewrite <- strip_blank_iff.
  destruct (nonempty t) eqn:Ht; simpl.
  - destruct (nonempty (strip t)) eqn:Hs.
    + split; [|done]. intros Hst. by rewrite Hst in Hs.
    + by apply nonempty_false in Hs.
  - apply nonempty_false in Ht as ->. done.
Qed.

Lemma bound_name_Some (child : string) (el : Element) (name : string) :
  bound_name child el = Some name ->
  exists f_el t, find child el = Some f_el /\ text f_el = Some t
                 /\ name = strip t /\ name <> "".
Proof.
  unfold bound_name.
  destruct (find child el) as [f_el|]; [|done].
  destruct (text f_el) as [t|] eqn:Ht; [|done].
  destruct (nonempty t); simpl; [|done].
  destruct (nonempty (strip t)) eqn:Hs; [|done].
  intros [= <-]. exists f_el, t. split; [done|]. split; [done|].
  split; [done|]. intros Heq. by rewrite Heq in Hs.
Qed.

Lemma items_skip_spacers (items : list Element) :
  skips_spacers items (omap (bound_name "field") items).
Proof.
  induction items as [|item items IH]; simpl; [constructor|].
  destruct (bound_name "field" item) as [name|] eqn:Hb.
  - destruct (bound_name_Some _ _ _ Hb) as (f_el & t & Hf & Ht & -> & _).
    eapply skips_bound; eauto.
    rewrite spacer_iff, Hb. done.
  - apply skips_spacer; [|done]. by apply spacer_iff.
Qed.

Lemma skips_spacers_functional (items : list Element) (n1 n2 : list string) :
  skips_spacers items n1 -> skips_spacers items n2 -> n1 = n2.
Proof.
  intros H1. revert n2.
  induction H1 as [|item items names Hsp _ IH|item items names f_el t Hns Hf Ht _ IH];
    intros n2 H2; inversion H2; subst; try done; auto.
  f_equal; [|auto]. congruence.
Qed.

Lemma skips_spacers_origin (items : list Element) (names : list string) (name : string) :
  skips_spacers items names -> name ∈ names ->
  exists item f_el t, item ∈ items /\ ~ spacer item
    /\ find "field" item = Some f_el /\ text f_el = Some t /\ name = strip t.
Proof.
  induction 1 as [|item items names Hsp _ IH|item items names f_el t Hns Hf Ht _ IH].
  - by intros ?%elem_of_nil.
  - intros Hin. destruct (IH Hin) as (i & f & t & Hi & ?).
    exists i, f, t. split; [by constructor|done].
  - intros [->|Hin]%elem_of_cons.
    + exists item, f_el, t. repeat split; try done. constructor.
    + destruct (IH Hin) as (i & f & t' & Hi & ?).
      exists i, f, t'. split; [by constructor|done].
Qed.

Section ParserClaims.
Context `{Ext : Externals}.

Lemma parse_layout_ok (xml : string) (root : Element) :
  etree_fromstring (list_byte_of_string xml) = inr root ->
  _parse_layout xml = inr (layout_of_root root).
Proof. unfold _parse_layout. by intros ->. Qed.

(** C9. For every payload the parser accepts, whatever the model holds
    comes from the document's layout items with the spacers skipped: the
    field sequence of every entry of [sections] is the sequence of stripped
    field references of the non-spacer items of a section element of the
    document, in document order, and every name of [all_fields] occurs in
    such a sequence.  At a spacer (an item with no field reference, or an
    empty or blank one) the loop leaves both the section's field sequence
    and [all_fields] as they are. *)
Theorem spacers_never_reach_the_model (xml : string) (root : Element) :
  etree_fromstring (list_byte_of_string xml) = inr root ->
  exists model,
    _parse_layout xml = inr model
    /\ (forall label fields,
          (label, fields) ∈ sections model ->
          exists section,
            section ∈ findall "layoutSections" root
            /\ label = section_label section
            /\ skips_spacers (section_items section) fields)
    /\ (forall name,
          name ∈ all_fields model ->
          exists section fields,
            section ∈ findall "layoutSections" root
            /\ skips_spacers (section_items section) fields
            /\ name ∈ fields)
    /\ (forall section item,
          section ∈ findall "layoutSections" root ->
          item ∈ section_items section ->
          spacer item ->
          forall collected, scan_item collected item = collected).
Proof.
  intros Hroot. exists (layout_of_root root).
  split; [by apply parse_layout_ok|].
  destruct (layout_of_root_spec root) as [Hsec Hall]. split; [|split].
  3:{ intros section item _ _ Hspacer collected.
      apply spacer_iff in Hspacer. unfold scan_item. by rewrite Hspacer. }
  - intros label fields Hin. rewrite Hsec in Hin.
    apply dict_fold_entries in Hin as (section & Hs & [= -> ->]).
    exists section. repeat split; [done|]. apply items_skip_spacers.
  - intros name Hin. rewrite Hall in Hin.
    apply elem_of_list_to_set in Hin.
    apply list_elem_of_In, in_flat_map in Hin as (section & Hs & Hn).
    exists section, (section_field_names section).
    rewrite <- !list_elem_of_In in *. repeat split; [done| |done].
    apply items_skip_spacers.
Qed.

(** C10. A section element whose label child has no text, or only blank
    text, is given the label [""] (so the model has the key [""]), not the
    sentinel; the sentinel is what a section without label child gets, and
    a section with a label child gets the stripped text of that child. *)
Theorem blank_label_is_empty_string (xml : string) (root section lbl_el : Element) :
  etree_fromstring (list_byte_of_string xml) = inr root ->
  section ∈ findall "layoutSections" root ->
  find "label" section = Some lbl_el ->
  (text lbl_el = None \/ exists t, text lbl_el = Some t /\ whitespace_only t) ->
  exists model,
    _parse_layout xml = inr model
    /\ section_label section = ""
    /\ section_label section <> "Unnamed Section"
    /\ "" ∈ dict_keys (sections model)
    /\ (forall other,
          other ∈ findall "layoutSections" root ->
          (find "label" other = None ->
           section_label other = "Unnamed Section")
          /\ (forall l, find "label" other = Some l ->
                section_label other = strip (default "" (text l)))).
Proof.
  intros Hroot Hsec Hlbl Hblank. exists (layout_of_root root).
  split; [by apply parse_layout_ok|].
  assert (section_label section = "") as Hempty.
  { unfold section_label. rewrite Hlbl.
    destruct Hblank as [->|(t & -> & Ht)]; [done|].
    by apply strip_whitespace_only. }
  split; [done|]. split; [by rewrite Hempty|]. split.
  - destruct (layout_of_root_spec root) as [-> _].
    rewrite dict_fold_keys, first_occurrences_elem.
    assert (section_label section
            ∈ map section_label (findall "layoutSections" root)) as Hin.
    { apply list_elem_of_In, in_map, list_elem_of_In, Hsec. }
    by rewrite Hempty in Hin.
  - intros other _. unfold section_label. split.
    + by intros ->.
    + by intros l ->.
Qed.


(** C2, as amended. For every payload the parser accepts, [all_fields] is
    exactly the set of field names contributed by all section elements of
    the document (two sections with one label included); the union of the
    field lists held by [sections] is contained in [all_fields] and equals
    it when no two section elements share a label. *)
Theorem all_fields_covers_every_section_element (xml : string) (root : Element) :
  etree_fromstring (list_byte_of_string xml) = inr root ->
  exists model,
    _parse_layout xml = inr model
    /\ all_fields model
       = list_to_set
           (flat_map section_field_names (findall "layoutSections" root))
    /\ sections_union model ⊆ all_fields model
    /\ (NoDup (map section_label (findall "layoutSections" root)) ->
        all_fields model = sections_union model).
Proof.
  intros Hroot. exists (layout_of_root root).
  split; [by apply parse_layout_ok|].
  destruct (layout_of_root_spec root) as [Hsec Hall].
  split; [done|]. split.
  - intros name. unfold sections_union. rewrite Hall, Hsec.
    rewrite !elem_of_list_to_set, !list_elem_of_In, !in_flat_map.
    intros ([label fields] & Hkv & Hname).
    apply list_elem_of_In, dict_fold_entries in Hkv as (sec & Hs & [= -> ->]).
    exists sec. split; [by apply list_elem_of_In|done].
  - intros Hnd. unfold sections_union. rewrite Hall, Hsec.
    rewrite (dict_fold_NoDup section_label section_field_names _ Hnd). f_equal.
    clear Hnd Hsec Hall.
    induction (findall "layoutSections" root) as [|sec secs IH]; [done|].
    simpl. by rewrite IH.
Qed.

(** C3, as amended. For every payload the parser accepts, [sections] has
    one entry per distinct label, the labels in the order of their first
    occurrence in the document, and the entry of a label holds the field
    sequence of the last section element with that label; when no two
    section elements share a label, [sections] lists every section element
    with its own field sequence in document order. *)
Theorem sections_keep_one_entry_per_label (xml : string) (root : Element) :
  etree_fromstring (list_byte_of_string xml) = inr root ->
  exists model,
    _parse_layout xml = inr model
    /\ dict_keys (sections model)
       = first_occurrences (map section_label (findall "layoutSections" root))
    /\ (forall label,
          dict_get label (sections model)
          = section_field_names
              <$> find_last (fun s => String.eqb label (section_label s))
                    (findall "layoutSections" root))
    /\ (NoDup (map section_label (findall "layoutSections" root)) ->
        sections model
        = map (fun s => (section_label s, section_field_names s))
            (findall "layoutSections" root)).
Proof.
  intros Hroot. exists (layout_of_root root).
  split; [by apply parse_layout_ok|].
  destruct (layout_of_root_spec root) as [-> _].
  split; [apply dict_fold_keys|]. split.
  - intros label. apply dict_fold_get.
  - apply dict_fold_NoDup.
Qed.

End ParserClaims.


(* ===================================================================== *)
(** ** The archive extractor *)
(* ===================================================================== *)

Section ExtractorFacts.
Context `{Ext : Externals}.

Lemma zip_read_member (zf : Archive) (entry : string) :
  entry ∈ map fst zf -> exists data, zip_read zf entry = inr data.
Proof.
  intros Hin. unfold zip_read.
  destruct (List.find _ (rev zf)) as [e|] eqn:Hfind; [by eexists|].
  exfalso. apply list_elem_of_In, in_map_iff in Hin as ([n d] & <- & Hin).
  apply in_rev in Hin.
  pose proof (find_none _ _ Hfind (n, d) Hin) as Hne. simpl in Hne.
  by rewrite String.eqb_refl in Hne.
Qed.

Lemma extract_entries_undecodable (zf : Archive) (entries : list string)
    (result : gmap string string) (entry : string) (data : list byte) :
  (forall e, e ∈ entries -> e ∈ map fst zf) ->
  entry ∈ entries ->
  layout_entry entry ->
  zip_read zf entry = inr data ->
  decode_utf8 data = None ->
  extract_entries zf entries result = inl UnicodeDecodeError.
Proof.
  intros Hall Hin [Hdir Hsuf] Hread Hdec. revert result.
  induction entries as [|e entries IH]; intros result.
  { by apply elem_of_nil in Hin. }
  assert (forall e', e' ∈ entries -> e' ∈ map fst zf) as Hall'.
  { intros e' He'. apply Hall. by constructor. }
  cbn [extract_entries].
  destruct (contains "/layouts/" (str_lower e)) eqn:Hc; simpl.
  2:{ apply IH; [done|]. apply elem_of_cons in Hin as [->|?]; [|done].
      congruence. }
  destruct (endswith ".layout-meta.xml" (str_lower e)
            || endswith ".layout" (str_lower e)) eqn:Hs; simpl.
  2:{ apply IH; [done|]. apply elem_of_cons in Hin as [->|?]; [|done].
      apply orb_false_iff in Hs as [? ?]. destruct Hsuf; congruence. }
  destruct (zip_read_member zf e) as [d Hd]; [apply Hall; constructor|].
  rewrite Hd. simpl. destruct (decode_utf8 d) as [xml|] eqn:Hxml; [|done].
  apply IH; [done|]. apply elem_of_cons in Hin as [->|?]; [|done].
  congruence.
Qed.

Lemma extract_entries_decodable (zf : Archive) (entries : list string)
    (result : gmap string string) :
  (forall e, e ∈ entries -> e ∈ map fst zf) ->
  (forall entry data,
     entry ∈ entries -> layout_entry entry ->
     zip_read zf entry = inr data -> decode_utf8 data <> None) ->
  exists extracted, extract_entries zf entries result = inr extracted.
Proof.
  revert result. induction entries as [|e entries IH]; intros result Hall Hdec.
  { by eexists. }
  assert (forall e', e' ∈ entries -> e' ∈ map fst zf) as Hall'.
  { intros e' He'. apply Hall. by constructor. }
  assert (forall entry data,
            entry ∈ entries -> layout_entry entry ->
            zip_read zf entry = inr data -> decode_utf8 data <> None) as Hdec'.
  { intros entry data Hin. apply Hdec. by constructor. }
  cbn [extract_entries].
  destruct (contains "/layouts/" (str_lower e)) eqn:Hc; simpl; [|by apply IH].
  destruct (endswith ".layout-meta.xml" (str_lower e)
            || endswith ".layout" (str_lower e)) eqn:Hs; simpl; [|by apply IH].
  destruct (zip_read_member zf e) as [d Hd]; [apply Hall; constructor|].
  rewrite Hd. simpl. destruct (decode_utf8 d) as [xml|] eqn:Hxml; [by apply IH|].
  exfalso. apply (Hdec e d); [constructor| |done|done].
  split; [done|]. by apply orb_true_iff in Hs.
Qed.

(** C7, as amended. An archive entry outside the layouts filter is never
    decoded: when every layout entry decodes, the extraction returns a
    map, whatever the bytes of the other entries.  But when the bytes of a
    layout entry fail UTF-8 decoding, the extraction raises
    [UnicodeDecodeError] and returns no map at all: no entry of the archive
    is extracted. *)
Theorem undecodable_layout_aborts_extraction (zip_bytes : list byte)
    (zf : Archive) :
  zip_open zip_bytes = inr zf ->
  (forall entry data,
     entry ∈ map fst zf ->
     layout_entry entry ->
     zip_read zf entry = inr data ->
     decode_utf8 data = None ->
     _extract_layouts_from_zip zip_bytes = inl UnicodeDecodeError)
  /\ ((forall entry data,
         entry ∈ map fst zf ->
         layout_entry entry ->
         zip_read zf entry = inr data ->
         decode_utf8 data <> None) ->
      exists extracted, _extract_layouts_from_zip zip_bytes = inr extracted).
Proof.
  intros Hopen. unfold _extract_layouts_from_zip. rewrite Hopen. simpl. split.
  - intros entry data Hin Hlay Hread Hdec.
    by eapply extract_entries_undecodable.
  - intros Hdec. by apply extract_entries_decodable.
Qed.

End ExtractorFacts.

(* ===================================================================== *)
(** ** The retrieve client *)
(* ===================================================================== *)

Section RetrieveFacts.
Context `{Ext : Externals}.

Lemma after_calls_refl (w : World) : after_calls w w [].
Proof. unfold after_calls. rewrite app_nil_r. done. Qed.

Lemma after_calls_trans (w1 w2 w3 : World) (c1 c2 : list SoapCall) :
  after_calls w1 w2 c1 -> after_calls w2 w3 c2 -> after_calls w1 w3 (c1 ++ c2).
Proof.
  unfold after_calls. intros (? & Hp1 & ?) (? & Hp2 & ?).
  rewrite Hp2, Hp1, app_assoc. repeat split; [lia|congruence].
Qed.

Lemma soap_post_run (url : string) (body : list byte) (action : string)
    (w : World) (r : Result Element) (w' : World) :
  _soap_post url body action w = (r, w') ->
  r <> OutOfFuel
  /\ after_calls w w'
       [{| call_url := url; call_body := body; call_action := action |}].
Proof.
  unfold _soap_post, after_calls.
  destruct (requests_post w _) as [answer elapsed].
  intros Heq.
  assert (w' = {| now := now w + Z.of_N elapsed;
                  posts := posts w ++ [{| call_url := url; call_body := body;
                                          call_action := action |}];
                  files := files w |} /\ r <> OutOfFuel) as [-> ?].
  { destruct answer as [e|resp]; [by inversion Heq|].
    destruct (negb (status_code resp =? 200)); [by inversion Heq|].
    destruct (etree_fromstring (resp_content resp)); by inversion Heq. }
  simpl. repeat split; [done|lia].
Qed.

Lemma soap_post_ok (url : string) (body : list byte) (action : string)
    (w : World) (resp : HttpResponse) (elapsed : N) (root : Element) :
  requests_post w {| call_url := url; call_body := body; call_action := action |}
    = (inr resp, elapsed) ->
  status_code resp = 200 ->
  etree_fromstring (resp_content resp) = inr root ->
  exists w', _soap_post url body action w = (Ok root, w').
Proof.
  intros Hpost Hcode Hroot. unfold _soap_post.
  rewrite Hpost, Hcode, Hroot. simpl. by eexists.
Qed.

Lemma extract_never_out_of_fuel {A} (r : Exn + A) (w : World) :
  (lift r w).1 <> OutOfFuel /\ (lift r w).2 = w.
Proof. by destruct r. Qed.

Lemma poll_until_done_run (fuel : nat)
    (instance_url meta_url token api_version : string)
    (retrieve_id : option string) (deadline : Z) (w : World)
    (r : Result (gmap string string)) (w' : World) :
  poll_until_done fuel instance_url meta_url token api_version retrieve_id
    deadline w = (r, w') ->
  exists calls,
    after_calls w w' calls
    /\ Forall is_status_call calls
    /\ (deadline - now w <= 3000 * Z.of_nat fuel -> r <> OutOfFuel).
Proof.
  revert w. induction fuel as [|fuel IH]; intros w.
  - simpl. unfold mbind, M_bind, time_time.
    destruct (now w <? deadline) eqn:Hlt.
    + intros [= <- <-]. exists []. split; [apply after_calls_refl|].
      split; [constructor|]. lia.
    + intros [= <- <-]. exists []. split; [apply after_calls_refl|].
      split; [constructor|done].
  - cbn [poll_until_done]. unfold mbind at 1, M_bind at 1, time_time at 1.
    destruct (now w <? deadline) eqn:Hlt.
    2:{ intros [= <- <-]. exists []. split; [apply after_calls_refl|].
        split; [constructor|done]. }
    unfold mbind at 1, M_bind at 1.
    destruct (_soap_post _ _ _ w) as [r1 w1] eqn:Hpost.
    apply soap_post_run in Hpost as [Hr1 Hw1].
    assert (Forall is_status_call
              [{| call_url := meta_url;
                  call_body := _build_status_envelope token api_version retrieve_id;
                  call_action := "checkRetrieveStatus" |}]) as Hcall.
    { by repeat constructor. }
    destruct r1 as [status_root|e|]; [| |done].
    2:{ intros [= <- <-]. eexists. split; [done|]. split; [done|done]. }
    destruct (is_None _ || negb _).
    + unfold mbind at 1, M_bind at 1, time_sleep at 1.
      intros Hrest. apply IH in Hrest as (calls & Hafter & Hcalls & Hfuel).
      eexists. split; [|split].
      * eapply after_calls_trans; [apply Hw1|].
        destruct Hafter as (Hn & Hp & Hf). simpl in *.
        split; [lia|done].
      * apply Forall_app. split; [exact Hcall|exact Hcalls].
      * intros Hd. apply Hfuel. simpl. destruct Hw1 as [? _]. lia.
    + destruct (negb _ && _).
      { intros [= <- <-]. eexists. split; [done|]. split; [done|done]. }
      assert (forall (m : M (gmap string string)),
                (forall w0, (m w0).1 <> OutOfFuel /\ (m w0).2 = w0) ->
                m w1 = (r, w') ->
                exists calls, after_calls w w' calls
                  /\ Forall is_status_call calls
                  /\ (deadline - now w <= 3000 * Z.of_nat (S fuel) ->
                      r <> OutOfFuel)) as Hpure.
      { intros m Hm Heq. destruct (Hm w1) as [Hr Hw]. rewrite Heq in Hr, Hw.
        simpl in *. subst w'. eexists. split; [done|]. split; [done|done]. }
      destruct (_find_el status_root "zipFile" ≫= text) as [zip_text|].
      2:{ apply Hpure. intros w0. done. }
      destruct (negb (nonempty zip_text)).
      { apply Hpure. intros w0. done. }
      apply Hpure. intros w0. unfold mbind, M_bind, lift.
      destruct (b64decode zip_text) as [e|zip_bytes]; [done|].
      by destruct (_extract_layouts_from_zip zip_bytes).
Qed.

Lemma poll_until_done_times_out (fuel : nat)
    (instance_url meta_url token api_version : string)
    (retrieve_id : option string) (deadline : Z) (w : World) :
  never_done_before meta_url token api_version retrieve_id deadline ->
  deadline - now w <= 3000 * Z.of_nat fuel ->
  exists w' calls,
    poll_until_done fuel instance_url meta_url token api_version retrieve_id
      deadline w = (Raise (TimeoutError (timeout_message instance_url)), w')
    /\ after_calls w w' calls
    /\ Forall is_status_call calls
    /\ deadline <= now w'.
Proof.
  intros Hnever. revert w. induction fuel as [|fuel IH]; intros w Hfuel.
  - simpl. unfold mbind, M_bind, time_time.
    destruct (now w <? deadline) eqn:Hlt; [lia|].
    exists w, []. split; [done|]. split; [apply after_calls_refl|].
    split; [constructor|lia].
  - cbn [poll_until_done]. unfold mbind at 1, M_bind at 1, time_time at 1.
    destruct (now w <? deadline) eqn:Hlt.
    2:{ exists w, []. split; [done|]. split; [apply after_calls_refl|].
        split; [constructor|lia]. }
    destruct (Hnever w) as (resp & elapsed & root & Hpost & Hcode & Hroot & Hdone);
      [lia|].
    destruct (soap_post_ok _ _ _ _ _ _ _ Hpost Hcode Hroot) as [w1 Hrun].
    unfold mbind at 1, M_bind at 1.
    rewrite Hrun.
    apply soap_post_run in Hrun as [_ Hw1].
    rewrite Hdone, orb_true_r.
    unfold mbind at 1, M_bind at 1, time_sleep at 1.
    edestruct (IH {| now := now w1 + 1000 * 3 + Z.of_N (sleep_lag w1);
                     posts := posts w1;
                     files := files w1 |})
      as (w' & calls & Hres & Hafter & Hcalls & Hd).
    { simpl. destruct Hw1 as [? _]. lia. }
    exists w'. eexists. split; [exact Hres|]. split; [|split; [|done]].
    + eapply after_calls_trans; [apply Hw1|].
      destruct Hafter as (Hn & Hp & Hf). simpl in *. split; [lia|done].
    + apply Forall_app. split; [|exact Hcalls]. by repeat constructor.
Qed.

Lemma soap_post_answered (url : string) (body : list byte) (action : string)
    (w : World) (resp : HttpResponse) (elapsed : N) (root : Element) :
  requests_post w {| call_url := url; call_body := body; call_action := action |}
    = (inr resp, elapsed) ->
  status_code resp = 200 ->
  etree_fromstring (resp_content resp) = inr root ->
  _soap_post url body action w
  = (Ok root,
     {| now := now w + Z.of_N elapsed;
        posts := posts w ++ [{| call_url := url; call_body := body;
                                call_action := action |}];
        files := files w |}).
Proof.
  intros Hpost Hcode Hroot. unfold _soap_post.
  rewrite Hpost, Hcode, Hroot. reflexivity.
Qed.

(** A poll started before the deadline whose answer carries the flag
    [true] ends the loop with the outcome of that answer, whenever the
    answer arrives. *)
Lemma poll_completed (fuel : nat)
    (instance_url meta_url token api_version : string)
    (retrieve_id : option string) (deadline : Z) (w : World)
    (resp : HttpResponse) (elapsed : N) (root : Element) :
  now w < deadline ->
  requests_post w (status_call meta_url token api_version retrieve_id)
    = (inr resp, elapsed) ->
  status_code resp = 200 ->
  etree_fromstring (resp_content resp) = inr root ->
  text_is (_find_el root "done") "true" = true ->
  poll_until_done (S fuel) instance_url meta_url token api_version
    retrieve_id deadline w
  = (completed_outcome instance_url root,
     {| now := now w + Z.of_N elapsed;
        posts := posts w ++ [status_call meta_url token api_version retrieve_id];
        files := files w |}).
Proof.
  intros Hnow Hpost Hcode Hroot Hdone.
  cbn [poll_until_done]. unfold mbind at 1, M_bind at 1, time_time at 1.
  apply Z.ltb_lt in Hnow. rewrite Hnow.
  unfold mbind at 1, M_bind at 1.
  rewrite (soap_post_answered _ _ _ _ _ _ _ Hpost Hcode Hroot).
  fold (status_call meta_url token api_version retrieve_id).
  rewrite Hdone.
  assert (is_None (_find_el root "done") = false) as ->.
  { by destruct (_find_el root "done"). }
  cbn [negb orb]. unfold completed_outcome.
  destruct (negb (is_None (_find_el root "status"))
            && text_is (_find_el root "status") "Failed"); [reflexivity|].
  destruct (_find_el root "zipFile" ≫= text) as [zip_text|]; [|reflexivity].
  destruct (negb (nonempty zip_text)); [reflexivity|].
  unfold mbind at 1, M_bind at 1, lift.
  destruct (b64decode zip_text) as [e|zip_bytes]; [reflexivity|].
  unfold mbind, raising_bind.
  by destruct (_extract_layouts_from_zip zip_bytes).
Qed.

Lemma fetch_all_layouts_run (instance_url token api_version : string)
    (names : list string) (w : World)
    (r : Result (gmap string string)) (w' : World) :
  _fetch_all_layouts instance_url token api_version names w = (r, w') ->
  r <> OutOfFuel
  /\ exists calls,
       after_calls w w'
         (retrieve_call (instance_url ++ "/services/Soap/m/" ++ api_version)
            token api_version names :: calls)
       /\ Forall is_status_call calls.
Proof.
  unfold _fetch_all_layouts. unfold mbind at 1, M_bind at 1.
  destruct (_soap_post _ _ _ w) as [r1 w1] eqn:Hpost.
  apply soap_post_run in Hpost as [Hr1 Hw1].
  destruct r1 as [root|e|]; [| |done].
  2:{ intros [= <- <-]. split; [done|]. exists []. split; [done|constructor]. }
  destruct (_find_el root "id") as [id_el|].
  2:{ intros [= <- <-]. split; [done|]. exists []. split; [done|constructor]. }
  unfold mbind at 1, M_bind at 1, time_time at 1.
  intros Hpoll. apply poll_until_done_run in Hpoll as (calls & Hafter & Hcalls & Hfuel).
  split.
  - apply Hfuel. unfold max_polls. lia.
  - exists calls. split; [|done].
    by apply (after_calls_trans _ _ _ [_] calls Hw1).
Qed.

Lemma fetch_all_layouts_times_out (instance_url token api_version : string)
    (names : list string) (w : World) (retrieve_id : option string)
    (started : Z) :
  let meta_url := instance_url ++ "/services/Soap/m/" ++ api_version in
  job_started meta_url token api_version names w retrieve_id started ->
  never_done_before meta_url token api_version retrieve_id (started + 120000) ->
  exists w',
    _fetch_all_layouts instance_url token api_version names w
    = (Raise (TimeoutError (timeout_message instance_url)), w')
    /\ files w' = files w
    /\ started + 120000 <= now w'.
Proof.
  intros meta_url
    (resp & elapsed & root & id_el & Hpost & Hcode & Hroot & Hid & -> & ->)
    Hnever.
  unfold _fetch_all_layouts. unfold mbind at 1, M_bind at 1.
  destruct (soap_post_ok _ _ _ _ _ _ _ Hpost Hcode Hroot) as [w1 Hrun].
  fold meta_url. rewrite Hrun, Hid.
  assert (now w1 = now w + Z.of_N elapsed) as Hnow1.
  { unfold _soap_post in Hrun. unfold retrieve_call in Hpost.
    rewrite Hpost, Hcode, Hroot in Hrun. simpl in Hrun.
    by injection Hrun as <-. }
  apply soap_post_run in Hrun as [_ (_ & _ & Hf1)].
  unfold mbind at 1, M_bind at 1, time_time at 1.
  destruct (poll_until_done_times_out max_polls instance_url meta_url token
              api_version (text id_el) (now w1 + 1000 * 120) w1)
    as (w' & calls & Hres & (Hn & _ & Hf) & _ & Hd).
  { replace (now w1 + 1000 * 120) with (now w + Z.of_N elapsed + 120000) by lia.
    exact Hnever. }
  { unfold max_polls. lia. }
  exists w'. split; [exact Hres|]. split; [by rewrite Hf|lia].
Qed.

End RetrieveFacts.

(* ===================================================================== *)
(** ** The tool *)
(* ===================================================================== *)

Section ToolFacts.
Context `{Ext : Externals}.

Lemma compare_all_map (sl tl : gmap string string) (names : list string) :
  compare_all sl tl names
  = (map (fun n => (compare_one sl tl n).1) names,
     map (fun n => (compare_one sl tl n).2) names).
Proof.
  unfold compare_all.
  assert (forall rows entries,
            fold_left
              (fun acc name =>
                 let '(row, entry) := compare_one sl tl name in
                 ((acc.1 ++ [row])%list, (acc.2 ++ [entry])%list))
              names (rows, entries)
            = ((rows ++ map (fun n => (compare_one sl tl n).1) names)%list,
               (entries ++ map (fun n => (compare_one sl tl n).2) names)%list))
    as Hgen.
  { induction names as [|n names IH]; intros rows entries; simpl.
    - by rewrite !app_nil_r.
    - destruct (compare_one sl tl n) as [row entry]. simpl.
      by rewrite IH, <- !app_assoc. }
  apply Hgen.
Qed.

Lemma blank_row_cells (source_name target_name status : string) :
  dict_get "Source Layout Name" (_blank_row source_name target_name status)
    = Some (CStr source_name)
  /\ dict_get "Target Layout Name" (_blank_row source_name target_name status)
     = Some (CStr target_name)
  /\ dict_get "Status" (_blank_row source_name target_name status)
     = Some (CStr status)
  /\ blank_diff_fields (_blank_row source_name target_name status).
Proof. repeat split; repeat constructor. Qed.

Lemma compared_row_name (name : string) (diff : Diff) :
  dict_get "Source Layout Name" (compared_row name diff) = Some (CStr name).
Proof. reflexivity. Qed.

Lemma compare_one_name (sl tl : gmap string string) (name : string) :
  dict_get "Source Layout Name" (compare_one sl tl name).1 = Some (CStr name).
Proof.
  unfold compare_one.
  destruct (sl !! name) as [sx|], (tl !! name) as [tx|]; try reflexivity.
  destruct (parse_both sx tx) as [e|[sd td]]; reflexivity.
Qed.

Lemma rows_follow_names (sl tl : gmap string string) (names : list string) :
  map (dict_get "Source Layout Name")
    (map (fun n => (compare_one sl tl n).1) names)
  = map (fun n => Some (CStr n)) names.
Proof.
  rewrite map_map. apply map_ext. intros n. apply compare_one_name.
Qed.

Lemma compare_self_empty (m : LayoutModel) :
  let d := _compare m m in
  fields_missing_in_target d = [] /\ fields_extra_in_target d = []
  /\ sections_missing_in_target d = [] /\ sections_extra_in_target d = []
  /\ related_lists_missing_in_target d = []
  /\ related_lists_extra_in_target d = [].
Proof.
  simpl. rewrite !difference_diag_L. repeat split; apply sorted_empty.
Qed.

Lemma compared_row_self (name : string) (m : LayoutModel) :
  zero_diff_row name (compared_row name (_compare m m)).
Proof.
  destruct (compare_self_empty m) as (H1 & H2 & H3 & H4 & H5 & H6).
  unfold zero_diff_row, compared_row, count_cell.
  rewrite H1, H2, H3, H4, H5, H6.
  repeat split; repeat constructor.
Qed.

Lemma write_report_run (names : list string) (same : bool)
    (src_url tgt_url api_ver : string) (output_filename : option string)
    (csv_rows entries : list Row) (w : World) (r : Result Response) (w' : World) :
  write_report names same src_url tgt_url api_ver output_filename csv_rows
    entries w = (r, w') ->
  (exists e, r = Raise e /\ w' = w)
  \/ (exists d,
        r = Ok (SuccessResponse d)
        /\ now w' = now w /\ posts w' = posts w
        /\ files w' = (files w ++ [(csv_file d, csv_rows)])%list
        /\ total_layouts d = List.length names
        /\ same_org d = same
        /\ summary d = entries).
Proof.
  unfold write_report, resolve_csv_path, _write_csv, raise.
  unfold mbind, M_bind, mret, M_ret.
  destruct (os_makedirs _) as [e|]; [intros [= <- <-]; left; by eexists|].
  match goal with
  | |- context [if ?b then _ else _] => destruct b
  end.
  all: match goal with
       | |- context [open_for_writing ?p] => destruct (open_for_writing p) as [e|]
       end.
  all: intros [= <- <-];
    first [left; by eexists | right; eexists; by repeat split].
Qed.

End ToolFacts.

Section ToolRun.
Context `{Ext : Externals}.

(** Every way a run of the tool can go, stage by stage. *)
Lemma tool_run (layout_names : string)
    (source_org_user_id target_org_user_id output_filename : option string)
    (w : World) (r : Result Response) (w' : World) :
  compare_page_layouts layout_names source_org_user_id target_org_user_id
    output_filename w = (r, w') ->
  let names := requested_names layout_names in
  (names = []
   /\ r = Ok (ErrorResponse (ValueError "layout_names must not be empty.")
               "compare_page_layouts")
   /\ w' = w)
  \/ (names <> []
      /\ exists e,
        _get_org_credentials source_org_user_id = inl e
        /\ r = Ok (ErrorResponse e "compare_page_layouts (source org)")
        /\ w' = w)
  \/ (names <> []
      /\ exists src e,
        _get_org_credentials source_org_user_id = inr src
        /\ _get_org_credentials target_org_user_id = inl e
        /\ r = Ok (ErrorResponse e "compare_page_layouts (target org)")
        /\ w' = w)
  \/ (names <> []
      /\ exists src_url src_token api_ver tgt_url tgt_token tgt_ver r1 w1,
        _get_org_credentials source_org_user_id
          = inr (src_url, src_token, api_ver)
        /\ _get_org_credentials target_org_user_id
           = inr (tgt_url, tgt_token, tgt_ver)
        /\ _fetch_all_layouts src_url src_token api_ver names w = (r1, w1)
        /\ ((exists e,
               r1 = Raise e
               /\ r = Ok (ErrorResponse e
                            "compare_page_layouts (fetch source layouts)")
               /\ w' = w1)
            \/ exists src_layouts r2 w2,
                r1 = Ok src_layouts
                /\ fetch_target
                     (String.eqb src_url tgt_url && String.eqb src_token tgt_token)
                     src_layouts tgt_url tgt_token api_ver names w1 = (r2, w2)
                /\ ((exists e,
                       r2 = Raise e
                       /\ r = Ok (ErrorResponse e
                                    "compare_page_layouts (fetch target layouts)")
                       /\ w' = w2)
                    \/ exists tgt_layouts,
                        r2 = Ok tgt_layouts
                        /\ ((exists e,
                               r = Ok (ErrorResponse e "compare_page_layouts")
                               /\ w' = w2)
                            \/ exists d,
                                r = Ok (SuccessResponse d)
                                /\ now w' = now w2 /\ posts w' = posts w2
                                /\ files w'
                                   = (files w2
                                      ++ [(csv_file d,
                                           map (fun n => (compare_one src_layouts tgt_layouts n).1) names)])%list
                                /\ summary d
                                   = map (fun n => (compare_one src_layouts tgt_layouts n).2) names
                                /\ total_layouts d = List.length names
                                /\ same_org d
                                   = (String.eqb src_url tgt_url
                                      && String.eqb src_token tgt_token))))).
Proof.
  intros Hrun names.
  unfold compare_page_layouts, try_except in Hrun. fold names in Hrun.
  case_bool_decide as Hnames.
  { injection Hrun as <- <-. by left. }
  right. unfold try_or_return at 1, lift at 1 in Hrun.
  destruct (_get_org_credentials source_org_user_id)
    as [e|[[src_url src_token] api_ver]] eqn:Hsrc.
  { injection Hrun as <- <-. left. split; [done|]. by exists e. }
  right. unfold try_or_return at 1, lift at 1 in Hrun.
  destruct (_get_org_credentials target_org_user_id)
    as [e|[[tgt_url tgt_token] tgt_ver]] eqn:Htgt.
  { injection Hrun as <- <-. left. split; [done|]. by eexists _, e. }
  right. split; [done|].
  exists src_url, src_token, api_ver, tgt_url, tgt_token, tgt_ver.
  unfold try_or_return at 1 in Hrun.
  destruct (_fetch_all_layouts src_url src_token api_ver names w)
    as [r1 w1] eqn:Hfetch1.
  exists r1, w1. split; [done|]. split; [done|]. split; [done|].
  destruct (fetch_all_layouts_run _ _ _ _ _ _ _ Hfetch1) as [Hr1 _].
  destruct r1 as [src_layouts|e|]; [| |done].
  2:{ injection Hrun as <- <-. left. by exists e. }
  right. unfold try_or_return at 1 in Hrun.
  destruct (fetch_target _ src_layouts tgt_url tgt_token api_ver names w1)
    as [r2 w2] eqn:Hfetch2.
  exists src_layouts, r2, w2. split; [done|]. split; [done|].
  assert (r2 <> OutOfFuel) as Hr2.
  { unfold fetch_target in Hfetch2.
    destruct (_ && _); [by inversion Hfetch2|].
    by destruct (fetch_all_layouts_run _ _ _ _ _ _ _ Hfetch2). }
  destruct r2 as [tgt_layouts|e|]; [| |done].
  2:{ injection Hrun as <- <-. left. by exists e. }
  right. exists tgt_layouts. split; [done|].
  rewrite compare_all_map in Hrun.
  destruct (write_report _ _ _ _ _ _ _ _ w2) as [r3 w3] eqn:Hreport.
  apply write_report_run in Hreport
    as [(e & -> & ->)|(d & -> & Hn & Hp & Hf & Ht & Hs & Hsum)].
  - injection Hrun as <- <-. left. by exists e.
  - injection Hrun as <- <-. right. exists d. by repeat split.
Qed.


(** The tool always returns a response: no exception escapes it and the
    poll budget of the model is never used up. *)
Lemma compare_page_layouts_returns (layout_names : string)
    (source_org_user_id target_org_user_id output_filename : option string)
    (w : World) :
  exists resp w',
    compare_page_layouts layout_names source_org_user_id target_org_user_id
      output_filename w = (Ok resp, w').
Proof.
  destruct (compare_page_layouts _ _ _ _ w) as [r w'] eqn:Hrun.
  assert (exists resp, r = Ok resp) as [resp ->]; [|by eexists _, _].
  apply tool_run in Hrun
    as [(_ & -> & _)|[(_ & e & _ & -> & _)|[(_ & src & e & _ & _ & -> & _)|Hrun]]];
    [by eexists..|].
  destruct Hrun as (_ & su & sk & ver & tu & tk & tv & r1 & w1 & _ & _ & _ & Hrest).
  destruct Hrest as [(e & _ & -> & _)|(sl & r2 & w2 & _ & _ & Hrest)];
    [by eexists|].
  destruct Hrest as [(e & _ & -> & _)|(tl & _ & Hrest)]; [by eexists|].
  destruct Hrest as [(e & -> & _)|(d & -> & _)]; by eexists.
Qed.

Lemma retrieve_count_after_fetch (w w' : World) (call : SoapCall)
    (calls : list SoapCall) :
  call_action call = "retrieve" ->
  after_calls w w' (call :: calls) ->
  Forall is_status_call calls ->
  retrieve_count (posts w') = S (retrieve_count (posts w)).
Proof.
  intros Hcall (_ & -> & _) Hcalls. unfold retrieve_count.
  rewrite List.filter_app, length_app. simpl. rewrite Hcall. simpl.
  assert (List.filter (fun c => String.eqb (call_action c) "retrieve") calls = [])
    as ->; [|simpl; lia].
  induction Hcalls as [|c calls Hc _ IH]; [done|].
  simpl. rewrite Hc. done.
Qed.

Lemma compare_one_present (sl tl : gmap string string) (name sx tx : string)
    (sd td : LayoutModel) :
  sl !! name = Some sx -> tl !! name = Some tx ->
  _parse_layout sx = inr sd -> _parse_layout tx = inr td ->
  compare_one sl tl name
  = (compared_row name (_compare sd td), compared_summary name (_compare sd td)).
Proof.
  intros Hs Ht Hsd Htd. unfold compare_one, parse_both.
  rewrite Hs, Ht, Hsd. simpl. rewrite Htd. done.
Qed.



End ToolRun.

Section ToolClaims.
Context `{Ext : Externals}.

Lemma fetch_target_run (same : bool) (sl : gmap string string)
    (tgt_url tgt_token api_ver : string) (names : list string)
    (w : World) (r : Result (gmap string string)) (w' : World) :
  fetch_target same sl tgt_url tgt_token api_ver names w = (r, w') ->
  files w' = files w
  /\ (same = true -> r = Ok sl /\ w' = w).
Proof.
  unfold fetch_target. destruct same.
  - intros [= <- <-]. done.
  - intros Hf. apply fetch_all_layouts_run in Hf as [_ (calls & (_ & _ & Hfiles) & _)].
    done.
Qed.

(** C8. The caller supplies the names as the comma-separated pieces of
    [layout_names] (every text is the comma-separated form of its pieces,
    [join_split]); the supplied names are the pieces without the
    whitespace around them, in the order given, blank pieces left out and
    repeated names kept.  Whatever the orgs answer, a run of the tool
    either returns an error response and writes nothing, or returns a
    success response and writes one report whose rows are, in this order,
    the rows of the supplied names: one row per supplied name, the i-th
    row carrying the i-th name and depending on the retrieved maps only
    through the lookups of that name. *)
Theorem report_rows_follow_caller_order (pieces : list string)
    (source_org_user_id target_org_user_id output_filename : option string)
    (w : World) (r : Result Response) (w' : World) :
  Forall (fun p => contains "," p = false) pieces ->
  compare_page_layouts (join "," pieces) source_org_user_id target_org_user_id
    output_filename w = (r, w') ->
  let names := supplied_names pieces in
  (exists e ctx, r = Ok (ErrorResponse e ctx) /\ files w' = files w)
  \/ (exists d src_layouts tgt_layouts,
        r = Ok (SuccessResponse d)
        /\ let rows :=
             map (fun n => (compare_one src_layouts tgt_layouts n).1) names in
           files w' = (files w ++ [(csv_file d, rows)])%list
           /\ map (dict_get "Source Layout Name") rows
              = map (fun n => Some (CStr n)) names
           /\ List.length rows = List.length names).
Proof.
  intros Hpieces Hrun names.
  apply tool_run in Hrun. rewrite (requested_names_join pieces Hpieces) in Hrun.
  fold names in Hrun.
  destruct Hrun
    as [(_ & -> & ->)|[(_ & e & _ & -> & ->)|[(_ & src & e & _ & _ & -> & ->)|Hrun]]];
    [left; by eexists _, _..|].
  destruct Hrun as (_ & su & sk & ver & tu & tk & tv & r1 & w1 & _ & _ & Hf1 & Hrest).
  apply fetch_all_layouts_run in Hf1 as [_ (calls & (_ & _ & Hfiles1) & _)].
  destruct Hrest as [(e & _ & -> & ->)|(sl & r2 & w2 & _ & Hf2 & Hrest)];
    [left; by eexists _, _|].
  apply fetch_target_run in Hf2 as [Hfiles2 _].
  destruct Hrest as [(e & _ & -> & ->)|(tl & _ & Hrest)].
  { left. eexists _, _. split; [done|]. by rewrite Hfiles2. }
  destruct Hrest as [(e & -> & ->)|(d & -> & _ & _ & Hfiles & _)].
  { left. eexists _, _. split; [done|]. by rewrite Hfiles2. }
  right. exists d, sl, tl. split; [done|]. simpl. split; [|split].
  - by rewrite Hfiles, Hfiles2, Hfiles1.
  - apply rows_follow_names.
  - by rewrite length_map.
Qed.

(** C4. When both org selectors resolve to the same base URL and token,
    the run invokes [_fetch_all_layouts] once: the calls it posts are those
    of that single invocation, among them exactly one retrieve request.
    Its result serves both sides, and in the report every requested layout
    that is present and parses has status [Compared], the six difference
    cells empty and the six difference counts zero. *)
Theorem same_org_retrieves_once_and_reports_no_diff (layout_names : string)
    (source_org_user_id target_org_user_id output_filename : option string)
    (url token api_ver tgt_ver : string)
    (w : World) (r : Result Response) (w' : World) :
  requested_names layout_names <> [] ->
  _get_org_credentials source_org_user_id = inr (url, token, api_ver) ->
  _get_org_credentials target_org_user_id = inr (url, token, tgt_ver) ->
  compare_page_layouts layout_names source_org_user_id target_org_user_id
    output_filename w = (r, w') ->
  let names := requested_names layout_names in
  exists r1 w1,
    _fetch_all_layouts url token api_ver names w = (r1, w1)
    /\ posts w' = posts w1
    /\ retrieve_count (posts w') = S (retrieve_count (posts w))
    /\ ((exists e ctx, r = Ok (ErrorResponse e ctx) /\ files w' = files w)
        \/ (exists d layouts,
              r1 = Ok layouts
              /\ r = Ok (SuccessResponse d)
              /\ same_org d = true
              /\ files w'
                 = (files w
                    ++ [(csv_file d,
                         map (fun n => (compare_one layouts layouts n).1) names)])%list
              /\ forall name xml model,
                  layouts !! name = Some xml ->
                  _parse_layout xml = inr model ->
                  zero_diff_row name (compare_one layouts layouts name).1)).
Proof.
  intros Hnames Hsrc Htgt Hrun names.
  apply tool_run in Hrun
    as [(Hnil & _)|[(_ & e & He & _)|[(_ & src & e & _ & He & _)|Hrun]]];
    [done|congruence..|].
  destruct Hrun as (_ & su & sk & ver & tu & tk & tv & r1 & w1 & Hs & Ht & Hf1 & Hrest).
  rewrite Hsrc in Hs. rewrite Htgt in Ht.
  injection Hs as <- <- <-. injection Ht as <- <- <-.
  rewrite !String.eqb_refl in Hrest. cbn [andb] in Hrest.
  exists r1, w1. split; [exact Hf1|].
  apply fetch_all_layouts_run in Hf1 as [_ (calls & Hafter & Hcalls)].
  pose proof (fun H => retrieve_count_after_fetch _ _ _ _ H Hafter Hcalls) as Hcount.
  specialize (Hcount eq_refl).
  destruct Hafter as (_ & _ & Hfiles1).
  destruct Hrest as [(e & _ & -> & ->)|(sl & r2 & w2 & -> & Hf2 & Hrest)].
  { split; [done|]. split; [done|]. left. by eexists _, _. }
  apply fetch_target_run in Hf2 as [_ Hsame].
  destruct (Hsame eq_refl) as [-> ->].
  destruct Hrest as [(e & [=] & _)|(tl & [= <-] & Hrest)].
  destruct Hrest as [(e & -> & ->)|(d & -> & _ & Hposts & Hfiles & _ & _ & Hsameorg)].
  { split; [done|]. split; [done|]. left. by eexists _, _. }
  split; [done|]. split; [by rewrite Hposts|].
  right. exists d, sl. split; [done|]. split; [done|]. split; [done|].
  split; [by rewrite Hfiles, Hfiles1|].
  intros name xml model Hlook Hparse.
  rewrite (compare_one_present sl sl name xml xml model model) by done.
  apply compared_row_self.
Qed.

(** C5, as amended. When the service accepts the retrieve of an org and
    answers every poll that is started before the 120 s deadline with a
    completion flag that is not [true], the run ends at or after the
    deadline with the error response of a [TimeoutError] (a class of its
    own, not the [RuntimeError] of a server-reported failure) and no report
    is written; this holds for the source org, and for the target org once
    the source org has been retrieved.  The deadline is tested only before
    a poll is started: a poll started before the deadline whose answer
    carries the flag [true] ends the loop with the outcome of that answer,
    whenever the answer arrives, be it after the deadline. *)
Theorem stalled_retrieve_times_out_and_writes_nothing (layout_names : string)
    (source_org_user_id target_org_user_id output_filename : option string)
    (src_url src_token api_ver tgt_url tgt_token tgt_ver : string)
    (w : World) :
  requested_names layout_names <> [] ->
  _get_org_credentials source_org_user_id = inr (src_url, src_token, api_ver) ->
  _get_org_credentials target_org_user_id = inr (tgt_url, tgt_token, tgt_ver) ->
  let names := requested_names layout_names in
  let run :=
    compare_page_layouts layout_names source_org_user_id target_org_user_id
      output_filename w in
  let meta_url (instance_url : string) :=
    instance_url ++ "/services/Soap/m/" ++ api_ver in
  (forall retrieve_id started,
     job_started (meta_url src_url) src_token api_ver names w retrieve_id started ->
     never_done_before (meta_url src_url) src_token api_ver retrieve_id
       (started + 120000) ->
     run.1 = Ok (ErrorResponse (TimeoutError (timeout_message src_url))
                   "compare_page_layouts (fetch source layouts)")
     /\ files run.2 = files w
     /\ started + 120000 <= now run.2)
  /\ (forall src_layouts w1 retrieve_id started,
        String.eqb src_url tgt_url && String.eqb src_token tgt_token = false ->
        _fetch_all_layouts src_url src_token api_ver names w = (Ok src_layouts, w1) ->
        job_started (meta_url tgt_url) tgt_token api_ver names w1 retrieve_id started ->
        never_done_before (meta_url tgt_url) tgt_token api_ver retrieve_id
          (started + 120000) ->
        run.1 = Ok (ErrorResponse (TimeoutError (timeout_message tgt_url))
                      "compare_page_layouts (fetch target layouts)")
        /\ files run.2 = files w
        /\ started + 120000 <= now run.2)
  /\ (forall instance_url token retrieve_id deadline fuel w1 resp elapsed root,
        now w1 < deadline ->
        requests_post w1
          (status_call (meta_url instance_url) token api_ver retrieve_id)
          = (inr resp, elapsed) ->
        status_code resp = 200 ->
        etree_fromstring (resp_content resp) = inr root ->
        text_is (_find_el root "done") "true" = true ->
        exists w2,
          poll_until_done (S fuel) instance_url (meta_url instance_url) token
            api_ver retrieve_id deadline w1
          = (completed_outcome instance_url root, w2)
          /\ now w2 = now w1 + Z.of_N elapsed
          /\ files w2 = files w1).
Proof.
  intros Hnames Hsrc Htgt names run meta_url.
  assert (forall m : M (gmap string string),
            m = _fetch_all_layouts src_url src_token api_ver names ->
            run = try_except
                    (try_or_return m "compare_page_layouts (fetch source layouts)"
                       (fun src_layouts =>
                          try_or_return
                            (fetch_target
                               (String.eqb src_url tgt_url && String.eqb src_token tgt_token)
                               src_layouts tgt_url tgt_token api_ver names)
                            "compare_page_layouts (fetch target layouts)"
                            (fun tgt_layouts =>
                               let '(csv_rows, summary) :=
                                 compare_all src_layouts tgt_layouts names in
                               write_report names
                                 (String.eqb src_url tgt_url && String.eqb src_token tgt_token)
                                 src_url tgt_url api_ver output_filename csv_rows summary)))
                    (fun e => mret (ErrorResponse e "compare_page_layouts")) w)
    as Hshape.
  { intros m ->. unfold run, compare_page_layouts. fold names.
    rewrite bool_decide_eq_false_2 by done.
    unfold try_except, try_or_return at 1 2, lift. rewrite Hsrc, Htgt. done. }
  specialize (Hshape _ eq_refl). split; [|split].
  - intros retrieve_id started Hacc Hnever.
    destruct (fetch_all_layouts_times_out src_url src_token api_ver names w
                retrieve_id started Hacc Hnever)
      as (w' & Hfetch & Hfiles & Hnow).
    assert (run = (Ok (ErrorResponse (TimeoutError (timeout_message src_url))
                         "compare_page_layouts (fetch source layouts)"), w'))
      as Hrun.
    { rewrite Hshape. unfold try_except, try_or_return at 1. by rewrite Hfetch. }
    rewrite Hrun. simpl. by repeat split.
  - intros sl w1 retrieve_id started Hdiff Hfetch1 Hacc Hnever.
    destruct (fetch_all_layouts_times_out tgt_url tgt_token api_ver names w1
                retrieve_id started Hacc Hnever)
      as (w' & Hfetch & Hfiles & Hnow).
    apply fetch_all_layouts_run in Hfetch1 as Hrun1.
    destruct Hrun1 as [_ (calls & (_ & _ & Hfiles1) & _)].
    assert (run = (Ok (ErrorResponse (TimeoutError (timeout_message tgt_url))
                         "compare_page_layouts (fetch target layouts)"), w'))
      as Hrun.
    { rewrite Hshape. unfold try_except, try_or_return at 1. rewrite Hfetch1.
      unfold try_or_return at 1, fetch_target. by rewrite Hdiff, Hfetch. }
    rewrite Hrun. simpl.
    split; [done|]. split; [by rewrite Hfiles|done].
  - intros instance_url token retrieve_id deadline fuel w1 resp elapsed root
      Hnow Hpost Hcode Hroot Hdone.
    eexists. split; [by apply (poll_completed _ _ _ _ _ _ _ _ resp elapsed root)|].
    by split.
Qed.


End ToolClaims.

(* ===================================================================== *)
(** ** More on the diff engine *)
(* ===================================================================== *)

Lemma sorted_length (s : gset string) : List.length (sorted s) = size s.
Proof.
  unfold sorted. rewrite merge_sort_Permutation. reflexivity.
Qed.

Lemma sorted_nil_iff (s : gset string) : sorted s = [] <-> s = ∅.
Proof.
  split.
  - intros Hnil. apply leibniz_equiv, size_empty_inv.
    by rewrite <- sorted_length, Hnil.
  - intros ->. apply sorted_empty.
Qed.

Lemma size_balance (a b : gset string) :
  (size a + size (b ∖ a) = size b + size (a ∖ b))%nat.
Proof.
  rewrite <- !size_union_alt. f_equal. apply leibniz_equiv. set_solver.
Qed.

Lemma differences_empty_iff (a b : gset string) :
  a ∖ b = ∅ /\ b ∖ a = ∅ <-> a = b.
Proof.
  split.
  - intros [Hab Hba]. apply set_eq. intros x.
    destruct (decide (x ∈ a)), (decide (x ∈ b)); set_solver.
  - intros ->. split; apply difference_diag_L.
Qed.

(** X1. The counts and the difference lists of [_compare] balance: on
    each axis (fields, section labels, related lists) the source count
    plus the number of entries extra in the target equals the target count
    plus the number of entries missing in the target. *)
Theorem compare_counts_balance (source target : LayoutModel) :
  let d := _compare source target in
  (source_field_count d + List.length (fields_extra_in_target d)
   = target_field_count d + List.length (fields_missing_in_target d)
   /\ source_section_count d + List.length (sections_extra_in_target d)
      = target_section_count d + List.length (sections_missing_in_target d)
   /\ source_related_list_count d
      + List.length (related_lists_extra_in_target d)
      = target_related_list_count d
        + List.length (related_lists_missing_in_target d))%nat.
Proof.
  simpl. rewrite !sorted_length. repeat split; apply size_balance.
Qed.

(** X2. [_compare] reports no difference on an axis exactly when the two
    models hold the same set on it: both field lists are empty iff the
    field sets are equal, and likewise for the section labels and for the
    related lists. *)
Theorem compare_reports_nothing_iff_same_sets (source target : LayoutModel) :
  let d := _compare source target in
  (fields_missing_in_target d = [] /\ fields_extra_in_target d = []
   <-> all_fields source = all_fields target)
  /\ (sections_missing_in_target d = [] /\ sections_extra_in_target d = []
      <-> section_labels source = section_labels target)
  /\ (related_lists_missing_in_target d = []
      /\ related_lists_extra_in_target d = []
      <-> related_lists source = related_lists target).
Proof.
  simpl. rewrite !sorted_nil_iff.
  split; [|split]; apply differences_empty_iff.
Qed.

(* ===================================================================== *)
(** ** More on the parser *)
(* ===================================================================== *)

Lemma bound_name_iff (child : string) (el : Element) (name : string) :
  bound_name child el = Some name
  <-> exists f_el t,
        find child el = Some f_el /\ text f_el = Some t
        /\ name = strip t /\ name <> "".
Proof.
  split; [apply bound_name_Some|].
  intros (f_el & t & Hf & Ht & -> & Hne). unfold bound_name.
  rewrite Hf, Ht.
  destruct (nonempty t) eqn:Hnt.
  - destruct (nonempty (strip t)) eqn:Hns; [done|].
    by apply nonempty_false in Hns.
  - apply nonempty_false in Hnt as ->. done.
Qed.

Lemma scan_related_lists_spec (rls : list Element) (acc : gset string) :
  fold_left scan_related_list rls acc
  = acc ∪ list_to_set (omap (bound_name "relatedList") rls).
Proof.
  revert acc. induction rls as [|rl rls IH]; intros acc; simpl.
  - set_solver.
  - rewrite IH. unfold scan_related_list.
    destruct (bound_name "relatedList" rl) as [name|]; simpl; set_solver.
Qed.

Lemma related_lists_of_root (root : Element) :
  related_lists (layout_of_root root)
  = list_to_set (omap (bound_name "relatedList") (findall "relatedLists" root)).
Proof.
  unfold layout_of_root.
  destruct (fold_left scan_section _ _) as [secs fields]. simpl.
  rewrite scan_related_lists_spec. set_solver.
Qed.

Lemma omap_length_le {A B} (f : A -> option B) (l : list A) :
  (List.length (omap f l) <= List.length l)%nat.
Proof.
  induction l as [|x l IH]; [done|].
  change (omap f (x :: l)) with (match f x with
                                 | Some y => y :: omap f l
                                 | None => omap f l
                                 end).
  destruct (f x); simpl; lia.
Qed.

Lemma size_list_to_set_le (l : list string) :
  (size (list_to_set l : gset string) <= List.length l)%nat.
Proof.
  induction l as [|x l IH]; simpl.
  - done.
  - rewrite size_union_alt, size_singleton.
    pose proof (subseteq_size (list_to_set l ∖ {[x]}) (list_to_set l : gset string)) as Hle.
    specialize (Hle ltac:(set_solver)). lia.
Qed.

Lemma elem_of_omap_bound (child : string) (els : list Element) (name : string) :
  name ∈ omap (bound_name child) els
  <-> exists el, el ∈ els /\ bound_name child el = Some name.
Proof. apply list_elem_of_omap. Qed.

Section MoreParserFacts.
Context `{Ext : Externals}.

(** X3. The related lists of a parsed layout are exactly the stripped,
    non-blank texts of the first [relatedList] child of the [relatedLists]
    elements of the root; there are at most as many as such elements. *)
Theorem related_lists_are_first_bound_names (xml : string) (root : Element) :
  etree_fromstring (list_byte_of_string xml) = inr root ->
  exists model,
    _parse_layout xml = inr model
    /\ (forall name,
          name ∈ related_lists model
          <-> exists rl rl_el t,
                rl ∈ findall "relatedLists" root
                /\ find "relatedList" rl = Some rl_el
                /\ text rl_el = Some t
                /\ name = strip t
                /\ name <> "")
    /\ (size (related_lists model)
        <= List.length (findall "relatedLists" root))%nat.
Proof.
  intros Hroot. exists (layout_of_root root).
  split; [by apply parse_layout_ok|].
  rewrite related_lists_of_root. split.
  - intros name. rewrite elem_of_list_to_set, elem_of_omap_bound.
    split.
    + intros (rl & Hrl & Hb). apply bound_name_iff in Hb as (f & t & ?).
      by exists rl, f, t.
    + intros (rl & f & t & Hrl & Hb). exists rl. split; [done|].
      apply bound_name_iff. by exists f, t.
  - etrans; [apply size_list_to_set_le|apply omap_length_le].
Qed.

End MoreParserFacts.

Lemma filter_length_le {A} (p : A -> bool) (l : list A) :
  (List.length (List.filter p l) <= List.length l)%nat.
Proof.
  induction l as [|x l IH]; simpl; [lia|]. destruct (p x); simpl; lia.
Qed.

Lemma filter_length_all {A} (p : A -> bool) (l : list A) :
  List.length (List.filter p l) = List.length l ->
  forall x, x ∈ l -> p x = true.
Proof.
  induction l as [|y l IH]; simpl; intros Hlen x Hx.
  { by apply elem_of_nil in Hx. }
  pose proof (filter_length_le p l).
  destruct (p y) eqn:Hy; simpl in Hlen; [|lia].
  apply elem_of_cons in Hx as [->|Hx]; [done|]. apply IH; [lia|done].
Qed.

Lemma first_occurrences_length (l : list string) :
  (List.length (first_occurrences l) <= List.length l)%nat
  /\ (List.length (first_occurrences l) = List.length l <-> NoDup l).
Proof.
  induction l as [|x l [IHle IHiff]]; simpl.
  { split; [lia|]. split; [constructor|done]. }
  pose proof (filter_length_le (fun y => negb (String.eqb y x))
                (first_occurrences l)) as Hf.
  split; [lia|]. split.
  - intros Hlen. constructor.
    + intros Hx. apply first_occurrences_elem in Hx.
      pose proof (filter_length_all (fun y => negb (String.eqb y x))
                    (first_occurrences l) ltac:(lia) x Hx) as Hneq.
      simpl in Hneq. by rewrite String.eqb_refl in Hneq.
    + apply IHiff. lia.
  - intros Hnd. pose proof (first_occurrences_NoDup (x :: l) Hnd) as Heq.
    apply (f_equal (@List.length string)) in Heq. exact Heq.
Qed.

Lemma size_of_keys (l : list string) :
  size (list_to_set l : gset string) = List.length (first_occurrences l).
Proof.
  rewrite <- (size_list_to_set (C:=gset string) (first_occurrences l))
    by apply first_occurrences_is_NoDup.
  f_equal. apply set_eq. intros x.
  by rewrite !elem_of_list_to_set, first_occurrences_elem.
Qed.

Section SectionCount.
Context `{Ext : Externals}.

(** X4. The section count that [_compare] reports for a parsed layout,
    on whichever side the layout stands, is the number of distinct section
    labels of the document: at most the number of its section elements,
    and equal to it exactly when no two sections share a label. *)
Theorem section_count_is_number_of_distinct_labels (xml : string)
    (root : Element) (other : LayoutModel) :
  etree_fromstring (list_byte_of_string xml) = inr root ->
  exists model,
    _parse_layout xml = inr model
    /\ let labels := map section_label (findall "layoutSections" root) in
       let count := source_section_count (_compare model other) in
       target_section_count (_compare other model) = count
       /\ count = List.length (first_occurrences labels)
       /\ (count <= List.length (findall "layoutSections" root))%nat
       /\ (count = List.length (findall "layoutSections" root) <-> NoDup labels).
Proof.
  intros Hroot. exists (layout_of_root root).
  split; [by apply parse_layout_ok|].
  destruct (layout_of_root_spec root) as [Hsec _].
  simpl. rewrite Hsec, dict_fold_keys, size_of_keys.
  set (labels := map section_label (findall "layoutSections" root)).
  assert (first_occurrences (first_occurrences labels) = first_occurrences labels)
    as ->.
  { apply first_occurrences_NoDup, first_occurrences_is_NoDup. }
  destruct (first_occurrences_length labels) as [Hle Hiff].
  unfold labels in *. rewrite length_map in *. by repeat split; try apply Hiff.
Qed.

End SectionCount.

(* ===================================================================== *)
(** ** More on the requested names *)
(* ===================================================================== *)

Lemma lstrip_starts_clean (s : string) : starts_clean (lstrip s) = true.
Proof.
  remember (String.length s) as n eqn:Hn.
  revert s Hn. induction n as [n IH] using lt_wf_ind. intros s ->.
  assert (forall r, (String.length r < String.length s)%nat ->
                    starts_clean (lstrip r) = true) as IH'.
  { intros r Hr. by apply (IH _ Hr). }
  clear IH.
  destruct s as [|a r]; [done|].
  cbn [lstrip]. destruct (ws1 (code a)) eqn:H1; [apply IH'; simpl; lia|].
  destruct r as [|b r2]; [by simpl; rewrite H1|].
  destruct (ws2 (code a) (code b)) eqn:H2; [apply IH'; simpl; lia|].
  destruct r2 as [|c r3]; [by simpl; rewrite H1, H2|].
  destruct (ws3 (code a) (code b) (code c)) eqn:H3; [apply IH'; simpl; lia|].
  by simpl; rewrite H1, H2, H3.
Qed.

Lemma starts_clean_lstrip (s : string) : starts_clean s = true -> lstrip s = s.
Proof.
  destruct s as [|a [|b [|c r]]]; simpl; [done|..].
  - by destruct (ws1 (code a)).
  - destruct (ws1 (code a)); [done|]. by destruct (ws2 (code a) (code b)).
  - destruct (ws1 (code a)); [done|].
    destruct (ws2 (code a) (code b)); [done|].
    by destruct (ws3 (code a) (code b) (code c)).
Qed.

Lemma starts_clean_prefix (p t : string) :
  starts_clean (p ++ t) = true -> starts_clean p = true.
Proof.
  destruct p as [|a [|b [|c r]]]; rewrite ?str_app_cons; simpl; [done|..].
  - by destruct (ws1 (code a)).
  - destruct (ws1 (code a)); [done|]. by destruct (ws2 (code a) (code b)).
  - done.
Qed.

Lemma lstrip_rev_ends_clean (s : string) : ends_clean_rev (lstrip_rev s) = true.
Proof.
  remember (String.length s) as n eqn:Hn.
  revert s Hn. induction n as [n IH] using lt_wf_ind. intros s ->.
  assert (forall r, (String.length r < String.length s)%nat ->
                    ends_clean_rev (lstrip_rev r) = true) as IH'.
  { intros r Hr. by apply (IH _ Hr). }
  clear IH.
  destruct s as [|a r]; [done|].
  cbn [lstrip_rev]. destruct (ws1 (code a)) eqn:H1; [apply IH'; simpl; lia|].
  destruct r as [|b r2]; [by simpl; rewrite H1|].
  destruct (ws2 (code b) (code a)) eqn:H2; [apply IH'; simpl; lia|].
  destruct r2 as [|c r3]; [by simpl; rewrite H1, H2|].
  destruct (ws3 (code c) (code b) (code a)) eqn:H3; [apply IH'; simpl; lia|].
  by simpl; rewrite H1, H2, H3.
Qed.

Lemma ends_clean_lstrip_rev (s : string) :
  ends_clean_rev s = true -> lstrip_rev s = s.
Proof.
  destruct s as [|a [|b [|c r]]]; simpl; [done|..].
  - by destruct (ws1 (code a)).
  - destruct (ws1 (code a)); [done|]. by destruct (ws2 (code b) (code a)).
  - destruct (ws1 (code a)); [done|].
    destruct (ws2 (code b) (code a)); [done|].
    by destruct (ws3 (code c) (code b) (code a)).
Qed.

(** [rstrip] keeps a prefix and drops trailing whitespace only. *)
Lemma rstrip_split (s : string) :
  exists q, whitespace_only q /\ s = rstrip s ++ q.
Proof.
  unfold rstrip.
  destruct (lstrip_rev_split (reverse s)) as (p & Hp & Hs).
  exists (reverse p). split; [done|].
  rewrite <- (reverse_involutive s) at 1. rewrite Hs at 1.
  by rewrite reverse_app.
Qed.

Lemma rstrip_idempotent (s : string) : rstrip (rstrip s) = rstrip s.
Proof.
  unfold rstrip. rewrite reverse_involutive.
  by rewrite (ends_clean_lstrip_rev _ (lstrip_rev_ends_clean _)).
Qed.

Lemma strip_idempotent (s : string) : strip (strip s) = strip s.
Proof.
  unfold strip.
  assert (lstrip (rstrip (lstrip s)) = rstrip (lstrip s)) as ->.
  { apply starts_clean_lstrip.
    destruct (rstrip_split (lstrip s)) as (q & _ & Hq).
    apply (starts_clean_prefix _ q). rewrite <- Hq.
    apply lstrip_starts_clean. }
  apply rstrip_idempotent.
Qed.

Lemma strip_split (s : string) :
  exists p q, whitespace_only p /\ whitespace_only q /\ s = p ++ strip s ++ q.
Proof.
  destruct (lstrip_split s) as (p & Hp & Hs).
  destruct (rstrip_split (lstrip s)) as (q & Hq & Hl).
  exists p, q. split; [done|]. split; [done|].
  unfold strip. by rewrite <- Hl.
Qed.

Lemma strip_without_char (c : ascii) (s : string) :
  contains (String c "") s = false -> contains (String c "") (strip s) = false.
Proof.
  destruct (strip_split s) as (p & q & _ & _ & Hs).
  rewrite Hs at 1. rewrite !contains_char_app.
  intros [_ [H _]%orb_false_iff]%orb_false_iff. done.
Qed.

Lemma nonempty_true (s : string) : nonempty s = true <-> s <> "".
Proof. destruct s; simpl; split; congruence. Qed.

Lemma requested_names_elem (layout_names n : string) :
  n ∈ requested_names layout_names
  <-> exists piece,
        piece ∈ split "," layout_names /\ n = strip piece /\ n <> "".
Proof.
  unfold requested_names.
  rewrite list_elem_of_In, in_map_iff. split.
  - intros (piece & <- & [Hin Hne]%filter_In).
    exists piece. rewrite list_elem_of_In. by rewrite <- nonempty_true.
  - intros (piece & Hin & -> & Hne). exists piece. split; [done|].
    apply filter_In. rewrite <- list_elem_of_In. by rewrite nonempty_true.
Qed.

Lemma requested_names_nil_iff (layout_names : string) :
  requested_names layout_names = []
  <-> Forall whitespace_only (split "," layout_names).
Proof.
  unfold requested_names. induction (split "," layout_names) as [|p ps IH].
  - split; [constructor|done].
  - simpl. destruct (nonempty (strip p)) eqn:Hp.
    + split; [done|]. intros H. inversion H as [|? ? Hw _]; subst.
      apply strip_blank_iff in Hw. rewrite Hw in Hp. done.
    + apply nonempty_false, strip_blank_iff in Hp.
      rewrite IH. split; [by constructor|by inversion 1].
Qed.

(** X8. Every name the tool works with is non-empty, has no whitespace
    around it and holds no comma; there is no name at all exactly when
    every comma-separated piece of the argument is blank. *)
Theorem requested_names_are_clean (layout_names : string) :
  Forall clean_name (requested_names layout_names)
  /\ (requested_names layout_names = []
      <-> Forall whitespace_only (split "," layout_names)).
Proof.
  split; [|apply requested_names_nil_iff].
  apply Forall_forall. intros n (piece & Hin & -> & Hne)%requested_names_elem.
  split; [done|]. split; [apply strip_idempotent|].
  apply strip_without_char.
  pose proof (split_pieces_without_sep "," layout_names) as Hall.
  rewrite Forall_forall in Hall. by apply Hall.
Qed.

(** X9. Round trip: the names of a non-empty list, each non-empty,
    without whitespace around it and without comma, joined with commas,
    are parsed back into the same list. *)
Theorem requested_names_round_trip (names : list string) :
  names <> [] -> Forall clean_name names ->
  requested_names (join "," names) = names.
Proof.
  intros Hne Hall. unfold requested_names.
  rewrite split_join; [|done|].
  2:{ eapply Forall_impl; [exact Hall|]. by intros n (_ & _ & Hn). }
  clear Hne. induction Hall as [|n names (Hn & Hs & _) _ IH]; [done|].
  simpl. rewrite Hs. apply nonempty_true in Hn. rewrite Hn. simpl.
  by rewrite Hs, IH.
Qed.

Section Validation.
Context `{Ext : Externals}.

(** X10. An argument whose comma-separated pieces are all blank is
    refused with the [ValueError] of empty names before anything else
    happens: no credential is looked up, no call is posted, no file is
    written and the clock has not moved. *)
Theorem blank_names_are_rejected_without_effects (layout_names : string)
    (source_org_user_id target_org_user_id output_filename : option string)
    (w : World) :
  Forall whitespace_only (split "," layout_names) ->
  compare_page_layouts layout_names source_org_user_id target_org_user_id
    output_filename w
  = (Ok (ErrorResponse (ValueError "layout_names must not be empty.")
           "compare_page_layouts"), w).
Proof.
  intros Hblank%requested_names_nil_iff.
  unfold compare_page_layouts, try_except. rewrite Hblank.
  by rewrite bool_decide_eq_true_2.
Qed.

End Validation.

(* ===================================================================== *)
(** ** More on the report *)
(* ===================================================================== *)

Section RowFacts.
Context `{Ext : Externals}.

Lemma compare_one_keys (sl tl : gmap string string) (name : string) :
  dict_keys (compare_one sl tl name).1 = CSV_COLUMNS.
Proof.
  unfold compare_one.
  destruct (sl !! name) as [sx|], (tl !! name) as [tx|]; try reflexivity.
  destruct (parse_both sx tx) as [e|[sd td]]; reflexivity.
Qed.

Lemma fetch_target_files (same : bool) (sl : gmap string string)
    (tgt_url tgt_token api_ver : string) (names : list string)
    (w : World) (r : Result (gmap string string)) (w' : World) :
  fetch_target same sl tgt_url tgt_token api_ver names w = (r, w') ->
  files w' = files w.
Proof. intros Hf. by apply fetch_target_run in Hf as [? _]. Qed.

(** What a run leaves in the file system: nothing new, or one new report
    holding the rows of the requested names. *)
Lemma tool_files (layout_names : string)
    (source_org_user_id target_org_user_id output_filename : option string)
    (w : World) (r : Result Response) (w' : World) :
  compare_page_layouts layout_names source_org_user_id target_org_user_id
    output_filename w = (r, w') ->
  files w' = files w
  \/ exists d sl tl,
      r = Ok (SuccessResponse d)
      /\ files w'
         = (files w
            ++ [(csv_file d,
                 map (fun n => (compare_one sl tl n).1)
                   (requested_names layout_names))])%list.
Proof.
  intros Hrun.
  apply tool_run in Hrun
    as [(_ & _ & ->)|[(_ & e & _ & _ & ->)|[(_ & src & e & _ & _ & _ & ->)|Hrun]]];
    [by left..|].
  destruct Hrun as (_ & su & sk & ver & tu & tk & tv & r1 & w1 & _ & _ & Hf1 & Hrest).
  apply fetch_all_layouts_run in Hf1 as [_ (calls & (_ & _ & Hfiles1) & _)].
  destruct Hrest as [(e & _ & _ & ->)|(sl & r2 & w2 & _ & Hf2 & Hrest)];
    [by left|].
  apply fetch_target_files in Hf2.
  destruct Hrest as [(e & _ & _ & ->)|(tl & _ & Hrest)].
  { left. by rewrite Hf2. }
  destruct Hrest as [(e & _ & ->)|(d & -> & _ & _ & Hfiles & _)].
  { left. by rewrite Hf2. }
  right. exists d, sl, tl. split; [done|]. by rewrite Hfiles, Hf2, Hfiles1.
Qed.

(** X5. A run adds at most one report to the files and changes no other
    file, and every row of the report has exactly the keys [CSV_COLUMNS],
    in that order: no row handed to the CSV writer carries a column that
    the header lacks, or lacks one that the header has. *)
Theorem report_rows_have_the_csv_columns (layout_names : string)
    (source_org_user_id target_org_user_id output_filename : option string)
    (w : World) (r : Result Response) (w' : World) :
  compare_page_layouts layout_names source_org_user_id target_org_user_id
    output_filename w = (r, w') ->
  exists reports,
    files w' = (files w ++ reports)%list
    /\ (List.length reports <= 1)%nat
    /\ Forall (fun report =>
                 Forall (fun row => dict_keys row = CSV_COLUMNS) report.2)
         reports.
Proof.
  intros Hrun.
  apply tool_files in Hrun as [Hsame|(d & sl & tl & _ & Hfiles)].
  - exists []. rewrite app_nil_r. split; [done|]. split; [simpl; lia|constructor].
  - eexists. split; [exact Hfiles|]. split; [simpl; lia|].
    repeat constructor. simpl. apply Forall_forall. intros row Hrow.
    apply list_elem_of_In, in_map_iff in Hrow as (n & <- & _).
    apply compare_one_keys.
Qed.

End RowFacts.

Section StatusFacts.
Context `{Ext : Externals}.

Lemma parse_both_inr (sx tx : string) (sd td : LayoutModel) :
  parse_both sx tx = inr (sd, td)
  <-> _parse_layout sx = inr sd /\ _parse_layout tx = inr td.
Proof.
  unfold parse_both, mbind, raising_bind, mret, raising_ret.
  destruct (_parse_layout sx) as [e|sd'].
  { split; [intros [=] | intros [[=] _]]. }
  destruct (_parse_layout tx) as [e|td'].
  { split; [intros [=] | intros [_ [=]]]. }
  split; [intros [= -> ->]; done | intros [[= ->] [= ->]]; done].
Qed.

Lemma parse_both_inl (sx tx : string) (e : Exn) :
  parse_both sx tx = inl e
  <-> _parse_layout sx = inl e
      \/ exists sd, _parse_layout sx = inr sd /\ _parse_layout tx = inl e.
Proof.
  unfold parse_both, mbind, raising_bind, mret, raising_ret.
  destruct (_parse_layout sx) as [e'|sd'].
  { split; [intros [= ->]; by left | intros [[= ->]|(? & [=] & _)]; done]. }
  destruct (_parse_layout tx) as [e'|td'].
  { split; [intros [= ->]; right; by eexists
           | intros [[=]|(? & _ & [= ->])]; done]. }
  split; [intros [=] | intros [[=]|(? & _ & [=])]].
Qed.

Lemma compare_one_cases (sl tl : gmap string string) (name : string) :
  let row := (compare_one sl tl name).1 in
  (sl !! name = None /\ tl !! name = None
   /\ row = _blank_row name name "Not Found in Either Org")
  \/ (sl !! name = None /\ tl !! name <> None
      /\ row = _blank_row name name "Source Not Found")
  \/ (sl !! name <> None /\ tl !! name = None
      /\ row = _blank_row name name "Target Not Found")
  \/ (exists sx tx e,
        sl !! name = Some sx /\ tl !! name = Some tx
        /\ parse_both sx tx = inl e
        /\ row = _blank_row name name ("Parse Error: " ++ exn_str e))
  \/ (exists sx tx sd td,
        sl !! name = Some sx /\ tl !! name = Some tx
        /\ parse_both sx tx = inr (sd, td)
        /\ row = compared_row name (_compare sd td)).
Proof.
  unfold compare_one.
  destruct (sl !! name) as [sx|], (tl !! name) as [tx|].
  - destruct (parse_both sx tx) as [e|[sd td]] eqn:Hp.
    + right; right; right; left. by exists sx, tx, e.
    + right; right; right; right. by exists sx, tx, sd, td.
  - right; right; left. done.
  - right; left. done.
  - left. done.
Qed.

Lemma blank_row_status (a b s : string) :
  row_status (_blank_row a b s) = Some (CStr s).
Proof. reflexivity. Qed.

Lemma compared_row_status (name : string) (d : Diff) :
  row_status (compared_row name d) = Some (CStr "Compared").
Proof. reflexivity. Qed.

Lemma parse_error_status_distinct (msg : string) :
  "Parse Error: " ++ msg <> "Compared"
  /\ "Parse Error: " ++ msg <> "Not Found in Either Org"
  /\ "Parse Error: " ++ msg <> "Source Not Found"
  /\ "Parse Error: " ++ msg <> "Target Not Found".
Proof. rewrite !str_app_cons. repeat split; discriminate. Qed.

(** X6. The status of the row of a requested name tells where the layout
    was found: [Not Found in Either Org], [Source Not Found] and
    [Target Not Found] by the side it is absent from, [Compared] exactly
    when it is present on both sides and both texts parse, and
    [Parse Error: <message>] exactly when it is present on both sides and
    the source text, or else the target text, fails to parse (the message
    is that of the first failure).  Every row but a [Compared] one leaves
    all diff fields empty. *)
Theorem row_status_classifies_the_layout (src_layouts tgt_layouts : gmap string string)
    (name : string) :
  let row := (compare_one src_layouts tgt_layouts name).1 in
  (row_status row = Some (CStr "Not Found in Either Org")
   <-> src_layouts !! name = None /\ tgt_layouts !! name = None)
  /\ (row_status row = Some (CStr "Source Not Found")
      <-> src_layouts !! name = None /\ tgt_layouts !! name <> None)
  /\ (row_status row = Some (CStr "Target Not Found")
      <-> src_layouts !! name <> None /\ tgt_layouts !! name = None)
  /\ (row_status row = Some (CStr "Compared")
      <-> exists src_xml tgt_xml src_data tgt_data,
            src_layouts !! name = Some src_xml
            /\ tgt_layouts !! name = Some tgt_xml
            /\ _parse_layout src_xml = inr src_data
            /\ _parse_layout tgt_xml = inr tgt_data)
  /\ ((exists e, row_status row = Some (CStr ("Parse Error: " ++ exn_str e)))
      <-> exists src_xml tgt_xml e,
            src_layouts !! name = Some src_xml
            /\ tgt_layouts !! name = Some tgt_xml
            /\ (_parse_layout src_xml = inl e
                \/ exists src_data,
                    _parse_layout src_xml = inr src_data
                    /\ _parse_layout tgt_xml = inl e))
  /\ (row_status row <> Some (CStr "Compared") -> blank_diff_fields row).
Proof.
  intros row.
  assert (Hne : forall e s, "Parse Error: " ++ exn_str e = s ->
            s <> "Compared" /\ s <> "Not Found in Either Org"
            /\ s <> "Source Not Found" /\ s <> "Target Not Found").
  { intros e s <-. apply parse_error_status_distinct. }
  destruct (compare_one_cases src_layouts tgt_layouts name)
    as [(Hs & Ht & Hrow)|[(Hs & Ht & Hrow)|[(Hs & Ht & Hrow)
       |[(sx & tx & e & Hs & Ht & Hp & Hrow)
        |(sx & tx & sd & td & Hs & Ht & Hp & Hrow)]]]];
    fold row in Hrow; rewrite Hrow;
    rewrite ?blank_row_status, ?compared_row_status.
  - split; [done|]. split; [split; [intros [=]|intros [_ ?]; done]|].
    split; [split; [intros [=]|intros [? _]; done]|].
    split; [split; [intros [=]|intros (? & ? & ? & ? & ? & _); congruence]|].
    split; [|intros _; apply blank_row_cells].
    split; [intros (e & [= He]); symmetry in He; apply Hne in He; tauto
           |intros (? & ? & ? & ? & _); congruence].
  - split; [split; [intros [=]|intros [_ ?]; done]|].
    split; [done|].
    split; [split; [intros [=]|intros [? _]; done]|].
    split; [split; [intros [=]|intros (? & ? & ? & ? & ? & _); congruence]|].
    split; [|intros _; apply blank_row_cells].
    split; [intros (e & [= He]); symmetry in He; apply Hne in He; tauto
           |intros (? & ? & ? & ? & _); congruence].
  - split; [split; [intros [=]|intros [? _]; done]|].
    split; [split; [intros [=]|intros [? _]; done]|].
    split; [done|].
    split; [split; [intros [=]|intros (? & ? & ? & ? & _ & ? & _); congruence]|].
    split; [|intros _; apply blank_row_cells].
    split; [intros (e & [= He]); symmetry in He; apply Hne in He; tauto
           |intros (? & ? & ? & _ & ? & _); congruence].
  - apply parse_both_inl in Hp.
    split; [split; [intros [= He]; apply Hne in He; tauto
                   |intros [? _]; congruence]|].
    split; [split; [intros [= He]; apply Hne in He; tauto
                   |intros [? _]; congruence]|].
    split; [split; [intros [= He]; apply Hne in He; tauto
                   |intros [_ ?]; congruence]|].
    split; [split; [intros [= He]; apply Hne in He; tauto|]|].
    { intros (sx' & tx' & sd & td & Hs' & Ht' & Hsd & Htd).
      assert (sx' = sx) as -> by congruence.
      assert (tx' = tx) as -> by congruence.
      destruct Hp as [Hp|(? & _ & Hp)]; congruence. }
    split; [|intros _; apply blank_row_cells].
    split; [intros _; by exists sx, tx, e|intros _; by exists e].
  - apply parse_both_inr in Hp as [Hsd Htd].
    split; [split; [intros [=]|intros [? _]; congruence]|].
    split; [split; [intros [=]|intros [? _]; congruence]|].
    split; [split; [intros [=]|intros [_ ?]; congruence]|].
    split; [split; [intros _; by exists sx, tx, sd, td|done]|].
    split; [|done].
    split; [intros (e & [= He]); symmetry in He; apply Hne in He; tauto|].
    intros (sx' & tx' & e & Hs' & Ht' & He).
    assert (sx' = sx) as -> by congruence.
    assert (tx' = tx) as -> by congruence.
    destruct He as [He|(? & _ & He)]; congruence.
Qed.

End StatusFacts.

Section Counts.
Context `{Ext : Externals}.

Lemma write_report_counts (names : list string) (same : bool)
    (src_url tgt_url api_ver : string) (output_filename : option string)
    (csv_rows entries : list Row) (w : World) (d : SuccessData) (w' : World) :
  write_report names same src_url tgt_url api_ver output_filename csv_rows
    entries w = (Ok (SuccessResponse d), w') ->
  compared d
  = List.length (List.filter
      (fun s => bool_decide (dict_get "status" s = Some (CStr "compared")))
      entries)
  /\ not_found d
     = List.length (List.filter
         (fun s => contains "not_found" (summary_status s)) entries)
  /\ errors d
     = List.length (List.filter
         (fun s => bool_decide (dict_get "status" s = Some (CStr "parse_error")))
         entries)
  /\ source_org d = src_url /\ target_org d = tgt_url
  /\ api_version d = api_ver.
Proof.
  unfold write_report, resolve_csv_path, _write_csv, raise.
  unfold mbind, M_bind, mret, M_ret.
  destruct (os_makedirs _) as [e|]; [intros [=]|].
  match goal with
  | |- context [if ?b then _ else _] => destruct b
  end.
  all: match goal with
       | |- context [open_for_writing ?p] => destruct (open_for_writing p) as [e|]
       end.
  all: intros [= <- <-]; by repeat split.
Qed.

(** A successful run ends in [write_report] on the rows and the summary
    entries of the requested names. *)
Lemma tool_success (layout_names : string)
    (source_org_user_id target_org_user_id output_filename : option string)
    (w : World) (d : SuccessData) (w' : World) :
  compare_page_layouts layout_names source_org_user_id target_org_user_id
    output_filename w = (Ok (SuccessResponse d), w') ->
  let names := requested_names layout_names in
  exists same src_url tgt_url api_ver sl tl w2,
    files w2 = files w
    /\ write_report names same src_url tgt_url api_ver output_filename
         (map (fun n => (compare_one sl tl n).1) names)
         (map (fun n => (compare_one sl tl n).2) names) w2
       = (Ok (SuccessResponse d), w').
Proof.
  intros Hrun names.
  unfold compare_page_layouts, try_except in Hrun. fold names in Hrun.
  case_bool_decide as Hnames; [by injection Hrun|].
  unfold try_or_return at 1, lift at 1 in Hrun.
  destruct (_get_org_credentials source_org_user_id)
    as [e|[[src_url src_token] api_ver]] eqn:Hsrc; [by injection Hrun|].
  unfold try_or_return at 1, lift at 1 in Hrun.
  destruct (_get_org_credentials target_org_user_id)
    as [e|[[tgt_url tgt_token] tgt_ver]] eqn:Htgt; [by injection Hrun|].
  unfold try_or_return at 1 in Hrun.
  destruct (_fetch_all_layouts src_url src_token api_ver names w)
    as [r1 w1] eqn:Hfetch1.
  destruct (fetch_all_layouts_run _ _ _ _ _ _ _ Hfetch1)
    as [Hr1 (calls & (_ & _ & Hfiles1) & _)].
  destruct r1 as [src_layouts|e|]; [|by injection Hrun|done].
  unfold try_or_return at 1 in Hrun.
  destruct (fetch_target _ src_layouts tgt_url tgt_token api_ver names w1)
    as [r2 w2] eqn:Hfetch2.
  pose proof (fetch_target_files _ _ _ _ _ _ _ _ _ Hfetch2) as Hfiles2.
  destruct r2 as [tgt_layouts|e|]; [|by injection Hrun|by injection Hrun].
  rewrite compare_all_map in Hrun.
  destruct (write_report _ _ _ _ _ _ _ _ w2) as [r3 w3] eqn:Hreport.
  exists (String.eqb src_url tgt_url && String.eqb src_token tgt_token),
    src_url, tgt_url, api_ver, src_layouts, tgt_layouts, w2.
  split; [by rewrite Hfiles2, Hfiles1|].
  rewrite Hreport.
  destruct r3 as [resp|e|]; inversion Hrun; done.
Qed.

Lemma startswith_parse_error (msg : string) :
  startswith "Parse Error: " ("Parse Error: " ++ msg) = true.
Proof.
  rewrite !str_app_cons. unfold startswith. simpl.
  by destruct ("" ++ msg).
Qed.

(** Each layout falls in exactly one of the three counted classes, and the
    class is the one its report row shows. *)
Lemma compare_one_class (sl tl : gmap string string) (name : string) :
  let row := (compare_one sl tl name).1 in
  let entry := (compare_one sl tl name).2 in
  exists status,
    row_status row = Some (CStr status)
    /\ bool_decide (dict_get "status" entry = Some (CStr "compared"))
       = bool_decide (status = "Compared")
    /\ contains "not_found" (summary_status entry) = is_not_found_status status
    /\ bool_decide (dict_get "status" entry = Some (CStr "parse_error"))
       = startswith "Parse Error: " status
    /\ (Nat.b2n (bool_decide (status = "Compared"))
        + Nat.b2n (is_not_found_status status)
        + Nat.b2n (startswith "Parse Error: " status) = 1)%nat.
Proof.
  unfold compare_one.
  destruct (sl !! name) as [sx|], (tl !! name) as [tx|];
    [|eexists; repeat split; reflexivity..].
  destruct (parse_both sx tx) as [e|[sd td]];
    [|eexists; repeat split; reflexivity].
  exists ("Parse Error: " ++ exn_str e).
  split; [reflexivity|]. rewrite startswith_parse_error.
  rewrite !str_app_cons. repeat split; reflexivity.
Qed.

Lemma class_counts (sl tl : gmap string string) (names : list string) :
  let rows := map (fun n => (compare_one sl tl n).1) names in
  let entries := map (fun n => (compare_one sl tl n).2) names in
  List.length (List.filter
    (fun s => bool_decide (dict_get "status" s = Some (CStr "compared")))
    entries)
  = status_count (fun s => bool_decide (s = "Compared")) rows
  /\ List.length (List.filter
       (fun s => contains "not_found" (summary_status s)) entries)
     = status_count is_not_found_status rows
  /\ List.length (List.filter
       (fun s => bool_decide (dict_get "status" s = Some (CStr "parse_error")))
       entries)
     = status_count (startswith "Parse Error: ") rows
  /\ (status_count (fun s => bool_decide (s = "Compared")) rows
      + status_count is_not_found_status rows
      + status_count (startswith "Parse Error: ") rows
      = List.length names)%nat.
Proof.
  unfold status_count.
  induction names as [|n names (IH1 & IH2 & IH3 & IH4)]; [done|].
  destruct (compare_one_class sl tl n) as (st & Hst & H1 & H2 & H3 & Hone).
  simpl in *. rewrite Hst, H1, H2, H3.
  destruct (bool_decide (st = "Compared")), (is_not_found_status st),
    (startswith "Parse Error: " st); simpl in *; lia.
Qed.

(** X7. A success response agrees with the report it wrote: one row and
    one summary entry per requested name, [compared], [not_found] and
    [errors] count the rows whose Status is [Compared], one of the three
    not-found statuses, and a [Parse Error: ...], and the three counts add
    up to [total_layouts]. *)
Theorem summary_counts_agree_with_the_report (layout_names : string)
    (source_org_user_id target_org_user_id output_filename : option string)
    (w : World) (d : SuccessData) (w' : World) :
  compare_page_layouts layout_names source_org_user_id target_org_user_id
    output_filename w = (Ok (SuccessResponse d), w') ->
  exists rows,
    files w' = (files w ++ [(csv_file d, rows)])%list
    /\ List.length rows = total_layouts d
    /\ List.length (summary d) = total_layouts d
    /\ total_layouts d = List.length (requested_names layout_names)
    /\ compared d = status_count (fun s => bool_decide (s = "Compared")) rows
    /\ not_found d = status_count is_not_found_status rows
    /\ errors d = status_count (startswith "Parse Error: ") rows
    /\ (compared d + not_found d + errors d = total_layouts d)%nat.
Proof.
  intros Hrun.
  apply tool_success in Hrun
    as (same & su & tu & ver & sl & tl & w2 & Hfiles & Hreport).
  destruct (write_report_counts _ _ _ _ _ _ _ _ _ _ _ Hreport)
    as (Hc & Hn & He & _).
  apply write_report_run in Hreport
    as [(e & [=] & _)|(d' & [= <-] & _ & _ & Hf & Ht & _ & Hsum)].
  destruct (class_counts sl tl (requested_names layout_names))
    as (H1 & H2 & H3 & H4).
  eexists. split; [by rewrite Hf, Hfiles|].
  rewrite Hc, Hn, He, Hsum, Ht, !length_map, H1, H2, H3.
  by repeat split.
Qed.

End Counts.

(* ===================================================================== *)
(** ** More on the retrieve client *)
(* ===================================================================== *)

Section FetchCalls.
Context `{Ext : Externals}.

Lemma soap_post_posts (url : string) (body : list byte) (action : string)
    (w : World) (r : Result Element) (w' : World) :
  _soap_post url body action w = (r, w') ->
  posts w' = (posts w ++ [{| call_url := url; call_body := body;
                             call_action := action |}])%list
  /\ now w <= now w'.
Proof. intros Hpost. by apply soap_post_run in Hpost as [_ (? & ? & _)]. Qed.

Lemma poll_until_done_calls (fuel : nat)
    (instance_url meta_url token api_version : string)
    (retrieve_id : option string) (deadline : Z) (w : World)
    (r : Result (gmap string string)) (w' : World) :
  poll_until_done fuel instance_url meta_url token api_version retrieve_id
    deadline w = (r, w') ->
  exists polls,
    (polls <= fuel)%nat
    /\ posts w'
       = (posts w
          ++ repeat (status_call meta_url token api_version retrieve_id) polls)%list.
Proof.
  revert w. induction fuel as [|fuel IH]; intros w.
  - simpl. unfold mbind, M_bind, time_time.
    destruct (now w <? deadline);
      intros [= <- <-]; exists 0%nat; by rewrite app_nil_r.
  - cbn [poll_until_done]. unfold mbind at 1, M_bind at 1, time_time at 1.
    destruct (now w <? deadline).
    2:{ intros [= <- <-]. exists 0%nat. split; [lia|by rewrite app_nil_r]. }
    unfold mbind at 1, M_bind at 1.
    destruct (_soap_post _ _ _ w) as [r1 w1] eqn:Hpost.
    apply soap_post_posts in Hpost as [Hposts _].
    fold (status_call meta_url token api_version retrieve_id) in Hposts.
    assert (forall (m : M (gmap string string)),
              (forall w0, (m w0).2 = w0) ->
              m w1 = (r, w') ->
              exists polls, (polls <= S fuel)%nat
                /\ posts w'
                   = (posts w ++ repeat (status_call meta_url token api_version
                                           retrieve_id) polls)%list) as Hpure.
    { intros m Hm Heq. specialize (Hm w1). rewrite Heq in Hm. simpl in Hm.
      subst w'. exists 1%nat. split; [lia|done]. }
    destruct r1 as [status_root|e|]; [|by apply (Hpure (fun w0 => (Raise e, w0)))
                                      |by apply (Hpure (fun w0 => (OutOfFuel, w0)))].
    destruct (is_None _ || negb _).
    + unfold mbind at 1, M_bind at 1, time_sleep at 1.
      intros Hrest. apply IH in Hrest as (polls & Hle & Hrest).
      exists (S polls). split; [lia|].
      rewrite Hrest. simpl. rewrite Hposts, <- app_assoc. done.
    + destruct (negb _ && _); [by apply Hpure|].
      destruct (_find_el status_root "zipFile" ≫= text) as [zip_text|];
        [|by apply Hpure].
      destruct (negb (nonempty zip_text)); [by apply Hpure|].
      apply Hpure. intros w0. unfold mbind, M_bind, lift.
      destruct (b64decode zip_text) as [e|zip_bytes]; [done|].
      by destruct (_extract_layouts_from_zip zip_bytes).
Qed.

Lemma fetch_all_layouts_calls (instance_url token api_version : string)
    (names : list string) (w : World)
    (r : Result (gmap string string)) (w' : World) :
  _fetch_all_layouts instance_url token api_version names w = (r, w') ->
  exists retrieve_id polls,
    (polls <= max_polls)%nat
    /\ posts w'
       = (posts w
          ++ fetch_calls instance_url token api_version names retrieve_id polls)%list.
Proof.
  unfold _fetch_all_layouts, fetch_calls, metadata_url.
  unfold mbind at 1, M_bind at 1.
  destruct (_soap_post _ _ _ w) as [r1 w1] eqn:Hpost.
  apply soap_post_posts in Hpost as [Hposts _].
  destruct r1 as [root|e|];
    [|intros [= <- <-]; exists None, 0%nat; split; [lia|done]..].
  destruct (_find_el root "id") as [id_el|];
    [|intros [= <- <-]; exists None, 0%nat; split; [lia|done]].
  unfold mbind at 1, M_bind at 1, time_time at 1.
  intros Hpoll. apply poll_until_done_calls in Hpoll as (polls & Hle & Hpoll).
  exists (text id_el), polls. split; [done|].
  rewrite Hpoll, Hposts, <- app_assoc. done.
Qed.

(** X11. Whatever the service answers, one invocation of
    [_fetch_all_layouts] returns or raises after posting the retrieve
    request followed by at most 40 status requests, all of them the same
    request for the same job, to the Metadata API address of the org; it
    touches no file.  (Every unfinished poll is followed by a sleep of at
    least 3 s and the deadline is 120 s away.) *)
Theorem fetch_posts_one_retrieve_then_at_most_forty_polls
    (instance_url token api_version : string) (names : list string)
    (w : World) :
  let run := _fetch_all_layouts instance_url token api_version names w in
  run.1 <> OutOfFuel
  /\ files run.2 = files w
  /\ now w <= now run.2
  /\ exists retrieve_id polls,
       (polls <= 40)%nat
       /\ posts run.2
          = (posts w
             ++ fetch_calls instance_url token api_version names retrieve_id
                  polls)%list.
Proof.
  intros run.
  destruct (fetch_all_layouts_run instance_url token api_version names w
              run.1 run.2) as [Hfuel (calls & (Hnow & _ & Hfiles) & _)];
    [apply surjective_pairing|].
  split; [done|]. split; [done|]. split; [done|].
  apply (fetch_all_layouts_calls instance_url token api_version names w run.1).
  apply surjective_pairing.
Qed.

End FetchCalls.

Section Contacts.
Context `{Ext : Externals}.

(** X12. With both credentials resolved, the calls of a run are those of
    one fetch from the source org, followed by nothing or by those of one
    fetch from the target org, which uses the API version resolved for the
    source org.  The target org is not contacted when both sides are one
    org nor when the source fetch failed, and it is contacted in every
    successful run on two orgs. *)
Theorem run_contacts_source_then_target (layout_names : string)
    (source_org_user_id target_org_user_id output_filename : option string)
    (src_url src_token api_ver tgt_url tgt_token tgt_ver : string)
    (w : World) (r : Result Response) (w' : World) :
  requested_names layout_names <> [] ->
  _get_org_credentials source_org_user_id = inr (src_url, src_token, api_ver) ->
  _get_org_credentials target_org_user_id = inr (tgt_url, tgt_token, tgt_ver) ->
  compare_page_layouts layout_names source_org_user_id target_org_user_id
    output_filename w = (r, w') ->
  let names := requested_names layout_names in
  let same := String.eqb src_url tgt_url && String.eqb src_token tgt_token in
  exists src_id src_polls tgt_calls,
    posts w'
    = (posts w ++ fetch_calls src_url src_token api_ver names src_id src_polls
       ++ tgt_calls)%list
    /\ (src_polls <= 40)%nat
    /\ (tgt_calls = []
        \/ same = false
           /\ exists tgt_id tgt_polls,
                (tgt_polls <= 40)%nat
                /\ tgt_calls
                   = fetch_calls tgt_url tgt_token api_ver names tgt_id tgt_polls)
    /\ (same = true -> tgt_calls = [])
    /\ (forall e, r = Ok (ErrorResponse e
                            "compare_page_layouts (fetch source layouts)") ->
        tgt_calls = [])
    /\ (forall d, r = Ok (SuccessResponse d) -> same = false -> tgt_calls <> []).
Proof.
  intros Hnames Hsrc Htgt Hrun names same.
  apply tool_run in Hrun
    as [(Hnil & _)|[(_ & e & He & _)|[(_ & src & e & _ & He & _)|Hrun]]];
    [done|congruence..|].
  destruct Hrun as (_ & su & sk & ver & tu & tk & tv & r1 & w1 & Hs & Ht & Hf1 & Hrest).
  rewrite Hsrc in Hs. rewrite Htgt in Ht.
  injection Hs as <- <- <-. injection Ht as <- <- <-.
  fold names in Hf1, Hrest. fold same in Hrest.
  destruct (fetch_all_layouts_calls _ _ _ _ _ _ _ Hf1)
    as (src_id & src_polls & Hle1 & Hposts1).
  exists src_id, src_polls.
  destruct Hrest as [(e & -> & -> & ->)|(sl & r2 & w2 & -> & Hf2 & Hrest)].
  { exists []. rewrite app_nil_r. split; [done|]. split; [done|].
    split; [by left|]. split; [done|]. split; [done|]. intros d [=]. }
  assert (posts w' = posts w2) as Hposts'.
  { destruct Hrest as [(e & _ & _ & ->)|(tl & _ & [(e & _ & ->)|(d & _ & _ & ? & _)])];
      done. }
  assert (forall e, r <> Ok (ErrorResponse e
                               "compare_page_layouts (fetch source layouts)"))
    as Hctx.
  { intros e0.
    destruct Hrest as [(e & _ & -> & _)|(tl & _ & [(e & -> & _)|(d & -> & _)])];
      intros [=]. }
  unfold fetch_target in Hf2. destruct same eqn:Hsame.
  - injection Hf2 as _ <-. exists []. rewrite app_nil_r, Hposts'.
    split; [done|]. split; [done|]. split; [by left|]. split; [done|].
    split; [done|]. intros d _ [=].
  - destruct (fetch_all_layouts_calls _ _ _ _ _ _ _ Hf2)
      as (tgt_id & tgt_polls & Hle2 & Hposts2).
    exists (fetch_calls tgt_url tgt_token api_ver names tgt_id tgt_polls).
    split; [by rewrite Hposts', Hposts2, Hposts1, <- app_assoc|].
    split; [done|].
    split; [right; split; [done|]; by exists tgt_id, tgt_polls|].
    split; [intros [=]|].
    split; [intros e He; by destruct (Hctx e)|].
    intros d _ _. done.
Qed.

End Contacts.

Section SameOrgRows.
Context `{Ext : Externals}.

Lemma compare_one_same_map (layouts : gmap string string) (name : string) :
  let row := (compare_one layouts layouts name).1 in
  row_status row <> Some (CStr "Source Not Found")
  /\ row_status row <> Some (CStr "Target Not Found").
Proof.
  destruct (compare_one_cases layouts layouts name)
    as [(Hs & Ht & Hrow)|[(Hs & Ht & Hrow)|[(Hs & Ht & Hrow)
       |[(sx & tx & e & Hs & Ht & Hp & Hrow)
        |(sx & tx & sd & td & Hs & Ht & Hp & Hrow)]]]];
    simpl in *; [|done|done| |]; rewrite Hrow;
    rewrite ?blank_row_status, ?compared_row_status; [done| |done].
  destruct (parse_error_status_distinct (exn_str e)) as (_ & _ & H1 & H2).
  split; intros [= ?]; done.
Qed.

(** X13. When both sides are one org, no row of the report has the
    status [Source Not Found] or [Target Not Found]: a layout is found on
    both sides or on neither. *)
Theorem same_org_rows_are_never_one_sided (layout_names : string)
    (source_org_user_id target_org_user_id output_filename : option string)
    (w : World) (d : SuccessData) (w' : World) :
  compare_page_layouts layout_names source_org_user_id target_org_user_id
    output_filename w = (Ok (SuccessResponse d), w') ->
  same_org d = true ->
  exists rows,
    files w' = (files w ++ [(csv_file d, rows)])%list
    /\ Forall (fun row =>
                 row_status row <> Some (CStr "Source Not Found")
                 /\ row_status row <> Some (CStr "Target Not Found")) rows.
Proof.
  intros Hrun Hsame.
  apply tool_run in Hrun
    as [(_ & [=] & _)|[(_ & e & _ & [=] & _)|[(_ & src & e & _ & _ & [=] & _)|Hrun]]].
  destruct Hrun as (_ & su & sk & ver & tu & tk & tv & r1 & w1 & _ & _ & Hf1 & Hrest).
  apply fetch_all_layouts_run in Hf1 as [_ (calls & (_ & _ & Hfiles1) & _)].
  destruct Hrest as [(e & _ & [=] & _)|(sl & r2 & w2 & _ & Hf2 & Hrest)].
  apply fetch_target_run in Hf2 as [Hfiles2 Hshared].
  destruct Hrest as [(e & _ & [=] & _)|(tl & -> & Hrest)].
  destruct Hrest as [(e & [=] & _)|(d' & [= <-] & _ & _ & Hfiles & _ & _ & Hflag)].
  rewrite Hflag in Hsame. destruct (Hshared Hsame) as [[= ->] _].
  eexists. split; [by rewrite Hfiles, Hfiles2, Hfiles1|].
  apply Forall_forall. intros row Hrow.
  apply list_elem_of_In, in_map_iff in Hrow as (n & <- & _).
  apply compare_one_same_map.
Qed.

End SameOrgRows.

(* ===================================================================== *)
(** ** More on the archive extractor *)
(* ===================================================================== *)

Section ExtractorMap.
Context `{Ext : Externals}.

Lemma find_app {A} (p : A -> bool) (l1 l2 : list A) :
  List.find p (l1 ++ l2)
  = match List.find p l1 with
    | Some x => Some x
    | None => List.find p l2
    end.
Proof.
  induction l1 as [|x l1 IH]; [done|]. simpl. by destruct (p x).
Qed.

Lemma find_last_cons {A} (p : A -> bool) (x : A) (l : list A) :
  find_last p (x :: l)
  = match find_last p l with
    | Some y => Some y
    | None => if p x then Some x else None
    end.
Proof. unfold find_last. simpl. by rewrite find_app. Qed.

Lemma extract_entries_lookup (zf : Archive) (entries : list string)
    (result extracted : gmap string string) (key : string) :
  extract_entries zf entries result = inr extracted ->
  extracted !! key
  = match find_last (fun entry => is_layout_entry entry
                                  && String.eqb (entry_key entry) key) entries with
    | Some entry => member_text zf entry
    | None => result !! key
    end.
Proof.
  revert result. induction entries as [|e entries IH]; intros result.
  { by intros [= <-]. }
  rewrite find_last_cons. cbn [extract_entries]. unfold is_layout_entry at 2.
  destruct (contains "/layouts/" (str_lower e)); simpl.
  2:{ intros Hrest. rewrite (IH _ Hrest). by destruct (find_last _ entries). }
  destruct (endswith ".layout-meta.xml" (str_lower e)
            || endswith ".layout" (str_lower e)); simpl.
  2:{ intros Hrest. rewrite (IH _ Hrest). by destruct (find_last _ entries). }
  unfold mbind, raising_bind.
  destruct (zip_read zf e) as [err|data] eqn:Hread; [done|].
  destruct (decode_utf8 data) as [xml|] eqn:Hdec; [|done].
  intros Hrest. rewrite (IH _ Hrest).
  destruct (find_last _ entries); [done|].
  fold (entry_key e).
  destruct (String.eqb (entry_key e) key) eqn:Hkey.
  - apply String.eqb_eq in Hkey as <-. rewrite lookup_insert_eq.
    unfold member_text. by rewrite Hread.
  - apply String.eqb_neq in Hkey. by rewrite lookup_insert_ne.
Qed.

(** X14. The map of a successful extraction holds, under each key, the
    decoded text of the last archive entry that passes the layouts filter
    and has that key (the last path segment without its layout suffix): a
    later entry replaces an earlier one with the same key, and an entry
    outside the filter contributes no key. *)
Theorem extracted_map_holds_the_last_entry_of_each_key
    (zip_bytes : list byte) (zf : Archive) (extracted : gmap string string) :
  zip_open zip_bytes = inr zf ->
  _extract_layouts_from_zip zip_bytes = inr extracted ->
  forall key,
    extracted !! key
    = match find_last (fun entry => is_layout_entry entry
                                    && String.eqb (entry_key entry) key)
              (map fst zf) with
      | Some entry => member_text zf entry
      | None => None
      end.
Proof.
  intros Hopen. unfold _extract_layouts_from_zip. rewrite Hopen. simpl.
  intros Hextract key.
  rewrite (extract_entries_lookup _ _ _ _ key Hextract).
  by destruct (find_last _ _).
Qed.

End ExtractorMap.

(* ===================================================================== *)
(** ** Failures *)
(* ===================================================================== *)

Lemma take_chars_prefix (n : nat) (s : string) :
  exists rest, s = take_chars n s ++ rest.
Proof.
  revert n. induction s as [|a s IH]; intros n; [by exists ""|].
  cbn [take_chars]. destruct (is_continuation a).
  - destruct (IH n) as [rest Hrest]. exists rest.
    by rewrite str_app_cons, <- Hrest.
  - destruct n as [|n]; [by eexists|].
    destruct (IH n) as [rest Hrest]. exists rest.
    by rewrite str_app_cons, <- Hrest.
Qed.

Lemma take_chars_len (n : nat) (s : string) : (len (take_chars n s) <= n)%nat.
Proof.
  revert n. induction s as [|a s IH]; intros n; [simpl; lia|].
  cbn [take_chars]. destruct (is_continuation a) eqn:Ha.
  - cbn [len]. rewrite Ha. apply IH.
  - destruct n as [|n]; [simpl; lia|].
    cbn [len]. rewrite Ha. specialize (IH n). lia.
Qed.

Lemma take_chars_all (n : nat) (s : string) :
  (len s <= n)%nat -> take_chars n s = s.
Proof.
  revert n. induction s as [|a s IH]; intros n; [done|].
  cbn [take_chars len]. destruct (is_continuation a).
  - intros Hn. by rewrite IH.
  - destruct n as [|n]; [lia|]. intros Hn. rewrite IH; [done|lia].
Qed.

Section EdgeCases.
Context `{Ext : Externals}.

(** X15. An answer with a status other than 200 makes [_soap_post] raise
    a [RuntimeError] that names the action and the status and quotes the
    body: the whole body when it has at most 600 characters, its first 600
    characters at most otherwise.  The call is recorded, the body is not
    parsed. *)
Theorem http_error_quotes_at_most_600_characters (url : string)
    (body : list byte) (action : string) (w : World) (resp : HttpResponse)
    (elapsed : N) :
  let call := {| call_url := url; call_body := body; call_action := action |} in
  requests_post w call = (inr resp, elapsed) ->
  status_code resp <> 200 ->
  exists excerpt rest w',
    _soap_post url body action w
    = (Raise (RuntimeError
                ("Metadata API call '" ++ action ++ "' failed "
                 ++ "(HTTP " ++ pretty (status_code resp) ++ "): " ++ excerpt)),
       w')
    /\ resp_text resp = excerpt ++ rest
    /\ (len excerpt <= 600)%nat
    /\ ((len (resp_text resp) <= 600)%nat -> excerpt = resp_text resp)
    /\ posts w' = (posts w ++ [call])%list
    /\ files w' = files w.
Proof.
  intros call Hpost Hcode.
  destruct (take_chars_prefix 600 (resp_text resp)) as [rest Hrest].
  exists (take_chars 600 (resp_text resp)), rest.
  unfold _soap_post. fold call. rewrite Hpost.
  apply Z.eqb_neq in Hcode. rewrite Hcode. cbn [negb].
  eexists. split; [reflexivity|]. cbn [posts files].
  split; [done|]. split; [apply take_chars_len|].
  split; [apply take_chars_all|done].
Qed.

(** X16. A target user id without stored session ends the run with the
    [ValueError] that names the id, in the context of the target org,
    although the source credentials resolved: no call is posted, no file
    is written. *)
Theorem unknown_target_org_stops_before_any_call (layout_names : string)
    (source_org_user_id output_filename : option string) (uid : string)
    (src : string * string * string) (tokens : gmap string (string * string))
    (w : World) :
  requested_names layout_names <> [] ->
  _get_org_credentials source_org_user_id = inr src ->
  get_stored_tokens = inr tokens ->
  tokens !! uid = None ->
  compare_page_layouts layout_names source_org_user_id (Some uid)
    output_filename w
  = (Ok (ErrorResponse
           (ValueError
              ("No active session found for org user_id='" ++ uid ++ "'. "
               ++ "Run list_connected_orgs to see connected orgs, then login first."))
           "compare_page_layouts (target org)"), w).
Proof.
  intros Hnames Hsrc Htokens Huid.
  unfold compare_page_layouts, try_except.
  rewrite bool_decide_eq_false_2 by done.
  unfold try_or_return at 1, lift at 1. rewrite Hsrc.
  destruct src as [[src_url src_token] api_ver].
  unfold try_or_return at 1, lift at 1.
  unfold _get_org_credentials at 1. rewrite Htokens.
  unfold mbind, raising_bind. rewrite Huid. reflexivity.
Qed.

(** After an accepted retrieve request the function is in the poll loop,
    with the deadline 120 s after the arrival of the job id. *)
Lemma fetch_after_submission (instance_url token api_version : string)
    (names : list string) (w : World) (retrieve_id : option string)
    (started : Z) :
  let meta_url := instance_url ++ "/services/Soap/m/" ++ api_version in
  job_started meta_url token api_version names w retrieve_id started ->
  exists w1,
    now w1 = started
    /\ posts w1 = (posts w ++ [retrieve_call meta_url token api_version names])%list
    /\ files w1 = files w
    /\ _fetch_all_layouts instance_url token api_version names w
       = poll_until_done max_polls instance_url meta_url token api_version
           retrieve_id (started + 1000 * 120) w1.
Proof.
  intros meta_url
    (resp & elapsed & root & id_el & Hpost & Hcode & Hroot & Hid & -> & ->).
  unfold _fetch_all_layouts. unfold mbind at 1, M_bind at 1.
  fold meta_url. unfold retrieve_call in Hpost.
  rewrite (soap_post_answered _ _ _ _ _ _ _ Hpost Hcode Hroot), Hid.
  unfold mbind at 1, M_bind at 1, time_time at 1.
  eexists. split; [|split; [|split; [|reflexivity]]]; reflexivity.
Qed.

(** X17. When the service accepts the retrieve and answers the first
    poll with the completion flag [true], the fetch ends after these two
    calls.  A status [Failed] raises a [RuntimeError] with the message of
    the [errorMessage] element: [unknown error] when the element is
    missing, [None] when it has no text.  Otherwise a missing [zipFile]
    element, or one without text, gives the empty map. *)
Theorem completed_first_poll_decides_the_fetch
    (instance_url token api_version : string) (names : list string)
    (w : World) (retrieve_id : option string) (started : Z) (root : Element) :
  let meta_url := instance_url ++ "/services/Soap/m/" ++ api_version in
  job_started meta_url token api_version names w retrieve_id started ->
  poll_answered meta_url token api_version retrieve_id root ->
  text_is (_find_el root "done") "true" = true ->
  exists w',
    _fetch_all_layouts instance_url token api_version names w
    = (completed_outcome instance_url root, w')
    /\ posts w'
       = (posts w ++ [retrieve_call meta_url token api_version names;
                      status_call meta_url token api_version retrieve_id])%list
    /\ files w' = files w
    /\ (text_is (_find_el root "status") "Failed" = true ->
        completed_outcome instance_url root
        = Raise (RuntimeError
                   ("Retrieve failed on " ++ instance_url ++ ": "
                    ++ match _find_el root "errorMessage" with
                       | Some el => default "None" (text el)
                       | None => "unknown error"
                       end)))
    /\ (text_is (_find_el root "status") "Failed" = false ->
        (_find_el root "zipFile" ≫= text = None
         \/ _find_el root "zipFile" ≫= text = Some "") ->
        completed_outcome instance_url root = Ok ∅).
Proof.
  intros meta_url Hstart Hpoll Hdone.
  destruct (fetch_after_submission _ _ _ _ _ _ _ Hstart)
    as (w1 & Hnow & Hposts & Hfiles & Hfetch).
  fold meta_url in Hposts, Hfetch.
  destruct (Hpoll w1) as (resp & elapsed & Hpost & Hcode & Hroot).
  unfold max_polls in Hfetch.
  rewrite (poll_completed _ instance_url _ _ _ _ _ _ resp elapsed root) in Hfetch;
    [|lia|done..].
  eexists. split; [exact Hfetch|]. cbn [posts files].
  split; [by rewrite Hposts, <- app_assoc|]. split; [done|].
  unfold completed_outcome. split.
  - intros Hfailed. rewrite Hfailed.
    assert (is_None (_find_el root "status") = false) as ->.
    { by destruct (_find_el root "status"). }
    reflexivity.
  - intros Hfailed Hzip. rewrite Hfailed, andb_false_r.
    destruct Hzip as [->| ->]; reflexivity.
Qed.

(** X18. When the answer to the retrieve request holds no [id] element,
    the fetch raises the [RuntimeError] of the missing retrieve id after
    that one call: no poll is made. *)
Theorem missing_job_id_stops_after_one_call
    (instance_url token api_version : string) (names : list string)
    (w : World) (resp : HttpResponse) (elapsed : N) (root : Element) :
  let meta_url := instance_url ++ "/services/Soap/m/" ++ api_version in
  requests_post w (retrieve_call meta_url token api_version names)
    = (inr resp, elapsed) ->
  status_code resp = 200 ->
  etree_fromstring (resp_content resp) = inr root ->
  _find_el root "id" = None ->
  exists w',
    _fetch_all_layouts instance_url token api_version names w
    = (Raise (RuntimeError
                ("No retrieve ID returned from " ++ instance_url ++ ". "
                 ++ "Check org credentials and API version.")), w')
    /\ posts w'
       = (posts w ++ [retrieve_call meta_url token api_version names])%list
    /\ files w' = files w.
Proof.
  intros meta_url Hpost Hcode Hroot Hid.
  unfold _fetch_all_layouts. unfold mbind at 1, M_bind at 1.
  fold meta_url. unfold retrieve_call in Hpost.
  rewrite (soap_post_answered _ _ _ _ _ _ _ Hpost Hcode Hroot), Hid.
  eexists. split; [reflexivity|]. by split.
Qed.

Lemma write_report_needs_the_directory (names : list string) (same : bool)
    (src_url tgt_url api_ver : string) (output_filename : option string)
    (csv_rows entries : list Row) (w : World) (d : SuccessData) (w' : World) :
  write_report names same src_url tgt_url api_ver output_filename csv_rows
    entries w = (Ok (SuccessResponse d), w') ->
  os_makedirs (os_path_join os_getcwd "Documents") = None.
Proof.
  unfold write_report, resolve_csv_path, raise.
  unfold mbind at 1, M_bind at 1.
  destruct (os_makedirs _) as [e|]; [intros [=]|done].
Qed.

(** X19. When the Documents directory under the working directory cannot
    be created, no run writes a report and every run returns an error
    response, also when the caller gave an output path in another
    directory. *)
Theorem unwritable_documents_directory_leaves_no_report (layout_names : string)
    (source_org_user_id target_org_user_id output_filename : option string)
    (e : Exn) (w : World) (r : Result Response) (w' : World) :
  os_makedirs (os_path_join os_getcwd "Documents") = Some e ->
  compare_page_layouts layout_names source_org_user_id target_org_user_id
    output_filename w = (r, w') ->
  files w' = files w
  /\ exists e' context, r = Ok (ErrorResponse e' context).
Proof.
  intros Hdir Hrun.
  destruct (compare_page_layouts_returns layout_names source_org_user_id
              target_org_user_id output_filename w) as (resp & w0 & Hret).
  rewrite Hrun in Hret. injection Hret as -> <-.
  destruct resp as [e' context|d]; [|exfalso].
  - split; [|by eexists _, _].
    apply tool_files in Hrun as [?|(d & _ & _ & [=] & _)]. done.
  - apply tool_success in Hrun as (? & ? & ? & ? & ? & ? & ? & _ & Hreport).
    apply write_report_needs_the_directory in Hreport. congruence.
Qed.

End EdgeCases.

(* ===================================================================== *)
(** ** The code on the sample environment *)
(* ===================================================================== *)

(** *** Text helpers *)

Example strip_example :
  strip "  Account Name  " = "Account Name"
  /\ strip "   " = ""
  /\ strip ("Name" ++ utf8_encode_cp 160) = "Name".
Proof. by vm_compute. Qed.

Example requested_names_example :
  requested_names "Account-Account Layout, ,Case-Case Layout,"
  = ["Account-Account Layout"; "Case-Case Layout"].
Proof. by vm_compute. Qed.

Example strip_layout_suffix_example :
  @strip_layout_suffix Sample.ext "Account-Account Layout.layout-meta.xml"
  = "Account-Account Layout"
  /\ @strip_layout_suffix Sample.ext "Case-Case Layout.LAYOUT" = "Case-Case Layout".
Proof. by vm_compute. Qed.

Example decode_utf8_example :
  decode_utf8 [Byte.x4e; Byte.xc3; Byte.xa9] = Some (String "N" (utf8_encode_cp 233))
  /\ decode_utf8 [Byte.xc3] = None
  /\ decode_utf8 [Byte.xed; Byte.xa0; Byte.x80] = None.
Proof. by vm_compute. Qed.

(** *** C2 and C3: two sections with one label *)

(** C2, counterexample. The sample document with two sections labelled
    Info parses to a model whose [all_fields] contains Name while the union
    of the field lists of [sections] does not. *)
Lemma duplicate_labels_lose_fields :
  @_parse_layout Sample.ext Sample.xml_dup = inr (layout_of_root Sample.tree_dup)
  /\ sections (layout_of_root Sample.tree_dup) = [("Info", ["Phone"])]
  /\ "Name" ∈ all_fields (layout_of_root Sample.tree_dup)
  /\ ("Name" ∉ sections_union (layout_of_root Sample.tree_dup))
  /\ all_fields (layout_of_root Sample.tree_dup)
     ≠ sections_union (layout_of_root Sample.tree_dup).
Proof.
  assert ("Name" ∈ all_fields (layout_of_root Sample.tree_dup)) as Hin.
  { apply (bool_decide_eq_true_1 _). by vm_compute. }
  assert ("Name" ∉ sections_union (layout_of_root Sample.tree_dup)) as Hout.
  { apply (bool_decide_eq_true_1 _). by vm_compute. }
  split; [by vm_compute|]. split; [by vm_compute|].
  split; [done|]. split; [done|].
  intros Heq. by rewrite Heq in Hin.
Qed.

(** C2, witness. The same document satisfies the amended statement. *)
Lemma all_fields_covers_every_section_element_witness :
  @etree_fromstring Sample.ext (list_byte_of_string Sample.xml_dup)
    = inr Sample.tree_dup
  /\ exists model,
      @_parse_layout Sample.ext Sample.xml_dup = inr model
      /\ all_fields model
         = list_to_set
             (flat_map section_field_names
                (findall "layoutSections" Sample.tree_dup))
      /\ sections_union model ⊆ all_fields model.
Proof.
  split; [by vm_compute|].
  destruct (@all_fields_covers_every_section_element Sample.ext
              Sample.xml_dup Sample.tree_dup)
    as (model & Hparse & Hall & Hsub & _); [by vm_compute|].
  exists model. by repeat split.
Defined.

(** C3, counterexample. The same document has two section elements
    labelled Info, with field sequences [Name] and [Phone]; the parsed
    [sections] has the single entry Info -> [Phone]. *)
Lemma duplicate_labels_overwrite :
  @_parse_layout Sample.ext Sample.xml_dup = inr (layout_of_root Sample.tree_dup)
  /\ map (fun s => (section_label s, section_field_names s))
       (findall "layoutSections" Sample.tree_dup)
     = [("Info", ["Name"]); ("Info", ["Phone"])]
  /\ sections (layout_of_root Sample.tree_dup) = [("Info", ["Phone"])].
Proof. split; [by vm_compute|]. split; by vm_compute. Qed.

(** C3, witness. The same document satisfies the amended statement. *)
Lemma sections_keep_one_entry_per_label_witness :
  @etree_fromstring Sample.ext (list_byte_of_string Sample.xml_dup)
    = inr Sample.tree_dup
  /\ exists model,
      @_parse_layout Sample.ext Sample.xml_dup = inr model
      /\ dict_keys (sections model)
         = first_occurrences
             (map section_label (findall "layoutSections" Sample.tree_dup)).
Proof.
  split; [by vm_compute|].
  destruct (@sections_keep_one_entry_per_label Sample.ext
              Sample.xml_dup Sample.tree_dup)
    as (model & Hparse & Hkeys & _); [by vm_compute|].
  exists model. by split.
Defined.

(** *** C9 and C10: spacers and a blank label *)

(** C9, witness. The sample document with three spacers and one bound
    item. *)
Lemma spacers_never_reach_the_model_witness :
  @etree_fromstring Sample.ext (list_byte_of_string Sample.xml_spacers) = inr Sample.tree_spacers
  /\ exists model,
    @_parse_layout Sample.ext Sample.xml_spacers = inr model
    /\ (forall label fields,
          (label, fields) ∈ sections model ->
          exists section,
            section ∈ findall "layoutSections" Sample.tree_spacers
            /\ label = section_label section
            /\ skips_spacers (section_items section) fields)
    /\ (forall name,
          name ∈ all_fields model ->
          exists section fields,
            section ∈ findall "layoutSections" Sample.tree_spacers
            /\ skips_spacers (section_items section) fields
            /\ name ∈ fields)
    /\ (forall section item,
          section ∈ findall "layoutSections" Sample.tree_spacers ->
          item ∈ section_items section ->
          spacer item ->
          forall collected, scan_item collected item = collected).
Proof.
  split; [by vm_compute|].
  apply (@spacers_never_reach_the_model Sample.ext Sample.xml_spacers Sample.tree_spacers).
  by vm_compute.
Defined.

(** C10, witness. The section of that document has a label of two
    spaces. *)
Lemma blank_label_is_empty_string_witness :
  let lbl_el := Sample.el "label" (Some "  ") [] in
  let section :=
    Sample.el "layoutSections" None
      [lbl_el;
       Sample.el "layoutColumns" None
         [Sample.item "Name";
          Sample.el "layoutItems" None [Sample.el "emptySpace" (Some "true") []];
          Sample.item " ";
          Sample.el "layoutItems" None [Sample.el "field" None []]]] in
  @etree_fromstring Sample.ext (list_byte_of_string Sample.xml_spacers)
    = inr Sample.tree_spacers
  /\ section ∈ findall "layoutSections" Sample.tree_spacers
  /\ find "label" section = Some lbl_el
  /\ text lbl_el = Some "  "
  /\ whitespace_only "  "
  /\ exists model,
      @_parse_layout Sample.ext Sample.xml_spacers = inr model
      /\ section_label section = ""
      /\ "" ∈ dict_keys (sections model).
Proof.
  intros lbl_el section.
  assert (whitespace_only "  ") as Hblank.
  { apply strip_empty_whitespace_only. reflexivity. }
  assert (section ∈ findall "layoutSections" Sample.tree_spacers) as Hsec.
  { vm_compute. constructor. }
  split; [by vm_compute|]. split; [exact Hsec|].
  split; [reflexivity|]. split; [reflexivity|]. split; [exact Hblank|].
  destruct (@blank_label_is_empty_string Sample.ext Sample.xml_spacers
              Sample.tree_spacers section lbl_el)
    as (model & Hparse & Hempty & _ & Hkey & _).
  - by vm_compute.
  - exact Hsec.
  - reflexivity.
  - right. exists "  ". by split.
  - exists model. by repeat split.
Defined.

(** *** C7: an archive with an undecodable layout *)

(** C7, counterexample. The sample archive holds a layout that is not
    UTF-8 and a layout that is; the extraction raises and returns no map,
    although the second layout decodes. *)
Lemma undecodable_entry_loses_the_whole_archive :
  @zip_open Sample.ext (list_byte_of_string "BAD") = inr Sample.archive_undecodable
  /\ decode_utf8 [Byte.xff] = None
  /\ decode_utf8 (list_byte_of_string Sample.xml_info1) = Some Sample.xml_info1
  /\ @_extract_layouts_from_zip Sample.ext (list_byte_of_string "BAD")
     = inl UnicodeDecodeError
  /\ ~ exists result,
        @_extract_layouts_from_zip Sample.ext (list_byte_of_string "BAD")
        = inr result.
Proof.
  assert (@_extract_layouts_from_zip Sample.ext (list_byte_of_string "BAD")
          = inl UnicodeDecodeError) as Hres by (by vm_compute).
  split; [by vm_compute|]. split; [by vm_compute|]. split; [by vm_compute|].
  split; [exact Hres|]. intros [result Hok]. by rewrite Hres in Hok.
Qed.

(** C7, witness. The same archive satisfies the amended statement. *)
Lemma undecodable_layout_aborts_extraction_witness :
  let entry := "unpackaged/layouts/Account-Account Layout.layout" in
  @zip_open Sample.ext (list_byte_of_string "BAD") = inr Sample.archive_undecodable
  /\ entry ∈ map fst Sample.archive_undecodable
  /\ @layout_entry Sample.ext entry
  /\ zip_read Sample.archive_undecodable entry = inr [Byte.xff]
  /\ decode_utf8 [Byte.xff] = None
  /\ @_extract_layouts_from_zip Sample.ext (list_byte_of_string "BAD")
     = inl UnicodeDecodeError.
Proof.
  intros entry.
  assert (@zip_open Sample.ext (list_byte_of_string "BAD")
          = inr Sample.archive_undecodable) as Hopen by (by vm_compute).
  assert (entry ∈ map fst Sample.archive_undecodable) as Hin.
  { vm_compute. constructor. }
  assert (@layout_entry Sample.ext entry) as Hlay.
  { split; [by vm_compute|]. right. by vm_compute. }
  assert (zip_read Sample.archive_undecodable entry = inr [Byte.xff]) as Hread
    by (by vm_compute).
  assert (decode_utf8 [Byte.xff] = None) as Hdec by (by vm_compute).
  split; [exact Hopen|]. split; [exact Hin|]. split; [exact Hlay|].
  split; [exact Hread|]. split; [exact Hdec|].
  destruct (@undecodable_layout_aborts_extraction Sample.ext
              (list_byte_of_string "BAD") Sample.archive_undecodable Hopen)
    as [Habort _].
  exact (Habort entry [Byte.xff] Hin Hlay Hread Hdec).
Defined.

(** The archive of the sample source org holds an undecodable entry that is
    not a layout ([package.xml]); its layouts are extracted. *)
Example undecodable_other_entry_is_ignored :
  zip_read Sample.archive_src "unpackaged/package.xml" = inr [Byte.xff]
  /\ decode_utf8 [Byte.xff] = None
  /\ match @_extract_layouts_from_zip Sample.ext (list_byte_of_string "SRC") with
     | inr extracted =>
         extracted !! "Account-Account Layout" = Some Sample.xml_info2
         /\ extracted !! "package" = None
     | inl _ => False
     end.
Proof. vm_compute. by repeat split. Qed.

(** *** C6, C8, C4: runs of the tool against the prompt service *)


(** C8, witness. Six pieces, not in alphabetical order, one of them blank,
    one padded and one name given twice, requested from two different orgs
    whose archives list the layouts in other orders. *)
Lemma report_rows_follow_caller_order_witness :
  let pieces :=
    ["Task-Task Layout"; " Case-Case Layout "; ""; "Account-Account Layout";
     "Lead-Lead Layout"; "Case-Case Layout"] in
  let run :=
    @compare_page_layouts Sample.ext
      "Task-Task Layout, Case-Case Layout ,,Account-Account Layout,Lead-Lead Layout,Case-Case Layout"
      None (Some "005T") None Sample.world0 in
  Forall (fun p => contains "," p = false) pieces
  /\ supplied_names pieces
     = ["Task-Task Layout"; "Case-Case Layout"; "Account-Account Layout";
        "Lead-Lead Layout"; "Case-Case Layout"]
  /\ exists d rows,
      run.1 = Ok (SuccessResponse d)
      /\ files run.2 = [(csv_file d, rows)]
      /\ map (dict_get "Source Layout Name") rows
         = [Some (CStr "Task-Task Layout"); Some (CStr "Case-Case Layout");
            Some (CStr "Account-Account Layout"); Some (CStr "Lead-Lead Layout");
            Some (CStr "Case-Case Layout")].
Proof.
  intros pieces run.
  assert (Forall (fun p => contains "," p = false) pieces) as Hpieces.
  { repeat constructor. }
  assert (supplied_names pieces
          = ["Task-Task Layout"; "Case-Case Layout"; "Account-Account Layout";
             "Lead-Lead Layout"; "Case-Case Layout"]) as Hnames by (by vm_compute).
  split; [exact Hpieces|]. split; [exact Hnames|].
  destruct (@report_rows_follow_caller_order Sample.ext pieces None
              (Some "005T") None Sample.world0 run.1 run.2 Hpieces)
    as [(e & ctx & Herr & _)|(d & sl & tl & Hok & Hfiles & Horder & _)].
  - apply surjective_pairing.
  - exfalso. revert Herr. by vm_compute.
  - exists d, (map (fun n => (@compare_one Sample.ext sl tl n).1)
                 (supplied_names pieces)).
    split; [exact Hok|]. split; [exact Hfiles|].
    rewrite Horder, Hnames. reflexivity.
Defined.

(** C4, witness. Both selectors left blank: one org, one retrieve. *)
Lemma same_org_retrieves_once_and_reports_no_diff_witness :
  let run :=
    @compare_page_layouts Sample.ext Sample.requested None None None
      Sample.world0 in
  requested_names Sample.requested <> []
  /\ @_get_org_credentials Sample.ext None
     = inr (Sample.src_url, "TOKEN-S", "59.0")
  /\ retrieve_count (posts run.2) = 1%nat
  /\ exists d, run.1 = Ok (SuccessResponse d) /\ same_org d = true.
Proof.
  intros run.
  assert (requested_names Sample.requested <> []) as Hnames by (by vm_compute).
  assert (@_get_org_credentials Sample.ext None
          = inr (Sample.src_url, "TOKEN-S", "59.0")) as Hcred by (by vm_compute).
  split; [exact Hnames|]. split; [exact Hcred|].
  destruct (@same_org_retrieves_once_and_reports_no_diff Sample.ext
              Sample.requested None None None Sample.src_url "TOKEN-S" "59.0"
              "59.0" Sample.world0 run.1 run.2 Hnames Hcred Hcred)
    as (r1 & w1 & _ & _ & Hcount & Hres).
  - apply surjective_pairing.
  - split; [exact Hcount|].
    destruct Hres as [(e & ctx & Herr & _)|(d & layouts & _ & Hok & Hsame & _)].
    + exfalso. revert Herr. by vm_compute.
    + by exists d.
Defined.

(** *** C5: services that never complete *)

Lemma sample_never_done (net : World -> SoapCall -> (Exn + HttpResponse) * N)
    (meta_url token api_version : string) (retrieve_id : option string)
    (deadline : Z) :
  (forall w,
     net w (status_call meta_url token api_version retrieve_id)
     = Sample.answer Sample.xml_pending) ->
  @never_done_before (Sample.externals net) meta_url token api_version
    retrieve_id deadline.
Proof.
  intros Hnet w _. eexists _, _, Sample.tree_pending.
  split; [apply Hnet|]. split; [reflexivity|]. split; by vm_compute.
Qed.

Lemma sample_job_started (net : World -> SoapCall -> (Exn + HttpResponse) * N)
    (meta_url token api_version : string) (names : list string) (w : World) :
  net w (retrieve_call meta_url token api_version names)
  = Sample.answer Sample.xml_submitted ->
  @job_started (Sample.externals net) meta_url token api_version names w
    (Some "09S1") (now w + 250).
Proof.
  intros Hnet. eexists _, _, Sample.tree_submitted, _.
  split; [apply Hnet|]. split; [reflexivity|]. split; [by vm_compute|].
  split; [by vm_compute|]. by split.
Qed.

(** C5, counterexample. Against the late sample service no answer that
    arrives before the deadline (120.25 s on the clock) carries the flag
    [true]: the first answer with the flag belongs to the poll started at
    117.43 s and arrives at 127.43 s.  The code accepts it: the retrieve
    completes and the report is written, no [TimeoutError], no abort. *)
Lemma late_answer_completes_after_the_deadline :
  let late := Sample.externals net_late in
  let meta_url := Sample.src_url ++ "/services/Soap/m/59.0" in
  let run :=
    @compare_page_layouts late Sample.requested None None None Sample.world0 in
  @job_started late meta_url "TOKEN-S" "59.0"
    (requested_names Sample.requested) Sample.world0 (Some "09S1") 250
  /\ @never_seen_done_before late meta_url "TOKEN-S" "59.0" (Some "09S1")
       (250 + 120000)
  /\ match run.1 with
     | Ok (SuccessResponse d) =>
         exists rows, files run.2 = [(csv_file d, rows)] /\ List.length rows = 4%nat
     | _ => False
     end
  /\ now run.2 = 127430
  /\ 250 + 120000 < now run.2.
Proof.
  intros late meta_url run.
  split; [by apply (sample_job_started net_late)|].
  split.
  { intros w resp elapsed root Hpost Harrive Hcode Hroot.
    unfold late, requests_post, Sample.externals, net_late in Hpost.
    change (String.eqb (call_action (status_call meta_url "TOKEN-S" "59.0" (Some "09S1"))) "retrieve")
      with false in Hpost.
    cbn iota in Hpost.
    destruct (now w <? 117000) eqn:Hnow.
    - injection Hpost as <- <-.
      vm_compute in Hroot. injection Hroot as <-. by vm_compute.
    - injection Hpost as <- <-. apply Z.ltb_ge in Hnow. lia. }
  assert (now run.2 = 127430) as Hclock by (by vm_compute).
  split; [|split; [exact Hclock|rewrite Hclock; lia]].
  vm_compute. eexists. split; reflexivity.
Qed.

(** C5, witness. Against the sample service that never completes a
    retrieve the run times out on the source org; against the one that
    completes the source org only, it times out on the target org; against
    the late service the poll started at 117.43 s ends the loop at
    127.43 s, after the deadline. *)
Lemma stalled_retrieve_times_out_and_writes_nothing_witness :
  let stalled := Sample.externals Sample.net_stalled in
  let target_stalled := Sample.externals Sample.net_target_stalled in
  let late := Sample.externals net_late in
  let run1 :=
    @compare_page_layouts stalled Sample.requested None (Some "005T") None
      Sample.world0 in
  let run2 :=
    @compare_page_layouts target_stalled Sample.requested None (Some "005T")
      None Sample.world0 in
  let meta_url := Sample.src_url ++ "/services/Soap/m/59.0" in
  let w1 := {| now := 117430; posts := []; files := [] |} in
  let resp :=
    {| status_code := 200; resp_text := Sample.xml_done "U1JD";
       resp_content := list_byte_of_string (Sample.xml_done "U1JD") |} in
  requested_names Sample.requested <> []
  /\ @job_started stalled meta_url "TOKEN-S"
       "59.0" (requested_names Sample.requested) Sample.world0 (Some "09S1") 250
  /\ @never_done_before stalled meta_url
       "TOKEN-S" "59.0" (Some "09S1") (250 + 120000)
  /\ (run1.1 = Ok (ErrorResponse (TimeoutError (timeout_message Sample.src_url))
                     "compare_page_layouts (fetch source layouts)")
      /\ files run1.2 = [])
  /\ (run2.1 = Ok (ErrorResponse (TimeoutError (timeout_message Sample.tgt_url))
                     "compare_page_layouts (fetch target layouts)")
      /\ files run2.2 = [])
  /\ now w1 < 250 + 120000
  /\ @requests_post late w1 (status_call meta_url "TOKEN-S" "59.0" (Some "09S1"))
     = (inr resp, 10000%N)
  /\ text_is (_find_el (Sample.tree_done "U1JD") "done") "true" = true
  /\ exists w2,
      @poll_until_done late 1 Sample.src_url meta_url "TOKEN-S" "59.0"
        (Some "09S1") (250 + 120000) w1
      = (@completed_outcome late Sample.src_url (Sample.tree_done "U1JD"), w2)
      /\ now w2 = 127430.
Proof.
  intros stalled target_stalled late run1 run2 meta_url w1 resp.
  assert (requested_names Sample.requested <> []) as Hnames by (by vm_compute).
  assert (@job_started stalled meta_url
            "TOKEN-S" "59.0" (requested_names Sample.requested) Sample.world0
            (Some "09S1") 250) as Hstart.
  { by apply (sample_job_started Sample.net_stalled). }
  assert (@never_done_before stalled meta_url
            "TOKEN-S" "59.0" (Some "09S1") (250 + 120000)) as Hnever.
  { by apply sample_never_done. }
  assert (now w1 < 250 + 120000) as Hnow by (by vm_compute).
  assert (@requests_post late w1
            (status_call meta_url "TOKEN-S" "59.0" (Some "09S1"))
          = (inr resp, 10000%N)) as Hpost by (by vm_compute).
  assert (text_is (_find_el (Sample.tree_done "U1JD") "done") "true" = true)
    as Hdone by (by vm_compute).
  split; [exact Hnames|]. split; [exact Hstart|]. split; [exact Hnever|].
  split; [|split; [|split; [exact Hnow|split; [exact Hpost|split; [exact Hdone|]]]]].
  - destruct (@stalled_retrieve_times_out_and_writes_nothing stalled
                Sample.requested None (Some "005T") None
                Sample.src_url "TOKEN-S" "59.0" Sample.tgt_url "TOKEN-T" "59.0"
                Sample.world0 Hnames) as [Hsrc _]; [by vm_compute..|].
    destruct (Hsrc (Some "09S1") 250 Hstart Hnever) as (Hres & Hfiles & _).
    by split.
  - destruct (@stalled_retrieve_times_out_and_writes_nothing target_stalled
                Sample.requested None (Some "005T") None
                Sample.src_url "TOKEN-S" "59.0" Sample.tgt_url "TOKEN-T" "59.0"
                Sample.world0 Hnames) as [_ [Htgt _]]; [by vm_compute..|].
    pose (fetched :=
            @_fetch_all_layouts target_stalled Sample.src_url "TOKEN-S" "59.0"
              (requested_names Sample.requested) Sample.world0).
    pose (src_layouts :=
            match fetched.1 with Ok layouts => layouts | _ => ∅ end).
    destruct (Htgt src_layouts fetched.2 (Some "09S1") (now fetched.2 + 250))
      as (Hres & Hfiles & _).
    + vm_compute. reflexivity.
    + vm_compute. reflexivity.
    + by apply (sample_job_started Sample.net_target_stalled).
    + by apply sample_never_done.
    + by split.
  - destruct (@stalled_retrieve_times_out_and_writes_nothing late
                Sample.requested None None None
                Sample.src_url "TOKEN-S" "59.0" Sample.src_url "TOKEN-S" "59.0"
                Sample.world0 Hnames) as [_ [_ Hlate]]; [by vm_compute..|].
    destruct (Hlate Sample.src_url "TOKEN-S" (Some "09S1") (250 + 120000) 0%nat
                w1 resp 10000%N (Sample.tree_done "U1JD") Hnow Hpost)
      as (w2 & Hpoll & Hclock & _); [by vm_compute..|exact Hdone|].
    exists w2. split; [exact Hpoll|]. rewrite Hclock. reflexivity.
Defined.

(** *** Further runs of the code *)

Lemma summary_counts_agree_with_the_report_witness :
  let run :=
    @compare_page_layouts Sample.ext Sample.requested None (Some "005T") None
      Sample.world0 in
  exists d,
    run = (Ok (SuccessResponse d), run.2)
    /\ total_layouts d = 4%nat
    /\ (compared d + not_found d + errors d = 4)%nat.
Proof.
  intros run.
  pose (d := match run.1 with
             | Ok (SuccessResponse d) => d
             | _ => {| message := ""; csv_file := ""; total_layouts := 0;
                       compared := 0; not_found := 0; errors := 0;
                       same_org := false; source_org := ""; target_org := "";
                       api_version := ""; summary := [] |}
             end).
  assert (run = (Ok (SuccessResponse d), run.2)) as Hrun
    by (vm_compute; reflexivity).
  exists d. split; [exact Hrun|].
  destruct (@summary_counts_agree_with_the_report Sample.ext Sample.requested
              None (Some "005T") None Sample.world0 d run.2 Hrun)
    as (rows & _ & _ & _ & Htotal & _ & _ & _ & Hsum).
  rewrite Hsum. split; [|reflexivity]. rewrite Htotal. by vm_compute.
Defined.

Lemma requested_names_round_trip_witness :
  let names := ["Account-Account Layout"; "Case-Case Layout"] in
  names <> [] /\ Forall clean_name names
  /\ requested_names "Account-Account Layout,Case-Case Layout" = names.
Proof.
  intros names.
  assert (names <> []) as Hne by done.
  assert (Forall clean_name names) as Hall.
  { repeat constructor; by vm_compute. }
  split; [exact Hne|]. split; [exact Hall|].
  exact (requested_names_round_trip names Hne Hall).
Defined.

Lemma blank_names_are_rejected_without_effects_witness :
  Forall whitespace_only (split "," " , ,,")
  /\ @compare_page_layouts Sample.ext " , ,," None (Some "005T") None
       Sample.world0
     = (Ok (ErrorResponse (ValueError "layout_names must not be empty.")
              "compare_page_layouts"), Sample.world0).
Proof.
  assert (Forall whitespace_only (split "," " , ,,")) as Hblank.
  { apply requested_names_nil_iff. by vm_compute. }
  split; [exact Hblank|].
  exact (@blank_names_are_rejected_without_effects Sample.ext " , ,," None
           (Some "005T") None Sample.world0 Hblank).
Defined.

Lemma related_lists_are_first_bound_names_witness :
  @etree_fromstring Sample.ext (list_byte_of_string Sample.xml_info2)
    = inr Sample.tree_info2
  /\ exists model,
      @_parse_layout Sample.ext Sample.xml_info2 = inr model
      /\ "RelatedContactList" ∈ related_lists model
      /\ (size (related_lists model) <= 1)%nat.
Proof.
  split; [by vm_compute|].
  destruct (@related_lists_are_first_bound_names Sample.ext Sample.xml_info2
              Sample.tree_info2)
    as (model & Hparse & Hin & Hsize); [by vm_compute|].
  exists model. split; [exact Hparse|]. split; [|exact Hsize].
  apply Hin.
  exists (Sample.el "relatedLists" None
            [Sample.el "relatedList" (Some "RelatedContactList") []]),
    (Sample.el "relatedList" (Some "RelatedContactList") []),
    "RelatedContactList".
  split; [vm_compute; constructor|]. by repeat split.
Defined.

Lemma section_count_is_number_of_distinct_labels_witness :
  @etree_fromstring Sample.ext (list_byte_of_string Sample.xml_dup)
    = inr Sample.tree_dup
  /\ exists model,
      @_parse_layout Sample.ext Sample.xml_dup = inr model
      /\ List.length (findall "layoutSections" Sample.tree_dup) = 2%nat
      /\ source_section_count (_compare model model) = 1%nat.
Proof.
  split; [by vm_compute|].
  destruct (@section_count_is_number_of_distinct_labels Sample.ext
              Sample.xml_dup Sample.tree_dup (layout_of_root Sample.tree_dup))
    as (model & Hparse & _ & Hcount & _); [by vm_compute|].
  exists model. split; [exact Hparse|]. split; [reflexivity|].
  assert (model = layout_of_root Sample.tree_dup) as ->.
  { assert (@_parse_layout Sample.ext Sample.xml_dup
            = inr (layout_of_root Sample.tree_dup)) as H by (by vm_compute).
    congruence. }
  rewrite Hcount. reflexivity.
Defined.

Lemma report_rows_have_the_csv_columns_witness :
  let run :=
    @compare_page_layouts Sample.ext Sample.requested None (Some "005T") None
      Sample.world0 in
  exists reports,
    files run.2 = reports
    /\ List.length reports = 1%nat
    /\ Forall (fun report =>
                 Forall (fun row => dict_keys row = CSV_COLUMNS) report.2)
         reports.
Proof.
  intros run.
  destruct (@report_rows_have_the_csv_columns Sample.ext Sample.requested None
              (Some "005T") None Sample.world0 run.1 run.2)
    as (reports & Hfiles & _ & Hcols); [apply surjective_pairing|].
  exists reports. split; [exact Hfiles|]. split; [|exact Hcols].
  change (Sample.world0.(files) ++ reports)%list with reports in Hfiles.
  rewrite <- Hfiles. by vm_compute.
Defined.

Lemma run_contacts_source_then_target_witness :
  let run :=
    @compare_page_layouts Sample.ext Sample.requested None (Some "005T") None
      Sample.world0 in
  let names := requested_names Sample.requested in
  requested_names Sample.requested <> []
  /\ @_get_org_credentials Sample.ext None
     = inr (Sample.src_url, "TOKEN-S", "59.0")
  /\ @_get_org_credentials Sample.ext (Some "005T")
     = inr (Sample.tgt_url, "TOKEN-T", "59.0")
  /\ exists src_id src_polls tgt_id tgt_polls,
      posts run.2
      = (fetch_calls Sample.src_url "TOKEN-S" "59.0" names src_id src_polls
         ++ fetch_calls Sample.tgt_url "TOKEN-T" "59.0" names tgt_id tgt_polls)%list.
Proof.
  intros run names.
  assert (requested_names Sample.requested <> []) as Hnames by (by vm_compute).
  assert (@_get_org_credentials Sample.ext None
          = inr (Sample.src_url, "TOKEN-S", "59.0")) as Hsrc by (by vm_compute).
  assert (@_get_org_credentials Sample.ext (Some "005T")
          = inr (Sample.tgt_url, "TOKEN-T", "59.0")) as Htgt by (by vm_compute).
  split; [exact Hnames|]. split; [exact Hsrc|]. split; [exact Htgt|].
  destruct (@run_contacts_source_then_target Sample.ext Sample.requested None
              (Some "005T") None Sample.src_url "TOKEN-S" "59.0" Sample.tgt_url
              "TOKEN-T" "59.0" Sample.world0 run.1 run.2 Hnames Hsrc Htgt)
    as (src_id & src_polls & tgt_calls & Hposts & _ & Htgt_calls & _ & _ & Hboth);
    [apply surjective_pairing|].
  destruct Htgt_calls as [->|(_ & tgt_id & tgt_polls & _ & ->)].
  - exfalso. apply (Hboth (success_data run.1)); [by vm_compute..|done].
  - exists src_id, src_polls, tgt_id, tgt_polls. exact Hposts.
Defined.

Lemma same_org_rows_are_never_one_sided_witness :
  let run :=
    @compare_page_layouts Sample.ext Sample.requested None None None
      Sample.world0 in
  let d := success_data run.1 in
  run = (Ok (SuccessResponse d), run.2)
  /\ same_org d = true
  /\ exists rows,
      files run.2 = [(csv_file d, rows)]
      /\ Forall (fun row =>
                   row_status row <> Some (CStr "Source Not Found")
                   /\ row_status row <> Some (CStr "Target Not Found")) rows.
Proof.
  intros run d.
  assert (run = (Ok (SuccessResponse d), run.2)) as Hrun
    by (vm_compute; reflexivity).
  assert (same_org d = true) as Hsame by (by vm_compute).
  split; [exact Hrun|]. split; [exact Hsame|].
  exact (@same_org_rows_are_never_one_sided Sample.ext Sample.requested None
           None None Sample.world0 d run.2 Hrun Hsame).
Defined.

Lemma extracted_map_holds_the_last_entry_of_each_key_witness :
  let extracted :=
    match @_extract_layouts_from_zip Sample.ext (list_byte_of_string "SRC") with
    | inr m => m
    | inl _ => ∅
    end in
  @zip_open Sample.ext (list_byte_of_string "SRC") = inr Sample.archive_src
  /\ @_extract_layouts_from_zip Sample.ext (list_byte_of_string "SRC")
     = inr extracted
  /\ extracted !! "Lead-Lead Layout" = Some Sample.xml_dup
  /\ extracted !! "package" = None.
Proof.
  intros extracted.
  assert (@zip_open Sample.ext (list_byte_of_string "SRC")
          = inr Sample.archive_src) as Hopen by (by vm_compute).
  assert (@_extract_layouts_from_zip Sample.ext (list_byte_of_string "SRC")
          = inr extracted) as Hextract by (vm_compute; reflexivity).
  split; [exact Hopen|]. split; [exact Hextract|].
  pose proof (@extracted_map_holds_the_last_entry_of_each_key Sample.ext
                (list_byte_of_string "SRC") Sample.archive_src extracted
                Hopen Hextract) as Hmap.
  split; rewrite Hmap; by vm_compute.
Defined.

Lemma http_error_quotes_at_most_600_characters_witness :
  let down := Sample.externals Faults.net_unavailable in
  let call := {| call_url := Sample.src_url; call_body := [];
                 call_action := "retrieve" |} in
  @requests_post down Sample.world0 call = (inr Faults.unavailable, 40%N)
  /\ status_code Faults.unavailable <> 200
  /\ exists w',
      @_soap_post down Sample.src_url [] "retrieve" Sample.world0
      = (Raise (RuntimeError
                  "Metadata API call 'retrieve' failed (HTTP 503): Service Unavailable"),
         w')
      /\ posts w' = [call].
Proof.
  intros down call.
  assert (@requests_post down Sample.world0 call
          = (inr Faults.unavailable, 40%N)) as Hpost by reflexivity.
  assert (status_code Faults.unavailable <> 200) as Hcode by (by vm_compute).
  split; [exact Hpost|]. split; [exact Hcode|].
  destruct (@http_error_quotes_at_most_600_characters down Sample.src_url []
              "retrieve" Sample.world0 Faults.unavailable 40%N Hpost Hcode)
    as (excerpt & rest & w' & Hrun & _ & _ & Hall & Hposts & _).
  exists w'. split; [|exact Hposts].
  rewrite Hrun, Hall; [reflexivity|].
  apply Nat.leb_le. by vm_compute.
Defined.

Lemma unknown_target_org_stops_before_any_call_witness :
  requested_names Sample.requested <> []
  /\ @_get_org_credentials Sample.ext None
     = inr (Sample.src_url, "TOKEN-S", "59.0")
  /\ @get_stored_tokens Sample.ext
     = inr {[ "005T" := (Sample.tgt_url, "TOKEN-T") ]}
  /\ ({[ "005T" := (Sample.tgt_url, "TOKEN-T") ]}
        : gmap string (string * string)) !! "005X" = None
  /\ @compare_page_layouts Sample.ext Sample.requested None (Some "005X") None
       Sample.world0
     = (Ok (ErrorResponse
              (ValueError
                 "No active session found for org user_id='005X'. Run list_connected_orgs to see connected orgs, then login first.")
              "compare_page_layouts (target org)"), Sample.world0).
Proof.
  assert (requested_names Sample.requested <> []) as Hnames by (by vm_compute).
  assert (@_get_org_credentials Sample.ext None
          = inr (Sample.src_url, "TOKEN-S", "59.0")) as Hsrc by (by vm_compute).
  assert (@get_stored_tokens Sample.ext
          = inr {[ "005T" := (Sample.tgt_url, "TOKEN-T") ]}) as Htokens
    by reflexivity.
  assert (({[ "005T" := (Sample.tgt_url, "TOKEN-T") ]}
             : gmap string (string * string)) !! "005X" = None) as Huid
    by (by vm_compute).
  split; [exact Hnames|]. split; [exact Hsrc|]. split; [exact Htokens|].
  split; [exact Huid|].
  exact (@unknown_target_org_stops_before_any_call Sample.ext Sample.requested
           None None "005X" _ _ Sample.world0 Hnames Hsrc Htokens Huid).
Defined.

Lemma completed_first_poll_decides_the_fetch_witness :
  let meta_url := Sample.src_url ++ "/services/Soap/m/59.0" in
  let names := requested_names Sample.requested in
  @job_started Faults.failing meta_url "TOKEN-S" "59.0" names Sample.world0
    (Some "09S1") 250
  /\ @poll_answered Faults.failing meta_url "TOKEN-S" "59.0" (Some "09S1")
       Faults.tree_failed
  /\ text_is (_find_el Faults.tree_failed "done") "true" = true
  /\ text_is (_find_el Faults.tree_failed "status") "Failed" = true
  /\ exists w',
      @_fetch_all_layouts Faults.failing Sample.src_url "TOKEN-S" "59.0" names
        Sample.world0
      = (Raise (RuntimeError
                  "Retrieve failed on https://src.example.my.salesforce.com: None"),
         w')
      /\ List.length (posts w') = 2%nat.
Proof.
  intros meta_url names.
  assert (@job_started Faults.failing meta_url "TOKEN-S" "59.0" names
            Sample.world0 (Some "09S1") 250) as Hstart.
  { eexists _, _, Sample.tree_submitted, _.
    split; [reflexivity|]. split; [reflexivity|]. split; [by vm_compute|].
    split; [by vm_compute|]. by split. }
  assert (@poll_answered Faults.failing meta_url "TOKEN-S" "59.0" (Some "09S1")
            Faults.tree_failed) as Hpoll.
  { intros w. eexists _, _. split; [reflexivity|]. split; [reflexivity|].
    by vm_compute. }
  assert (text_is (_find_el Faults.tree_failed "done") "true" = true) as Hdone
    by (by vm_compute).
  assert (text_is (_find_el Faults.tree_failed "status") "Failed" = true)
    as Hfailed by (by vm_compute).
  split; [exact Hstart|]. split; [exact Hpoll|]. split; [exact Hdone|].
  split; [exact Hfailed|].
  destruct (@completed_first_poll_decides_the_fetch Faults.failing
              Sample.src_url "TOKEN-S" "59.0" names Sample.world0 (Some "09S1")
              250 Faults.tree_failed Hstart Hpoll Hdone)
    as (w' & Hfetch & Hposts & _ & Hmsg & _).
  exists w'. split.
  - rewrite Hfetch, (Hmsg Hfailed). reflexivity.
  - rewrite Hposts. reflexivity.
Defined.

Lemma missing_job_id_stops_after_one_call_witness :
  let no_id := Sample.externals Faults.net_no_id in
  let meta_url := Sample.src_url ++ "/services/Soap/m/59.0" in
  let names := requested_names Sample.requested in
  @requests_post no_id Sample.world0
    (retrieve_call meta_url "TOKEN-S" "59.0" names)
  = Sample.answer Sample.xml_pending
  /\ @etree_fromstring no_id (list_byte_of_string Sample.xml_pending)
     = inr Sample.tree_pending
  /\ _find_el Sample.tree_pending "id" = None
  /\ exists w',
      @_fetch_all_layouts no_id Sample.src_url "TOKEN-S" "59.0" names
        Sample.world0
      = (Raise (RuntimeError
                  "No retrieve ID returned from https://src.example.my.salesforce.com. Check org credentials and API version."),
         w')
      /\ posts w' = [retrieve_call meta_url "TOKEN-S" "59.0" names].
Proof.
  intros no_id meta_url names.
  assert (@requests_post no_id Sample.world0
            (retrieve_call meta_url "TOKEN-S" "59.0" names)
          = Sample.answer Sample.xml_pending) as Hpost by reflexivity.
  assert (@etree_fromstring no_id (list_byte_of_string Sample.xml_pending)
          = inr Sample.tree_pending) as Hroot by (by vm_compute).
  assert (_find_el Sample.tree_pending "id" = None) as Hid by (by vm_compute).
  split; [exact Hpost|]. split; [exact Hroot|]. split; [exact Hid|].
  destruct (@missing_job_id_stops_after_one_call no_id Sample.src_url "TOKEN-S"
              "59.0" names Sample.world0 _ _ Sample.tree_pending Hpost
              eq_refl Hroot Hid)
    as (w' & Hfetch & Hposts & _).
  exists w'. split; [exact Hfetch|exact Hposts].
Defined.

Lemma unwritable_documents_directory_leaves_no_report_witness :
  let run :=
    @compare_page_layouts Faults.readonly Sample.requested None (Some "005T")
      None Sample.world0 in
  @os_makedirs Faults.readonly
    (@os_path_join Faults.readonly (@os_getcwd Faults.readonly) "Documents")
  = Some (External "PermissionError" "[Errno 13] Permission denied")
  /\ files run.2 = []
  /\ run.1 = Ok (ErrorResponse
                   (External "PermissionError" "[Errno 13] Permission denied")
                   "compare_page_layouts").
Proof.
  intros run.
  assert (@os_makedirs Faults.readonly
            (@os_path_join Faults.readonly (@os_getcwd Faults.readonly)
               "Documents")
          = Some (External "PermissionError" "[Errno 13] Permission denied"))
    as Hdir by reflexivity.
  split; [exact Hdir|].
  destruct (@unwritable_documents_directory_leaves_no_report Faults.readonly
              Sample.requested None (Some "005T") None _ Sample.world0
              run.1 run.2 Hdir) as [Hfiles _]; [apply surjective_pairing|].
  split; [exact Hfiles|]. by vm_compute.
Defined.
